(** * WranglesPY: column matching, function resolution, parameter binding
      and the column projection of the recipe wrangles

    A shallow embedding of [wrangles/utils.py] and of the input/output
    handling of [wrangles/recipe_wrangles/extract.py],
    [wrangles/recipe_wrangles/split.py] and
    [wrangles/recipe_wrangles/format.py], with the properties that the
    design document states about them and further properties that the
    code has.

    Conventions of the embedding:
    - a Python [str] is a [string]; a character is a code point below 256;
    - a Python [dict] whose order is observable is an association list
      with the insertion discipline of Python ([PyDict]); a dict that is
      only looked up is a [gmap];
    - a raised exception is the [Raise] branch of [result]; the
      constructors of [exn] are the exception classes the code raises;
    - code outside the repository (the [re] module, [json.loads], the
      transforms of [wrangles.extract] and [wrangles.format], the
      conversions of pandas) is a variable of the section that uses it. *)

From Stdlib Require Import String Ascii List Arith Lia DecimalString DecimalNat.
From stdpp Require Import base option list strings gmap.

Local Open Scope string_scope.
Local Open Scope nat_scope.
Local Open Scope list_scope.
Local Open Scope stdpp_scope.
#[global] Set Warnings "-clear-no-such-hyp".

(** ** Exceptions and results *)

Inductive exn : Type :=
  | ValueError (msg : string)
  | KeyError (msg : string)
  | IndexError (msg : string)
  | TypeError (msg : string)
  | AttributeError (msg : string)
  | ReError (msg : string)
  | JSONDecodeError (msg : string)
  | Unmodelled (what : string).

Inductive result (A : Type) : Type :=
  | Ok (a : A)
  | Raise (e : exn).

Arguments Ok {A} a.
Arguments Raise {A} e.

(** [result] is a monad; the notation [x ← r; k] is stdpp's. *)
#[global] Instance result_ret : MRet result := λ A a, Ok a.
#[global] Instance result_bind : MBind result := λ A B k r,
  match r with
  | Ok a => k a
  | Raise e => Raise e
  end.

(** [for x in l: ...] with a state threaded through and the first raise
    ending the loop. *)
Fixpoint rfold {A S} (body : S → A → result S) (s : S) (l : list A) : result S :=
  match l with
  | [] => Ok s
  | x :: l' => s' ← body s x; rfold body s' l'
  end.

(** A list comprehension whose element expression may raise. *)
Fixpoint rmap {A B} (f : A → result B) (l : list A) : result (list B) :=
  match l with
  | [] => Ok []
  | x :: l' => y ← f x; ys ← rmap f l'; Ok (y :: ys)
  end.

Definition is_ok {A} (r : result A) : bool :=
  match r with Ok _ => true | Raise _ => false end.

(** ** Python strings *)

Module PyStr.

Definition backslash : ascii := ascii_of_nat 92.
Definition star : ascii := "*"%char.
Definition newline : ascii := ascii_of_nat 10.

Definition eqc (a b : ascii) : bool := Ascii.eqb a b.

(** [str.lower] on one character.  Only the letters A-Z have an ASCII
    lower case; the upper-case letters of Latin-1 move inside Latin-1. *)
Definition lower_char (c : ascii) : ascii :=
  let n := nat_of_ascii c in
  if ((65 <=? n) && (n <=? 90))%nat then ascii_of_nat (n + 32)
  else if ((192 <=? n) && (n <=? 222) && negb (n =? 215))%nat
       then ascii_of_nat (n + 32)
  else c.

Fixpoint lower (s : string) : string :=
  match s with
  | EmptyString => EmptyString
  | String c s' => String (lower_char c) (lower s')
  end.

(** [s.startswith(p)] *)
Fixpoint startswith (p s : string) : bool :=
  match p, s with
  | EmptyString, _ => true
  | String a p', String b s' => eqc a b && startswith p' s'
  | String _ _, EmptyString => false
  end.

(** [s[n:]] *)
Fixpoint drop (n : nat) (s : string) : string :=
  match n, s with
  | O, _ => s
  | S n', String _ s' => drop n' s'
  | S _, EmptyString => EmptyString
  end.

(** [str.isspace] for one character below 256. *)
Definition is_space (c : ascii) : bool :=
  let n := nat_of_ascii c in
  (((9 <=? n) && (n <=? 13)) || ((28 <=? n) && (n <=? 32))
   || (n =? 133) || (n =? 160))%nat.

Fixpoint lstrip (s : string) : string :=
  match s with
  | String c s' => if is_space c then lstrip s' else s
  | EmptyString => EmptyString
  end.

Fixpoint rstrip (s : string) : string :=
  match s with
  | EmptyString => EmptyString
  | String c s' =>
      match rstrip s' with
      | EmptyString => if is_space c then EmptyString else String c EmptyString
      | r => String c r
      end
  end.

(** [s.strip()] *)
Definition strip (s : string) : string := rstrip (lstrip s).

(** [s[-1]]: [None] stands for the IndexError of the empty string. *)
Fixpoint last_char (s : string) : option ascii :=
  match s with
  | EmptyString => None
  | String c EmptyString => Some c
  | String _ s' => last_char s'
  end.

(** [s[:-1]] *)
Fixpoint drop_last (s : string) : string :=
  match s with
  | EmptyString => EmptyString
  | String _ EmptyString => EmptyString
  | String c s' => String c (drop_last s')
  end.

(** [c in s] for a one-character [c] *)
Fixpoint contains (c : ascii) (s : string) : bool :=
  match s with
  | EmptyString => false
  | String a s' => eqc a c || contains c s'
  end.

(** [s.replace(c, by)] for a one-character [c] *)
Fixpoint replace_char (c : ascii) (by_ : string) (s : string) : string :=
  match s with
  | EmptyString => EmptyString
  | String a s' =>
      if eqc a c then by_ +:+ replace_char c by_ s'
      else String a (replace_char c by_ s')
  end.

(** [s.split(sep)] for a one-character [sep]; never the empty list. *)
Fixpoint split (sep : ascii) (s : string) : list string :=
  match s with
  | EmptyString => [EmptyString]
  | String a s' =>
      if eqc a sep then EmptyString :: split sep s'
      else match split sep s' with
           | [] => [String a EmptyString]
           | w :: ws => String a w :: ws
           end
  end.

(** [sep.join(l)] *)
Fixpoint join (sep : string) (l : list string) : string :=
  match l with
  | [] => EmptyString
  | [x] => x
  | x :: l' => x +:+ sep +:+ join sep l'
  end.

(** [str(n)] for a non-negative integer *)
Definition of_nat (n : nat) : string :=
  NilZero.string_of_uint (Nat.to_uint n).

End PyStr.


(** ** Python dicts with observable order

    Keys keep the position of their first insertion; assigning to a key
    that is already there replaces its value in place. *)

Module PyDict.
Section dict.
Context {V : Type}.

(** [d.get(k)], and [d[k]] when it is there *)
Fixpoint get (k : string) (d : list (string * V)) : option V :=
  match d with
  | [] => None
  | (k', v) :: d' => if decide (k = k') then Some v else get k d'
  end.

(** [d[k] = v] *)
Fixpoint set (k : string) (v : V) (d : list (string * V)) : list (string * V) :=
  match d with
  | [] => [(k, v)]
  | (k', v') :: d' =>
      if decide (k = k') then (k', v) :: d' else (k', v') :: set k v d'
  end.

(** [list(d.keys())] *)
Definition keys (d : list (string * V)) : list string := d.*1.

(** [list(d.values())] *)
Definition values (d : list (string * V)) : list V := d.*2.

(** [k in d] *)
Definition mem (k : string) (d : list (string * V)) : bool :=
  bool_decide (k ∈ keys d).

(** [{k: v for k, v in kvs}] and [dict(kvs)] *)
Definition of_pairs (kvs : list (string * V)) : list (string * V) :=
  fold_left (λ d kv, set kv.1 kv.2 d) kvs [].

(** [{**d, **e}], which is also [d.update(e)] *)
Definition update (d e : list (string * V)) : list (string * V) :=
  fold_left (λ d kv, set kv.1 kv.2 d) e d.

(** [d[k]] *)
Definition getitem (k : string) (d : list (string * V)) : result V :=
  match get k d with
  | Some v => Ok v
  | None => Raise (KeyError k)
  end.
End dict.

(** [dict.fromkeys(ks)]; the values are None *)
Definition fromkeys (ks : list string) : list (string * unit) :=
  of_pairs ((λ k, (k, tt)) <$> ks).
End PyDict.

(** [x if isinstance(x, list) else [x]] for the column arguments, which are
    a name or a list of names *)
Inductive str_or_list : Type :=
  | Str (s : string)
  | Lst (l : list string).

Definition as_list (x : str_or_list) : list string :=
  match x with
  | Str s => [s]
  | Lst l => l
  end.

(** The first occurrences of a list, in order: what the keys of a dict
    built from the list are. *)
Fixpoint dedup (l : list string) : list string :=
  match l with
  | [] => []
  | x :: l' => x :: filter (λ y, y ≠ x) (dedup l')
  end.
(** ** utils.add_special_parameters

    [params] and [common_params] are only looked up and merged, so they are
    finite maps.  The callable [fn] enters through
    [inspect.getfullargspec(fn).args], the list of the names of its
    positional-or-keyword parameters.  [error] is [None] when no error is
    in flight. *)

(** What [inspect.getfullargspec(fn)] tells of the parameters of a
    callable: [args] are the names of the positional-or-keyword
    parameters, [varargs] and [varkw] the names of [*args] and [**kwargs],
    [kwonlyargs] the names of the keyword-only parameters. *)
Record FullArgSpec : Type := {
  args : list string;
  varargs : option string;
  varkw : option string;
  kwonlyargs : list string
}.

(** All the names that a callable declares as formal parameters. *)
Definition formal_parameters (fn : FullArgSpec) : list string :=
  (args fn ++ option_list (varargs fn) ++ kwonlyargs fn
   ++ option_list (varkw fn))%list.

Section add_special_parameters.
Context {value : Type}.

Definition add_special_parameters
    (params : gmap string value) (argspec : list string)
    (functions variables : value) (error : option value)
    (common_params : gmap string value) : gmap string value :=
  let params :=
    if bool_decide ("functions" ∉ dom params) && bool_decide ("functions" ∈ argspec)
    then <["functions" := functions]> params else params in
  let params :=
    if bool_decide ("variables" ∉ dom params) && bool_decide ("variables" ∈ argspec)
    then <["variables" := variables]> params else params in
  let params :=
    match error with
    | Some e =>
        if bool_decide ("error" ∉ dom params) && bool_decide ("error" ∈ argspec)
        then <["error" := e]> params else params
    | None => params
    end in
  if bool_decide (common_params ≠ ∅)
  then filter (λ kv, kv.1 ∈ argspec) common_params ∪ params
  else params.

(** The binding a special key receives when [params] has none. *)
Definition special_value (argspec : list string)
    (functions variables : value) (error : option value) (k : string)
    : option value :=
  if bool_decide (k ∈ argspec) then
    if bool_decide (k = "functions") then Some functions
    else if bool_decide (k = "variables") then Some variables
    else if bool_decide (k = "error") then error
    else None
  else None.

End add_special_parameters.

(** ** The [re] module

    The functions of Python's [re] that the column matcher calls on
    patterns the user writes.  [re_compile p] is [re.compile(p).fullmatch]
    as a predicate, or the [re.error] of a pattern that does not compile;
    [re_sub p repl s] is [re.sub(p, repl, s, count=1)]. *)

Record re_engine : Type := {
  re_compile : string → result (string → bool);
  re_sub : string → string → string → result string
}.

(** ** utils.wildcard_expansion_dict and utils.wildcard_expansion *)

(** [_re.search(r'[^\\]?\*', s)]: at some position, an optional character
    other than a backslash, then a star. *)
Fixpoint search_star (s : string) : bool :=
  match s with
  | EmptyString => false
  | String c s' =>
      (negb (PyStr.eqc c PyStr.backslash)
       && match s' with
          | String d _ => PyStr.eqc d PyStr.star
          | EmptyString => false
          end)
      || PyStr.eqc c PyStr.star
      || search_star s'
  end.

(** [_re.sub(r'(?<!\\)\*', repl, s)] with [repl] a function: every star
    whose preceding character is not a backslash is replaced, from left to
    right; [repl] receives the number of the replacement, which is what
    the closure over [group_counter] computes.  [prev] tells whether the
    preceding character is a backslash and [n] counts the calls so far. *)
Fixpoint sub_star_from (repl : nat → string) (prev : bool) (n : nat) (s : string)
    : string :=
  match s with
  | EmptyString => EmptyString
  | String c s' =>
      if PyStr.eqc c PyStr.star && negb prev
      then repl (S n) +:+ sub_star_from repl false (S n) s'
      else String c (sub_star_from repl (PyStr.eqc c PyStr.backslash) n s')
  end.

Definition sub_star (repl : nat → string) (s : string) : string :=
  sub_star_from repl false 0 s.

(** The replacement text of a wildcard in a key: a capture group around
    [.] repeated by a star.  The template holds no escape, so every call
    gives it back. *)
Definition group_text : string := Eval cbv in ("(." +:+ "*" +:+ ")").

Definition star_group (_ : nat) : string := group_text.

(** [replacer]: the text [\g<n>] for the n-th call *)
Definition replacer (n : nat) : string :=
  String PyStr.backslash ("g<" +:+ PyStr.of_nat n +:+ ">").

(** [str(k).lower().startswith('regex:')] *)
Definition is_regex (k : string) : bool :=
  PyStr.startswith "regex:" (PyStr.lower k).

(** One turn of the first loop of [wildcard_expansion_dict]: the entry
    that is written to [tmp_columns]. *)
Definition wildcard_entry (kv : string * string) : string * string :=
  if search_star kv.1 && negb (is_regex kv.1)
  then ("regex:" +:+ sub_star star_group kv.1, sub_star replacer kv.2)
  else kv.

Definition wildcards_to_regex (selected_columns : list (string * string))
    : list (string * string) :=
  fold_left (λ tmp_columns kv,
               PyDict.set (wildcard_entry kv).1 (wildcard_entry kv).2 tmp_columns)
            selected_columns [].

(** [column[6:].strip()] *)
Definition regex_pattern (column : string) : string :=
  PyStr.strip (PyStr.drop 6 column).

(** [try: ... except _re.error: raise ValueError(msg) from None] *)
Definition except_re_error {A} (r : result A) (msg : string) : result A :=
  match r with
  | Raise (ReError _) => Raise (ValueError msg)
  | _ => r
  end.

(** The optional marker: [column[-1] == "?" and column not in all_columns],
    with the name the rest of the turn uses.  [column[-1]] raises on the
    empty string. *)
Definition optional_marker (all_columns : list string) (column : string)
    : result (string * bool) :=
  match PyStr.last_char column with
  | None => Raise (IndexError "string index out of range")
  | Some c =>
      if PyStr.eqc c "?"%char && negb (bool_decide (column ∈ all_columns))
      then Ok (PyStr.drop_last column, true)
      else Ok (column, false)
  end.

Section wildcard_expansion.
Variable re : re_engine.

(** The columns a pattern selects:
    [dict.fromkeys(list(filter(_re.compile(p).fullmatch, all_columns)))] *)
Definition matching (all_columns : list string) (pattern : string)
    : result (list (string * unit)) :=
  fullmatch ← re_compile re pattern;
  Ok (PyDict.fromkeys (filter (λ c, fullmatch c = true) all_columns)).

(** The names the selected columns get; inside the [try]. *)
Definition renamed (selected_columns : list (string * string))
    (column : string) (matching_columns : list (string * unit))
    : result (list string) :=
  except_re_error
    (target ← PyDict.getitem column selected_columns;
     if decide (column = target)
     then rmap (re_sub re ("(" +:+ regex_pattern column +:+ ")")
                  (String PyStr.backslash "1"))
               (PyDict.keys matching_columns)
     else rmap (λ col,
                  target ← PyDict.getitem column selected_columns;
                  re_sub re (regex_pattern column) target col)
               (PyDict.keys matching_columns))
    ("Invalid regex pattern: "
     +:+ default EmptyString (PyDict.get column selected_columns)
     +:+ ". Are you missing a capture group?").

(** One turn of the second loop of [wildcard_expansion_dict].  The warning
    on duplicate names among the renamed columns is logged and changes
    nothing, so it is left out. *)
Definition expand_column (all_columns : list string)
    (selected_columns : list (string * string))
    (result_columns : list (string * string)) (column : string)
    : result (list (string * string)) :=
  if is_regex column then
    matching_columns ← matching all_columns (regex_pattern column);
    renamed_columns ← renamed selected_columns column matching_columns;
    Ok (PyDict.update
          (PyDict.of_pairs (zip (PyDict.keys matching_columns) renamed_columns))
          result_columns)
  else
    marked ← optional_marker all_columns column;
    let column : string := fst marked in
    let optional_column : bool := snd marked in
    if bool_decide (column ∈ all_columns) then
      target ← PyDict.getitem column selected_columns;
      Ok (PyDict.set column target result_columns)
    else if optional_column then Ok result_columns
    else Raise (KeyError ("Column " +:+ column +:+ " does not exist")).

Definition wildcard_expansion_dict (all_columns : list string)
    (selected_columns : list (string * string))
    : result (list (string * string)) :=
  let selected_columns := wildcards_to_regex selected_columns in
  rfold (expand_column all_columns selected_columns) []
        (PyDict.keys selected_columns).

(** [wildcard_expansion]: the same matching for a list of names, without
    renaming.  The conversion of the wildcards writes into the list it is
    given; the result does not depend on it. *)
Definition wildcard_name (column : string) : string :=
  if search_star column && negb (is_regex column)
  then "regex:" +:+ sub_star star_group column
  else column.

Definition expand_name (all_columns : list string)
    (result_columns : list (string * unit)) (column : string)
    : result (list (string * unit)) :=
  if is_regex column then
    matching_columns ← matching all_columns (regex_pattern column);
    Ok (PyDict.update result_columns matching_columns)
  else
    marked ← optional_marker all_columns column;
    let column : string := fst marked in
    let optional_column : bool := snd marked in
    if bool_decide (column ∈ all_columns) then
      Ok (PyDict.set column tt result_columns)
    else if optional_column then Ok result_columns
    else Raise (KeyError ("Column " +:+ column +:+ " does not exist")).

Definition wildcard_expansion (all_columns : list string)
    (selected_columns : str_or_list) : result (list string) :=
  let selected_columns := wildcard_name <$> as_list selected_columns in
  result_columns ← rfold (expand_name all_columns) [] selected_columns;
  Ok (PyDict.keys result_columns).
End wildcard_expansion.

(** ** What the column matcher is expected to compute *)

(** An unescaped star: a star that no backslash precedes. *)
Fixpoint unescaped_star_from (prev : bool) (s : string) : bool :=
  match s with
  | EmptyString => false
  | String c s' =>
      (PyStr.eqc c PyStr.star && negb prev)
      || unescaped_star_from (PyStr.eqc c PyStr.backslash) s'
  end.

Definition unescaped_star (s : string) : bool := unescaped_star_from false s.

(** The texts between the unescaped stars of [s]. *)
Fixpoint star_pieces_from (prev : bool) (s : string) : list string :=
  match s with
  | EmptyString => [EmptyString]
  | String c s' =>
      if PyStr.eqc c PyStr.star && negb prev
      then EmptyString :: star_pieces_from false s'
      else match star_pieces_from (PyStr.eqc c PyStr.backslash) s' with
           | [] => [String c EmptyString]
           | w :: ws => String c w :: ws
           end
  end.

Definition star_pieces (s : string) : list string := star_pieces_from false s.

(** The pieces put together again with the texts [sep (n+1)], [sep (n+2)],
    ... between them. *)
Fixpoint numbered_join (sep : nat → string) (n : nat) (pieces : list string) : string :=
  match pieces with
  | [] => EmptyString
  | [p] => p
  | p :: ps => p +:+ sep (S n) +:+ numbered_join sep (S n) ps
  end.

(** A key that neither loop reads as a pattern. *)
Definition literal (k : string) : Prop :=
  search_star k = false ∧ is_regex k = false.

(** The column a literal key writes to, if any: the key itself when it is
    a column, else the key without its question mark when that is one. *)
Definition resolved_literal (all_columns : list string) (column : string)
    : option string :=
  if decide (column ∈ all_columns) then Some column
  else if decide (PyStr.last_char column = Some "?"%char
                  ∧ PyStr.drop_last column ∈ all_columns)
       then Some (PyStr.drop_last column)
       else None.

Section matcher_spec.
Variable re : re_engine.
Variable all_columns : list string.

(** The columns that fully match the pattern of a [regex:] key, in table
    order. *)
Definition pattern_columns (column : string) : list string :=
  match re_compile re (regex_pattern column) with
  | Ok fullmatch => dedup (filter (λ c, fullmatch c = true) all_columns)
  | Raise _ => []
  end.

(** The groups of columns of the [regex:] keys, in the order of the keys. *)
Definition regex_groups (keys : list string) : list (list string) :=
  pattern_columns <$> filter (λ k, is_regex k = true) keys.

(** The columns of the literal keys, in the order of the keys. *)
Definition literal_columns (keys : list string) : list string :=
  omap (resolved_literal all_columns) (filter (λ k, is_regex k = false) keys).

(** The order of the result as the code produces it: the groups from the
    last pattern to the first, then the literal columns that no pattern
    matched. *)
Definition result_order (keys : list string) : list string :=
  dedup (concat (reverse (regex_groups keys)))
  ++ filter (λ c, c ∉ concat (regex_groups keys)) (dedup (literal_columns keys)).

(** The order of the result in the words of the design: the groups in the
    order of the patterns, then the literal columns. *)
Definition declared_order (keys : list string) : list string :=
  dedup (concat (regex_groups keys))
  ++ filter (λ c, c ∉ concat (regex_groups keys)) (dedup (literal_columns keys)).

(** What one turn of the second loop does to the keys of the result. *)
Definition step_keys (order : list string) (column : string) : list string :=
  if is_regex column
  then pattern_columns column
       ++ filter (λ c, c ∉ pattern_columns column) order
  else match resolved_literal all_columns column with
       | Some c => if decide (c ∈ order) then order else order ++ [c]
       | None => order
       end.
End matcher_spec.

(** ** The patterns that wildcards produce

    An instance of [re_engine] for the patterns made of literal characters
    and of the capture group that a wildcard becomes, and for the
    replacement templates made of literal characters and of numbered group
    references [\g<n>] with [n] at least one.  On these, [re] works by
    backtracking: a group takes as many characters as it can ([.] is any
    character but the newline) and gives them back one at a time.
    Anything else is outside the instance and is reported as [Unmodelled],
    which no theorem reads as a behaviour of Python. *)

Module WildRe.

Inductive item : Type :=
  | Lit (c : ascii)
  | Group.

Definition is_meta (c : ascii) : bool :=
  bool_decide (c ∈ [PyStr.backslash; PyStr.star; "."; "^"; "$"; "+"; "?";
                    "{"; "}"; "["; "]"; "|"; "("; ")"]%char).

Fixpoint parse (p : string) : option (list item) :=
  match p with
  | EmptyString => Some []
  | String "(" (String "." (String "*" (String ")" p'))) =>
      cons Group <$> parse p'
  | String c p' => if is_meta c then None else cons (Lit c) <$> parse p'
  end.

(** Matching the items at the start of [s]: the captured groups and what
    is left of [s], for the first success in backtracking order.  With
    [full] only a match that ends with [s] succeeds. *)
Fixpoint match_here (full : bool) (its : list item)
    : string → option (list string * string) :=
  match its with
  | [] => λ s,
      if full then match s with
                   | EmptyString => Some ([], EmptyString)
                   | String _ _ => None
                   end
      else Some ([], s)
  | Lit c :: its' => λ s,
      match s with
      | String a s' => if PyStr.eqc a c then match_here full its' s' else None
      | EmptyString => None
      end
  | Group :: its' =>
      fix group (s : string) : option (list string * string) :=
        let stop :=
          match match_here full its' s with
          | Some (gs, r) => Some (EmptyString :: gs, r)
          | None => None
          end in
        match s with
        | String a s' =>
            if PyStr.eqc a PyStr.newline then stop
            else match group s' with
                 | Some (g :: gs, r) => Some (String a g :: gs, r)
                 | _ => stop
                 end
        | EmptyString => stop
        end
  end.

(** The leftmost match: the text before it, its groups, the text after *)
Fixpoint search (its : list item) (s : string)
    : option (string * list string * string) :=
  match match_here false its s with
  | Some (gs, r) => Some (EmptyString, gs, r)
  | None =>
      match s with
      | String a s' =>
          match search its s' with
          | Some (b, gs, r) => Some (String a b, gs, r)
          | None => None
          end
      | EmptyString => None
      end
  end.

Inductive piece : Type :=
  | Text (c : ascii)
  | Ref (n : nat).

Definition digit (c : ascii) : option nat :=
  let n := nat_of_ascii c in
  if ((48 <=? n) && (n <=? 57))%nat then Some (n - 48) else None.

(** the digits up to the closing [>] and what follows it *)
Fixpoint group_number (acc : option nat) (t : string) : option (nat * string) :=
  match t with
  | EmptyString => None
  | String c t' =>
      if PyStr.eqc c ">"%char then (λ n, (n, t')) <$> acc
      else match digit c with
           | Some d => group_number (Some (10 * default 0 acc + d)) t'
           | None => None
           end
  end.

(** The template, read with [fuel] at least its length. *)
Fixpoint template (fuel : nat) (t : string) : option (list piece) :=
  match fuel, t with
  | _, EmptyString => Some []
  | O, _ => None
  | S fuel', String c t' =>
      if PyStr.eqc c PyStr.backslash then
        match t' with
        | String "g" (String "<" t'') =>
            match group_number None t'' with
            | Some (S n, rest) => cons (Ref (S n)) <$> template fuel' rest
            | _ => None
            end
        | _ => None
        end
      else cons (Text c) <$> template fuel' t'
  end.

Fixpoint expand (groups : list string) (t : list piece) : result string :=
  match t with
  | [] => Ok EmptyString
  | Text c :: t' => s ← expand groups t'; Ok (String c s)
  | Ref n :: t' =>
      match groups !! (n - 1) with
      | Some g => s ← expand groups t'; Ok (g +:+ s)
      | None => Raise (ReError ("invalid group reference " +:+ PyStr.of_nat n))
      end
  end.

Definition is_group (i : item) : bool :=
  match i with Group => true | Lit _ => false end.

Definition groups_of (its : list item) : nat :=
  length (filter (λ i, is_group i = true) its).

Definition outside : exn := Unmodelled "pattern outside the wildcard fragment".

Definition compile (p : string) : result (string → bool) :=
  match parse p with
  | Some its => Ok (λ s, bool_decide (is_Some (match_here true its s)))
  | None => Raise outside
  end.

Definition sub (p repl s : string) : result string :=
  match parse p, template (String.length repl) repl with
  | Some its, Some t =>
      (* the template is checked against the pattern before any search *)
      _ ← expand (replicate (groups_of its) EmptyString) t;
      match search its s with
      | Some (before, gs, after) =>
          mid ← expand gs t; Ok (before +:+ mid +:+ after)
      | None => Ok s
      end
  | _, _ => Raise outside
  end.

Definition engine : re_engine := {| re_compile := compile; re_sub := sub |}.

End WildRe.

(** ** utils.get_nested_function

    A namespace node is a dict, entered by key, or any other object,
    entered by attribute.  [ident] tells the objects apart; a module and a
    function are both objects. *)

#[warnings="-register-all"]
Inductive pyobj (ident : Type) : Type :=
  | PyDictNode (items : list (string * pyobj ident))
  | PyObject (id : ident) (attrs : list (string * pyobj ident)).

Arguments PyDictNode {ident} items.
Arguments PyObject {ident} id attrs.

Section get_nested_function.
Context {ident : Type}.
(** the object [None], which is what [obj] is when the chosen root was
    not given *)
Variable py_None : pyobj ident.

Definition not_recognized (fn_string : string) : exn :=
  ValueError ("Function " +:+ fn_string +:+ " not recognized").

(** One turn of the loop over [fn_list]. *)
Definition get_segment (fn_string : string) (obj : pyobj ident) (fn_name : string)
    : result (pyobj ident) :=
  match obj with
  | PyDictNode items =>
      match PyDict.get fn_name items with
      | None => Raise (not_recognized fn_string)
      | Some o => Ok o
      end
  | PyObject _ attrs =>
      match PyDict.get fn_name attrs with
      | None => Raise (not_recognized fn_string)
      | Some o => Ok o
      end
  end.

Definition get_nested_function (fn_string : string)
    (stock_functions custom_functions : option (pyobj ident))
    (default_stock_functions : option string) : result (pyobj ident) :=
  match custom_functions, stock_functions with
  | None, None => Raise (ValueError "No functions provided")
  | _, _ =>
      let fn_list := PyStr.split "."%char (PyStr.strip fn_string) in
      start ←
        match fn_list with
        | [] => Raise (IndexError "list index out of range")
        | first :: rest =>
            if decide (first = "custom") then
              if decide (length fn_list = 1)
              then Raise (ValueError "Custom function not defined correctly")
              else Ok (rest, default py_None custom_functions)
            else
              Ok (match default_stock_functions with
                  | Some d => if decide (d = EmptyString) then fn_list
                              else (fn_list ++ [d])%list
                  | None => fn_list
                  end,
                  default py_None stock_functions)
        end;
      rfold (get_segment fn_string) (snd start) (fst start)
  end.
End get_nested_function.

(** A path through a namespace: each segment is a key of a dict node or an
    attribute of an object node. *)
Inductive resolves {ident : Type} : pyobj ident → list string → pyobj ident → Prop :=
  | resolves_here obj : resolves obj [] obj
  | resolves_key items name obj rest fn :
      PyDict.get name items = Some obj →
      resolves obj rest fn →
      resolves (PyDictNode items) (name :: rest) fn
  | resolves_attr id attrs name obj rest fn :
      PyDict.get name attrs = Some obj →
      resolves obj rest fn →
      resolves (PyObject id attrs) (name :: rest) fn.

(** The segment that is added to a stock name:
    [if default_stock_functions: fn_list.append(default_stock_functions)] *)
Definition default_segment (default_stock_functions : option string) : list string :=
  match default_stock_functions with
  | Some d => if decide (d = EmptyString) then [] else [d]
  | None => []
  end.

(** ** Tables

    A DataFrame is the ordered list of its columns, each the list of its
    cells from the first row to the last; all columns of a frame have the
    same length.  Assigning a column follows the discipline of a dict: an
    existing column is replaced in place and a new one is added at the
    end. *)

Module PyTable.
Section table.
Context {cell : Type}.

(** [df[col]] *)
Definition column (df : list (string * list cell)) (col : string)
    : result (list cell) :=
  PyDict.getitem col df.

(** [df[cols]] for a list of names *)
Definition columns (df : list (string * list cell)) (cols : list string)
    : result (list (list cell)) :=
  rmap (column df) cols.

(** [df[col] = values] *)
Definition assign (col : string) (values : list cell)
    (df : list (string * list cell)) : list (string * list cell) :=
  PyDict.set col values df.

(** The rows of a frame given by its columns. *)
Fixpoint rows {A} (cols : list (list A)) : list (list A) :=
  match cols with
  | [] => []
  | [c] => (λ x, [x]) <$> c
  | c :: cs => zip_with cons c (rows cs)
  end.

(** [df[headers] = values] for a list of names and a list of rows *)
Definition assign_rows (headers : list string) (values : list (list cell))
    (df : list (string * list cell)) : result (list (string * list cell)) :=
  if bool_decide (Forall (λ r, length r = length headers) values)
  then Ok (fold_left (λ df jh, assign (snd jh) (omap (λ r, r !! fst jh) values) df)
                     (imap (λ j h, (j, h)) headers) df)
  else Raise (ValueError "Columns must be same length as key").
End table.

(** [frame.aggregate(sep.join, axis=1).tolist()] on a frame of texts with
    two columns or more.  On a frame with no rows [aggregate] gives the
    frame back, and a frame has no [tolist]. *)
Definition join_rows (sep : string) (cols : list (list string))
    : result (list string) :=
  match rows cols with
  | [] => Raise (AttributeError "'DataFrame' object has no attribute 'tolist'")
  | texts => Ok (PyStr.join sep <$> texts)
  end.
End PyTable.

(** ** recipe_wrangles/extract.py: the handling of [input] and [output]

    The transforms of [wrangles.extract] are variables; each takes the
    texts of a column and the options of the wrangle and gives one cell
    per text.  [str] is Python's [str] on a cell, which is what
    [astype(str)] applies. *)

Module extract.

Definition cardinality_message : string :=
  "Extract must output to a single column or equal amount of columns as input.".

Definition bracket_types : list string :=
  ["round"; "square"; "curly"; "angled"; "all"].

(** What [re.findall] raises: [re.error] for the pattern, [TypeError] for
    a cell that is not a text. *)
Inductive findall_error : Type :=
  | BadPattern (msg : string)
  | NotText (msg : string).

Definition raise_findall (e : findall_error) : exn :=
  match e with
  | BadPattern msg => ReError msg
  | NotText msg => TypeError msg
  end.

(** The opening of every function of the module: [output] defaults to
    [input], both become lists, and the lengths are checked. *)
Definition in_out (input : str_or_list) (output : option str_or_list)
    : result (list string * list string) :=
  let output := default input output in
  let input := as_list input in
  let output := as_list output in
  if bool_decide (length input ≠ length output) && bool_decide (1 < length output)
  then Raise (ValueError cardinality_message)
  else Ok (input, output).

(** The lengths for which the check raises. *)
Definition mismatch (input : str_or_list) (output : option str_or_list) : Prop :=
  length (as_list input) ≠ length (as_list (default input output))
  ∧ 1 < length (as_list (default input output)).

Section wrangles.
Context {cell kwargs : Type}.
Variable str : cell → string.
Variable _extract_address : list string → string → kwargs → list cell.
Variable _extract_attributes :
  list string → string → option string → option string → string → kwargs
  → list cell.
Variable _extract_brackets : list string → list string → bool → list cell.
Variable _extract_codes : list string → kwargs → list cell.
Variable _extract_html : list string → string → kwargs → list cell.
Variable _extract_properties :
  list string → option string → string → kwargs → list cell.
Variable _re_findall : string → cell → cell + findall_error.

(** [for input_column, output_column in zip(input, output):
       df[output_column] = f(df[input_column].astype(str).tolist())] *)
Definition each_column (f : list string → list cell)
    (df : list (string * list cell)) (input output : list string)
    : result (list (string * list cell)) :=
  rfold (λ df io,
           values ← PyTable.column df (fst io);
           Ok (PyTable.assign (snd io) (f (map str values)) df))
        df (zip input output).

(** [if len(output) == 1 and len(input) > 1:
       df[output[0]] = f(df[input].astype(str).aggregate(sep.join, axis=1).tolist())
     else: (the loop)] *)
Definition joined_or_each (sep : string) (f : list string → list cell)
    (df : list (string * list cell)) (input output : list string)
    : result (list (string * list cell)) :=
  match output with
  | [output_0] =>
      if bool_decide (1 < length input) then
        frame ← PyTable.columns df input;
        texts ← PyTable.join_rows sep (map (map str) frame);
        Ok (PyTable.assign output_0 (f texts) df)
      else each_column f df input output
  | _ => each_column f df input output
  end.

Definition address (df : list (string * list cell))
    (input : str_or_list) (output : option str_or_list)
    (dataType : string) (kw : kwargs) : result (list (string * list cell)) :=
  io ← in_out input output;
  joined_or_each " " (λ texts, _extract_address texts dataType kw)
                 df (fst io) (snd io).

Definition attributes (df : list (string * list cell))
    (input : str_or_list) (output : option str_or_list)
    (responseContent : string) (attribute_type desired_unit : option string)
    (bound : string) (kw : kwargs) : result (list (string * list cell)) :=
  io ← in_out input output;
  joined_or_each " AAA "
    (λ texts, _extract_attributes texts responseContent attribute_type
                desired_unit bound kw)
    df (fst io) (snd io).

Definition brackets (df : list (string * list cell))
    (input : str_or_list) (output : option str_or_list)
    (find : str_or_list) (include_brackets : bool)
    : result (list (string * list cell)) :=
  io ← in_out input output;
  let find := as_list find in
  if negb (forallb (λ element, bool_decide (element ∈ bracket_types)) find)
  then Raise (ValueError
                "find must only contain the elements: round, square, curly, angled")
  else joined_or_each " " (λ texts, _extract_brackets texts find include_brackets)
                      df (fst io) (snd io).

Definition codes (df : list (string * list cell))
    (input : str_or_list) (output : option str_or_list) (kw : kwargs)
    : result (list (string * list cell)) :=
  io ← in_out input output;
  joined_or_each " AAA " (λ texts, _extract_codes texts kw) df (fst io) (snd io).

Definition html (df : list (string * list cell))
    (input : str_or_list) (data_type : string) (output : option str_or_list)
    (kw : kwargs) : result (list (string * list cell)) :=
  io ← in_out input output;
  each_column (λ texts, _extract_html texts data_type kw) df (fst io) (snd io).

Definition properties (df : list (string * list cell))
    (input : str_or_list) (output : option str_or_list)
    (property_type : option string) (return_data_type : string) (kw : kwargs)
    : result (list (string * list cell)) :=
  io ← in_out input output;
  joined_or_each " "
    (λ texts, _extract_properties texts property_type return_data_type kw)
    df (fst io) (snd io).

(** [df[input_column].apply(lambda x: _re.findall(find, x))] *)
Definition findall_column (find : string) (values : list cell)
    : result (list cell) :=
  rmap (λ x, match _re_findall find x with
             | inl found => Ok found
             | inr e => Raise (raise_findall e)
             end) values.

Definition regex (df : list (string * list cell))
    (input : str_or_list) (find : string) (output : option str_or_list)
    : result (list (string * list cell)) :=
  io ← in_out input output;
  rfold (λ df io,
           values ← PyTable.column df (fst io);
           found ← findall_column find values;
           Ok (PyTable.assign (snd io) found df))
        df (zip (fst io) (snd io)).
End wrangles.
End extract.

(** ** recipe_wrangles/split.py: [tokenize] and [list]

    [wrangles.format.tokenize] and [json.loads] are variables.  A cell is
    a Python value: [as_pylist] gives the items of a cell that is a list,
    [of_pylist] and [of_str] build the cell of a list and of a text.
    Assigning a list of rows to a list of columns goes through the array
    that pandas makes of the rows, which is a variable too. *)

Module split.

Definition tokenize_message : string :=
  "The list of inputs and outputs must be the same length for split.tokenize".

Definition method_message : string :=
  "Method must be one of: space, boundary, "
  +:+ "boundary_ignore_space, custom.<function>, regex:<pattern>".

Section wrangles.
Context {cell ident : Type}.
Variable py_None : pyobj ident.
Variable _format_tokenize :
  list cell → string → option (pyobj ident) → option string → list cell.
Variable as_pylist : cell → option (list cell).
Variable of_pylist : list cell → cell.
Variable of_str : string → cell.
Variable json_loads : cell → result cell.
(** [len(x)] for a value that is not a list: some have a length, the
    others raise *)
Variable other_len : cell → result nat.
(** the message of the TypeError of [x + [...]] for a value that is not
    a list *)
Variable cannot_concatenate : cell → string.
(** [df[names] = rows] for a list of names and a list of rows first makes
    an array of the rows ([np.ndim(rows)] and [DataFrame(rows).values]):
    this raises for rows that make no rectangular array, as rows whose
    items are lists of different lengths, and it may convert the items *)
Variable _array : list (list cell) → result (list (list cell)).

(** The choice of the method: the name handed to [_format.tokenize],
    with the custom function or the pattern. *)
Definition tokenize_method (method : string) (functions : pyobj ident)
    : result (string * option (pyobj ident) * option string) :=
  if PyStr.startswith "custom." method then
    func ← get_nested_function py_None method None (Some functions) None;
    Ok ("function", Some func, None)
  else if PyStr.startswith "regex:" (PyStr.lower method) then
    Ok ("regex", None, Some (PyStr.strip (PyStr.drop 6 method)))
  else if negb (bool_decide (method ∈ ["space"; "boundary"; "boundary_ignore_space"]))
  then Raise (ValueError method_message)
  else Ok (method, None, None).

Definition tokenize (df : list (string * list cell))
    (input : str_or_list) (output : option str_or_list)
    (method : string) (functions : pyobj ident)
    : result (list (string * list cell)) :=
  let output := default input output in
  let input := as_list input in
  let output := as_list output in
  if bool_decide (length input ≠ length output)
  then Raise (ValueError tokenize_message)
  else
    chosen ← tokenize_method method functions;
    rfold (λ df io,
             values ← PyTable.column df (fst io);
             Ok (PyTable.assign (snd io)
                   (_format_tokenize values (fst (fst chosen)) (snd (fst chosen))
                                     (snd chosen))
                   df))
          df (zip input output).

(** [row if isinstance(row, _list) else _json.loads(row)] *)
Definition load_row (row : cell) : result cell :=
  match as_pylist row with
  | Some _ => Ok row
  | None => json_loads row
  end.

(** [len(x)] *)
Definition len (x : cell) : result nat :=
  match as_pylist x with
  | Some l => Ok (length l)
  | None => other_len x
  end.

(** [max([len(x) for x in results])], for the lengths *)
Definition max_len (lens : list nat) : nat := foldr Nat.max 0 lens.

(** [x + [''] * (max_len - len(x))] for a list *)
Definition pad_list (n : nat) (l : list cell) : list cell :=
  (l ++ replicate (n - length l) (of_str EmptyString))%list.

(** [x + [''] * (max_len - len(x))] *)
Definition pad (n : nat) (x : cell) : result (list cell) :=
  match as_pylist x with
  | Some l => Ok (pad_list n l)
  | None => Raise (TypeError (cannot_concatenate x))
  end.

(** [[template.replace('*', str(i)) for i in range(1, n + 1)]] *)
Definition output_headers (wildcard_template : string) (n : nat) : list string :=
  (λ i, PyStr.replace_char PyStr.star (PyStr.of_nat i) wildcard_template)
    <$> seq 1 n.

(** The wildcard case of the output: the template, if there is one. *)
Definition wildcard_template (output : str_or_list) : option string :=
  match output with
  | Str s => if PyStr.contains PyStr.star s then Some s else None
  | Lst [s] => if PyStr.contains PyStr.star s then Some s else None
  | Lst _ => None
  end.

Definition list (df : list (string * list cell))
    (input : string) (output : str_or_list)
    : result (list (string * list cell)) :=
  values ← PyTable.column df input;
  results ← rmap load_row values;
  if bool_decide (length results = 0) then Ok df
  else
    lens ← rmap len results;
    results ← rmap (pad (max_len lens)) results;
    match wildcard_template output with
    | Some template =>
        let output_headers :=
          output_headers template (length (default [] (head results))) in
        rows ← _array results;
        PyTable.assign_rows output_headers rows df
    | None =>
        match output with
        | Str name => Ok (PyTable.assign name (of_pylist <$> results) df)
        | Lst names =>
            rows ← _array results;
            PyTable.assign_rows names rows df
        end
    end.
End wrangles.
End split.

(** The cells of the examples on [split.list]: texts and lists. *)
#[warnings="-register-all"]
Inductive pyvalue : Type :=
  | VStr (s : string)
  | VList (items : list pyvalue).

Definition value_items (x : pyvalue) : option (list pyvalue) :=
  match x with
  | VList l => Some l
  | VStr _ => None
  end.

(** [json.loads] and [len] for the examples, whose rows are lists already:
    a text is not JSON and has no use as a row. *)
Definition no_json (x : pyvalue) : result pyvalue :=
  Raise (JSONDecodeError "Expecting value").

Definition no_len (x : pyvalue) : result nat :=
  Raise (TypeError "object has no len()").

(** The array of a list of rows for the examples, whose items are texts:
    rows of texts of one length make an array of these texts.  Other rows
    are outside the examples. *)
Definition array_of_texts (rows : list (list pyvalue)) : result (list (list pyvalue)) :=
  if forallb (forallb (λ x, match x with VStr _ => true | VList _ => false end)) rows
     && forallb (λ row, length row =? length (default [] (head rows))) rows
  then Ok rows
  else Raise (Unmodelled "array of rows that are not texts of one length").

(** The columns that one name of [wildcard_expansion] selects: the columns
    of its pattern, or the column of the literal name. *)
Definition name_columns (re : re_engine) (all_columns : list string)
    (column : string) : list string :=
  if is_regex column then pattern_columns re all_columns column
  else option_list (resolved_literal all_columns column).

(** The name a [regex:] key gives to one of its columns: the column itself
    when the key is its own rename value, else the substitution of the
    value. *)
Definition renamed_column (re : re_engine) (column target col : string)
    : result string :=
  if decide (column = target)
  then re_sub re ("(" +:+ regex_pattern column +:+ ")") (String PyStr.backslash "1") col
  else re_sub re (regex_pattern column) target col.

Definition invalid_pattern_message (target : string) : string :=
  "Invalid regex pattern: " +:+ target +:+ ". Are you missing a capture group?".

(** ** recipe_wrangles/extract.py: [custom] *)

Module extract_custom.
Section wrangles.
Context {cell kwargs : Type}.
Variable str : cell → string.
(** [_extract.custom(texts, model_id=..., first_element=..., use_labels=...,
    case_sensitive=..., extract_raw=..., use_spellcheck=..., **kwargs)] *)
Variable _extract_custom :
  list string → string → bool → bool → bool → bool → bool → kwargs → list cell.
(** [_format.concatenate(rows, separator)] *)
Variable _format_concatenate : list (list string) → string → list string.

(** [for in_col, out_col, model in zip(input, output, model_id):
       df[out_col] = _extract.custom(df[in_col].astype(str).tolist(), ...)] *)
Definition each_model (df : list (string * list cell))
    (input output model_id : list string)
    (use_labels first_element case_sensitive extract_raw use_spellcheck : bool)
    (kw : kwargs) : result (list (string * list cell)) :=
  rfold (λ df iom,
           values ← PyTable.column df (fst iom);
           Ok (PyTable.assign (fst (snd iom))
                 (_extract_custom (map str values) (snd (snd iom)) first_element
                    use_labels case_sensitive extract_raw use_spellcheck kw)
                 df))
        df (zip input (zip output model_id)).

Definition custom (df : list (string * list cell))
    (input model_id : str_or_list) (output : option str_or_list)
    (use_labels first_element case_sensitive extract_raw use_spellcheck : bool)
    (kw : kwargs) : result (list (string * list cell)) :=
  let output := default input output in
  let input := as_list input in
  let output := as_list output in
  let model_id := as_list model_id in
  if bool_decide (length input = length output)
     && bool_decide (length model_id = 1)
  then
    match model_id with
    | model_0 :: _ =>
        each_model df input output (replicate (length input) model_0)
          use_labels first_element case_sensitive extract_raw use_spellcheck kw
    | [] => Raise (IndexError "list index out of range")
    end
  else if bool_decide (1 < length input) && bool_decide (length output = 1)
          && bool_decide (length model_id = 1)
  then
    match output, model_id with
    | output_0 :: _, model_0 :: _ =>
        frame ← PyTable.columns df input;
        Ok (PyTable.assign output_0
              (_extract_custom
                 (_format_concatenate (PyTable.rows (map (map str) frame)) " ")
                 model_0 first_element use_labels case_sensitive extract_raw
                 use_spellcheck kw)
              df)
    | _, _ => Raise (IndexError "list index out of range")
    end
  else
    each_model df input output model_id
      use_labels first_element case_sensitive extract_raw use_spellcheck kw.
End wrangles.
End extract_custom.

(** A call that wrote at most the columns [outs]: the other columns have
    the cells they had, no column is lost and no other column is added. *)
Definition writes_only {cell : Type} (outs : list string)
    (df df' : list (string * list cell)) : Prop :=
  (∀ c, c ∉ outs → PyDict.get c df' = PyDict.get c df)
  ∧ (∀ c, c ∈ PyDict.keys df → c ∈ PyDict.keys df')
  ∧ (∀ c, c ∈ PyDict.keys df' → c ∈ PyDict.keys df ∨ c ∈ outs).

(** No output column of an earlier pair is the input column of a later
    pair. *)
Definition reads_before_writes (input output : list string) : Prop :=
  ∀ j k o i, j < k → output !! j = Some o → input !! k = Some i → o ≠ i.

(** ** recipe_wrangles/split.py: [dictionary]

    A cell is a Python value: [as_dict] gives the items of a cell that is
    a dict, in the order of the dict, and [as_str] the text of a cell that
    is a str.  The keys of the dictionaries are texts.  [json.loads], the
    formatting of a value in an f-string, the missing value of pandas and
    the conversion of the values of a frame to an array are variables.

    A frame with several columns of one name is outside the model:
    selecting from such a frame gives [Unmodelled]. *)

Module split_dictionary.

(** An element of [output]: a key, or a dict from keys to new names. *)
Inductive out_item : Type :=
  | Name (x : string)
  | Renames (items : list (string * string)).

(** [output]: one element, or a list of them. *)
Inductive out_spec : Type :=
  | One (x : out_item)
  | Many (l : list out_item).

(** [output if isinstance(output, list) else [output]] *)
Definition out_list (output : out_spec) : list out_item :=
  match output with
  | One x => [x]
  | Many l => l
  end.

(** [x.items() if isinstance(x, dict) else {x: x}.items()] *)
Definition out_items (x : out_item) : list (string * string) :=
  match x with
  | Name x => [(x, x)]
  | Renames items => items
  end.

(** [s.endswith(p)] *)
Definition endswith (p s : string) : bool :=
  (String.length p <=? String.length s)%nat
  && bool_decide (PyStr.drop (String.length s - String.length p) s = p).

(** The number of rows of a table. *)
Definition row_count {cell : Type} (df : list (string * list cell)) : nat :=
  match df with
  | [] => 0
  | (_, values) :: _ => length values
  end.

(** The rows of a frame of [n] rows given by its columns: a frame without
    columns still has its rows. *)
Definition grid {cell : Type} (n : nat) (cols : list (list cell)) : list (list cell) :=
  match cols with
  | [] => replicate n []
  | _ => PyTable.rows cols
  end.

Section wrangles.
Context {cell : Type}.
Variable re : re_engine.
Variable as_dict : cell → option (list (string * cell)).
Variable as_str : cell → option string.
Variable json_loads : string → result cell.
(** [f'{val}'] *)
Variable format_value : cell → string.
(** the cell that pandas puts where a record has no value *)
Variable nan : cell.
(** [frame.values]: the rows of a frame as an array, which may convert
    the cells to a common type *)
Variable _values : list (list cell) → list (list cell).

Definition not_valid (val : cell) : exn :=
  ValueError (format_value val +:+ " is not a valid Dictionary").

Definition _parse_dict_or_json (val : cell) : result (list (string * cell)) :=
  match as_dict val with
  | Some items => Ok items
  | None =>
      match as_str val with
      | Some s =>
          if PyStr.startswith "{" s && endswith "}" s then
            match json_loads s with
            | Ok loaded =>
                match as_dict loaded with
                | Some items => Ok items
                | None => Raise (not_valid val)
                end
            | Raise _ => Raise (not_valid val)
            end
          else Raise (not_valid val)
      | None => Raise (not_valid val)
      end
  end.

(** [dict(chain.from_iterable(_parse_dict_or_json(d)
                              for d in [default] + row.tolist()))] *)
Definition merge_row (default : cell) (row : list cell)
    : result (list (string * cell)) :=
  items ← rmap _parse_dict_or_json (default :: row);
  Ok (PyDict.of_pairs (concat items)).

(** The column of a key in [DataFrame(records)]: a record without the key
    gives the missing value. *)
Definition key_column (records : list (list (string * cell))) (k : string)
    : list cell :=
  (λ record, default nan (PyDict.get k record)) <$> records.

(** [DataFrame(records)] for a list of dicts: the columns are the keys in
    the order of their first appearance. *)
Definition DataFrame (records : list (list (string * cell)))
    : list (string * list cell) :=
  (λ k, (k, key_column records k)) <$> dedup (concat (PyDict.keys <$> records)).

(** [df_temp.rename(columns=output)] *)
Definition rename (output : list (string * string))
    (df_temp : list (string * list cell)) : list (string * list cell) :=
  (λ kc, (default (fst kc) (PyDict.get (fst kc) output), snd kc)) <$> df_temp.

(** [df_temp[names]] for a frame whose columns have distinct names *)
Definition select (names : list string) (df_temp : list (string * list cell))
    : result (list (string * list cell)) :=
  if bool_decide (NoDup (PyDict.keys df_temp))
  then rmap (λ name, values ← PyDict.getitem name df_temp; Ok (name, values)) names
  else Raise (Unmodelled "columns with the same name").

Definition dictionary (df : list (string * list cell))
    (input : str_or_list) (output : option out_spec) (default : cell)
    : result (list (string * list cell)) :=
  let input := as_list input in
  frame ← PyTable.columns df input;
  records ← rmap (merge_row default) (grid (row_count df) frame);
  let df_temp := DataFrame records in
  df_temp ←
    match output with
    | None => Ok df_temp
    | Some output =>
        let output := PyDict.of_pairs (concat (out_items <$> out_list output)) in
        output ← wildcard_expansion_dict re (PyDict.keys df_temp) output;
        select (PyDict.values output) (rename output df_temp)
    end;
  PyTable.assign_rows (PyDict.keys df_temp)
    (_values (grid (length records) (PyDict.values df_temp))) df.
End wrangles.
End split_dictionary.

(** The cells of the examples on [split.dictionary]: texts, dicts and the
    missing value. *)
#[warnings="-register-all"]
Inductive pydata : Type :=
  | DStr (s : string)
  | DDict (items : list (string * pydata))
  | DNaN.

Definition data_items (x : pydata) : option (list (string * pydata)) :=
  match x with
  | DDict items => Some items
  | _ => None
  end.

Definition data_text (x : pydata) : option string :=
  match x with
  | DStr s => Some s
  | _ => None
  end.

(** [json.loads] for the examples: it reads the JSON objects whose values
    are texts without escapes, [{}] among them, as [json.loads] does (the
    last value of a repeated key, the keys in the order of their first
    appearance).  A text that is no JSON is refused; JSON of other shapes
    is outside the examples and refused as well. *)
Module json_example.

Definition quote : ascii := ascii_of_nat 34.

Definition whitespace (c : ascii) : bool :=
  let n := nat_of_ascii c in
  ((n =? 32) || (n =? 9) || (n =? 10) || (n =? 13))%nat.

Fixpoint skip (s : string) : string :=
  match s with
  | String c s' => if whitespace c then skip s' else s
  | EmptyString => EmptyString
  end.

(** The text up to the closing quote, and what follows it. *)
Fixpoint text (s : string) : option (string * string) :=
  match s with
  | EmptyString => None
  | String c s' =>
      if PyStr.eqc c quote then Some (EmptyString, s')
      else if PyStr.eqc c PyStr.backslash || (nat_of_ascii c <? 32)%nat then None
      else match text s' with
           | Some (t, rest) => Some (String c t, rest)
           | None => None
           end
  end.

(** A text after optional whitespace. *)
Definition quoted (s : string) : option (string * string) :=
  match skip s with
  | String c s' => if PyStr.eqc c quote then text s' else None
  | EmptyString => None
  end.

(** The members of an object, up to the closing brace and the end. *)
Fixpoint members (fuel : nat) (s : string) : option (list (string * pydata)) :=
  match fuel with
  | O => None
  | S fuel =>
      match quoted s with
      | Some (k, s1) =>
          match skip s1 with
          | String c s2 =>
              if PyStr.eqc c ":" then
                match quoted s2 with
                | Some (v, s3) =>
                    match skip s3 with
                    | String c' s4 =>
                        if PyStr.eqc c' "," then
                          match members fuel s4 with
                          | Some rest => Some ((k, DStr v) :: rest)
                          | None => None
                          end
                        else if PyStr.eqc c' "}" then
                          match skip s4 with
                          | EmptyString => Some [(k, DStr v)]
                          | _ => None
                          end
                        else None
                    | EmptyString => None
                    end
                | None => None
                end
              else None
          | EmptyString => None
          end
      | None => None
      end
  end.

Definition loads (s : string) : result pydata :=
  match skip s with
  | String c s1 =>
      if PyStr.eqc c "{" then
        match skip s1 with
        | String c' s2 =>
            if PyStr.eqc c' "}" && bool_decide (skip s2 = EmptyString)
            then Ok (DDict [])
            else match members (String.length s) s1 with
                 | Some items => Ok (DDict (PyDict.of_pairs items))
                 | None => Raise (JSONDecodeError "Expecting value")
                 end
        | EmptyString => Raise (JSONDecodeError "Expecting value")
        end
      else Raise (JSONDecodeError "Expecting value")
  | EmptyString => Raise (JSONDecodeError "Expecting value")
  end.

End json_example.

Definition loads_example : string → result pydata := json_example.loads.

(** The JSON text of an object with the key [size] and the value [L]. *)
Definition size_L : string :=
  Eval cbv in
    ("{" +:+ String json_example.quote ("size" +:+ String json_example.quote
       (": " +:+ String json_example.quote ("L" +:+ String json_example.quote "}")))).

(** [f'{val}'] for the examples *)
Definition show_example (x : pydata) : string :=
  match x with
  | DStr s => s
  | DDict _ => "{...}"
  | DNaN => "nan"
  end.

(** ** recipe_wrangles/format.py: [remove_duplicates], [trim], [prefix]
    and [suffix]

    A cell is a Python value: [as_pylist] gives the items of a cell that
    is a list, [of_pylist] and [of_str] build the cell of a list and of a
    text, [str] is the text of a cell.  For the keys of a dict, [hashable]
    tells the values that can be keys, [type_name] names the type of one
    that cannot, and [same_key k x] tells that the dict takes [x] for its
    key [k].  The [.str.strip()] of a column is a variable. *)

Module format.
Section wrangles.
Context {cell : Type}.
Variable str : cell → string.
Variable of_str : string → cell.
Variable as_pylist : cell → option (list cell).
Variable of_pylist : list cell → cell.
Variable hashable : cell → bool.
Variable type_name : cell → string.
Variable same_key : cell → cell → bool.
Variable _str_strip : list cell → result (list cell).

Definition unhashable (x : cell) : exn :=
  TypeError ("unhashable type: '" +:+ type_name x +:+ "'").

(** [list(dict.fromkeys(row))] *)
Definition fromkeys (row : list cell) : result (list cell) :=
  rfold (λ keys x,
           if hashable x
           then Ok (if existsb (λ k, same_key k x) keys then keys
                    else (keys ++ [x])%list)
           else Raise (unhashable x))
        [] row.

(** One turn of the loop over the rows. *)
Definition unique_row (row : cell) : result cell :=
  match as_pylist row with
  | Some items => kept ← fromkeys items; Ok (of_pylist kept)
  | None => Ok row
  end.

Definition remove_duplicates (df : list (string * list cell))
    (input : string) (output : option string)
    : result (list (string * list cell)) :=
  let output := default input output in
  values ← PyTable.column df input;
  output_list ← rmap unique_row values;
  Ok (PyTable.assign output output_list df).

(** What a loop over [input] goes through: the names of a list, the
    characters of a text. *)
Definition iterate (input : str_or_list) : list string :=
  match input with
  | Str s => (λ c, String c EmptyString) <$> list_ascii_of_string s
  | Lst l => l
  end.

Definition trim (df : list (string * list cell))
    (input : str_or_list) (output : option str_or_list)
    : result (list (string * list cell)) :=
  let output := default input output in
  let output := as_list output in
  rfold (λ df io,
           values ← PyTable.column df (fst io);
           stripped ← _str_strip values;
           Ok (PyTable.assign (snd io) stripped df))
        df (zip (iterate input) output).

Definition prefix (df : list (string * list cell))
    (input value : string) (output : option string)
    : result (list (string * list cell)) :=
  values ← PyTable.column df input;
  Ok (PyTable.assign (default input output)
        ((λ v, of_str (value +:+ str v)) <$> values) df).

Definition suffix (df : list (string * list cell))
    (input value : string) (output : option string)
    : result (list (string * list cell)) :=
  values ← PyTable.column df input;
  Ok (PyTable.assign (default input output)
        ((λ v, of_str (str v +:+ value)) <$> values) df).
End wrangles.
End format.

(** The keys of the examples on [format.remove_duplicates]: a text can be
    a key, a list cannot, and two texts are one key when they are equal. *)
Definition value_hashable (x : pyvalue) : bool :=
  match x with
  | VStr _ => true
  | VList _ => false
  end.

Definition value_type_name (x : pyvalue) : string :=
  match x with
  | VStr _ => "str"
  | VList _ => "list"
  end.

Definition value_same_key (k x : pyvalue) : bool :=
  match k, x with
  | VStr a, VStr b => bool_decide (a = b)
  | _, _ => false
  end.

(** * Properties *)

Example lower_regex : PyStr.lower "ReGeX:a" = "regex:a".
Proof. reflexivity. Qed.

Example strip_both : PyStr.strip "  a b  " = "a b".
Proof. reflexivity. Qed.

Example split_dots : PyStr.split "."%char "a.b..c" = ["a"; "b"; EmptyString; "c"].
Proof. reflexivity. Qed.

Example of_nat_12 : PyStr.of_nat 12 = "12" ∧ PyStr.of_nat 0 = "0".
Proof. split; reflexivity. Qed.

(** ** Results *)

Lemma rfold_app {A S} (body : S → A → result S) s l1 l2 :
  rfold body s (l1 ++ l2) = (s' ← rfold body s l1; rfold body s' l2).
Proof.
  revert s. induction l1 as [|x l1 IH]; intros s; simpl; [done|].
  destruct (body s x); simpl; [apply IH | done].
Qed.

Lemma rmap_length {A B} (f : A → result B) l ys :
  rmap f l = Ok ys → length ys = length l.
Proof.
  revert ys. induction l as [|x l IH]; intros ys; simpl.
  - by intros [= <-].
  - destruct (f x); simpl; [|done].
    destruct (rmap f l); simpl; [|done].
    intros [= <-]. simpl. f_equal. by apply IH.
Qed.


Lemma rfold_raise {A S} (body : S → A → result S) (P : exn → Prop) s l e :
  (∀ s x e, body s x = Raise e → P e) → rfold body s l = Raise e → P e.
Proof.
  intros Hbody. revert s. induction l as [|x l IH]; intros s; simpl; [done|].
  destruct (body s x) as [s'|e'] eqn:Hx; simpl; [apply IH|].
  intros [= <-]. by eapply Hbody.
Qed.

Lemma rfold_ok {A S} (body : S → A → result S) (I : S → Prop) s l :
  I s →
  (∀ s x, I s → x ∈ l → ∃ s', body s x = Ok s' ∧ I s') →
  ∃ s', rfold body s l = Ok s' ∧ I s'.
Proof.
  revert s. induction l as [|x l IH]; intros s Hs Hbody; simpl; [by eexists|].
  destruct (Hbody s x Hs) as (s' & -> & Hs'); [by left|]. simpl.
  apply IH; [done|]. intros s0 y Hs0 Hy. apply Hbody; [done | by right].
Qed.


Lemma rmap_pure {A B} (f : A → B) l : rmap (λ x, Ok (f x)) l = Ok (map f l).
Proof. induction l as [|x l IH]; simpl; [done|]. by rewrite IH. Qed.

(** ** Ordered dicts *)

Lemma filter_all {A} (P : A → Prop) `{!∀ x, Decision (P x)} (l : list A) :
  Forall P l → filter P l = l.
Proof.
  induction 1 as [|x l Hx _ IH]; [done|].
  by rewrite filter_cons_True, IH.
Qed.

Lemma filter_comm {A} (P Q : A → Prop) `{!∀ x, Decision (P x), !∀ x, Decision (Q x)}
    (l : list A) :
  filter P (filter Q l) = filter Q (filter P l).
Proof.
  rewrite !list_filter_filter. apply list_filter_iff. intros x. tauto.
Qed.

Lemma dedup_elem_of l x : x ∈ dedup l ↔ x ∈ l.
Proof.
  induction l as [|y l IH]; simpl; [done|].
  rewrite !elem_of_cons, list_elem_of_filter, IH.
  destruct (decide (x = y)); tauto.
Qed.

Lemma dedup_filter (P : string → Prop) `{!∀ x, Decision (P x)} l :
  dedup (filter P l) = filter P (dedup l).
Proof.
  induction l as [|y l IH]; simpl; [done|].
  rewrite !filter_cons. destruct (decide (P y)) as [Hy|Hy]; simpl.
  - rewrite IH. f_equal. apply filter_comm.
  - rewrite IH. symmetry. apply list_filter_filter_l.
    intros x Hx ->. done.
Qed.

Lemma dedup_NoDup l : NoDup (dedup l).
Proof.
  induction l as [|y l IH]; simpl; [constructor|].
  constructor; [|by apply NoDup_filter].
  rewrite list_elem_of_filter. naive_solver.
Qed.

Lemma dedup_id l : NoDup l → dedup l = l.
Proof.
  induction 1 as [|y l Hy _ IH]; simpl; [done|].
  rewrite IH. f_equal. apply filter_all.
  apply Forall_forall. intros x Hx ->. done.
Qed.

Lemma dedup_snoc l x :
  dedup (l ++ [x]) = if decide (x ∈ l) then dedup l else dedup l ++ [x].
Proof.
  induction l as [|y l IH]; simpl; [done|].
  rewrite IH.
  destruct (decide (x ∈ l)) as [Hl|Hl];
    destruct (decide (x ∈ y :: l)) as [Hyl|Hyl]; try done.
  - exfalso. apply Hyl. by right.
  - apply elem_of_cons in Hyl as [->|?]; [|done].
    rewrite filter_app, filter_cons_False, filter_nil, app_nil_r; [done|].
    by intros ?.
  - rewrite filter_app, filter_cons_True; [done|].
    intros ->. apply Hyl. by left.
Qed.

Lemma dedup_app l1 l2 :
  dedup (l1 ++ l2) = dedup l1 ++ filter (λ x, x ∉ l1) (dedup l2).
Proof.
  induction l1 as [|y l1 IH]; simpl.
  - symmetry. apply filter_all, Forall_forall. set_solver.
  - rewrite IH, filter_app. f_equal. f_equal.
    rewrite list_filter_filter. apply list_filter_iff.
    intros x. rewrite not_elem_of_cons. tauto.
Qed.

Section dict_facts.
Context {V : Type}.
Implicit Types (d e : list (string * V)) (k : string) (v : V).

Lemma get_None d k : PyDict.get k d = None ↔ k ∉ PyDict.keys d.
Proof.
  unfold PyDict.keys. induction d as [|[k' v'] d IH]; simpl.
  - split; [set_solver | done].
  - rewrite not_elem_of_cons. destruct (decide (k = k')); naive_solver.
Qed.

Lemma get_is_Some d k : is_Some (PyDict.get k d) ↔ k ∈ PyDict.keys d.
Proof.
  rewrite <- not_eq_None_Some, get_None.
  split; [apply dec_stable | by intros ? ?].
Qed.

Lemma get_elem_of d k v : PyDict.get k d = Some v → (k, v) ∈ d.
Proof.
  induction d as [|[k' v'] d IH]; simpl; [done|].
  destruct (decide (k = k')) as [->|]; [intros [= ->]; left | right; auto].
Qed.

Lemma get_NoDup d k v : NoDup (PyDict.keys d) → (k, v) ∈ d → PyDict.get k d = Some v.
Proof.
  unfold PyDict.keys. induction d as [|[k' v'] d IH]; simpl; [by intros _ ?%elem_of_nil|].
  intros [Hk Hd]%NoDup_cons [[= -> ->]|Hin]%elem_of_cons.
  - by rewrite decide_True.
  - rewrite decide_False; [by apply IH|].
    intros ->. apply Hk. apply list_elem_of_fmap. by exists (k', v).
Qed.

Lemma getitem_ok d k : k ∈ PyDict.keys d → ∃ v, PyDict.getitem k d = Ok v.
Proof.
  intros [v Hv]%get_is_Some. exists v. unfold PyDict.getitem. by rewrite Hv.
Qed.

Lemma getitem_Ok d k v : PyDict.getitem k d = Ok v ↔ PyDict.get k d = Some v.
Proof. unfold PyDict.getitem. destruct (PyDict.get k d); naive_solver. Qed.

Lemma get_set d k v k' :
  PyDict.get k' (PyDict.set k v d) = if decide (k' = k) then Some v else PyDict.get k' d.
Proof.
  induction d as [|[k0 v0] d IH]; simpl.
  - by destruct (decide (k' = k)).
  - destruct (decide (k = k0)) as [->|Hk]; simpl.
    + destruct (decide (k' = k0)); done.
    + rewrite IH. destruct (decide (k' = k0)) as [->|]; [|done].
      by rewrite decide_False.
Qed.

Lemma keys_set d k v :
  PyDict.keys (PyDict.set k v d)
  = if decide (k ∈ PyDict.keys d) then PyDict.keys d else PyDict.keys d ++ [k].
Proof.
  unfold PyDict.keys. induction d as [|[k0 v0] d IH]; [done|].
  cbn [PyDict.set fmap list_fmap fst].
  destruct (decide (k = k0)) as [->|Hk]; cbn [fmap list_fmap fst].
  - rewrite decide_True; [done | by left].
  - rewrite IH. destruct (decide (k ∈ d.*1)) as [Hd|Hd].
    + rewrite decide_True; [done | by right].
    + rewrite decide_False; [done|]. by intros [?|?]%elem_of_cons.
Qed.

Lemma keys_set_elem_of d k v k' :
  k' ∈ PyDict.keys (PyDict.set k v d) ↔ k' = k ∨ k' ∈ PyDict.keys d.
Proof. rewrite keys_set. case_decide; set_solver. Qed.

Lemma NoDup_set d k v : NoDup (PyDict.keys d) → NoDup (PyDict.keys (PyDict.set k v d)).
Proof.
  intros Hd. rewrite keys_set. case_decide; [done|].
  apply NoDup_app. split_and!; [done| |apply NoDup_singleton]. set_solver.
Qed.

Lemma set_length d k v :
  length (PyDict.set k v d)
  = if decide (k ∈ PyDict.keys d) then length d else S (length d).
Proof.
  rewrite <- !(length_fmap fst). fold (PyDict.keys d).
  fold (PyDict.keys (PyDict.set k v d)). rewrite keys_set.
  case_decide; [done|]. rewrite length_app. simpl. lia.
Qed.

Lemma keys_update d e :
  PyDict.keys (PyDict.update d e)
  = PyDict.keys d ++ filter (λ k, k ∉ PyDict.keys d) (dedup (PyDict.keys e)).
Proof.
  unfold PyDict.update. revert d.
  induction e as [|[k v] e IH] using rev_ind; intros d; simpl.
  - by rewrite app_nil_r.
  - rewrite fold_left_app. simpl. rewrite keys_set, IH.
    replace (PyDict.keys (e ++ [(k, v)])) with (PyDict.keys e ++ [k])
      by (unfold PyDict.keys; by rewrite fmap_app).
    rewrite dedup_snoc. destruct (decide (k ∈ PyDict.keys e)) as [He|He].
    + rewrite decide_True; [done|].
      destruct (decide (k ∈ PyDict.keys d)); [set_solver|].
      apply elem_of_app. right. apply list_elem_of_filter.
      by rewrite dedup_elem_of.
    + rewrite filter_app, filter_cons, filter_nil.
      destruct (decide (k ∈ PyDict.keys d)) as [Hd|Hd].
      * rewrite decide_True by set_solver.
        rewrite decide_False by (by intros ?). by rewrite app_nil_r.
      * rewrite decide_False.
        -- rewrite decide_True by done. by rewrite app_assoc.
        -- rewrite elem_of_app, list_elem_of_filter, dedup_elem_of. naive_solver.
Qed.

Lemma get_update d e k :
  NoDup (PyDict.keys e) →
  PyDict.get k (PyDict.update d e)
  = match PyDict.get k e with Some v => Some v | None => PyDict.get k d end.
Proof.
  unfold PyDict.update. revert d.
  induction e as [|[k0 v0] e IH]; intros d Hnd; [done|].
  assert ((k0 ∉ PyDict.keys e) ∧ NoDup (PyDict.keys e)) as [Hk0 Hnd']
    by (by apply NoDup_cons in Hnd).
  cbn [fold_left PyDict.get fst snd].
  rewrite IH by done. rewrite get_set.
  destruct (decide (k = k0)) as [->|Hk]; [|done].
  apply get_None in Hk0. by rewrite Hk0.
Qed.

Lemma NoDup_update d e : NoDup (PyDict.keys d) → NoDup (PyDict.keys (PyDict.update d e)).
Proof.
  intros Hd. rewrite keys_update. apply NoDup_app. split_and!; [done| |].
  - intros k Hk [Hk' _]%list_elem_of_filter. done.
  - apply NoDup_filter, dedup_NoDup.
Qed.

Lemma keys_of_pairs (kvs : list (string * V)) :
  PyDict.keys (PyDict.of_pairs kvs) = dedup kvs.*1.
Proof.
  change (PyDict.of_pairs kvs) with (PyDict.update [] kvs).
  rewrite keys_update. simpl. apply filter_all, Forall_forall. set_solver.
Qed.

Lemma get_of_pairs (kvs : list (string * V)) k :
  NoDup kvs.*1 → PyDict.get k (PyDict.of_pairs kvs) = PyDict.get k kvs.
Proof.
  intros Hnd. change (PyDict.of_pairs kvs) with (PyDict.update [] kvs).
  rewrite get_update by done. by destruct (PyDict.get k kvs).
Qed.

End dict_facts.

Lemma keys_fromkeys l : PyDict.keys (PyDict.fromkeys l) = dedup l.
Proof.
  unfold PyDict.fromkeys. rewrite keys_of_pairs. f_equal.
  rewrite <- list_fmap_compose. apply list_fmap_id.
Qed.

Lemma NoDup_fromkeys l : NoDup (PyDict.keys (PyDict.fromkeys l)).
Proof. rewrite keys_fromkeys. apply dedup_NoDup. Qed.
(** ** Properties of utils.add_special_parameters *)

Section add_special_parameters_facts.
Context {value : Type}.

Lemma inject_lookup (p : gmap string value) key v (argspec : list string) k :
  (if bool_decide (key ∉ dom p) && bool_decide (key ∈ argspec)
   then <[key := v]> p else p) !! k
  = match p !! k with
    | Some x => Some x
    | None => if bool_decide (k ∈ argspec) && bool_decide (k = key)
              then Some v else None
    end.
Proof.
  destruct (decide (k = key)) as [->|Hk].
  - rewrite (bool_decide_eq_true_2 (key = key)) by done.
    rewrite andb_true_r.
    case_bool_decide as Hn; simpl.
    + apply not_elem_of_dom in Hn. rewrite Hn.
      case_bool_decide; [by rewrite lookup_insert_eq | done].
    + apply elem_of_dom in Hn as [x Hx]. by rewrite Hx.
  - rewrite (bool_decide_eq_false_2 (k = key)) by done.
    rewrite andb_false_r.
    destruct (_ && _); [rewrite lookup_insert_ne by done|];
      by destruct (p !! k).
Qed.

Lemma add_special_parameters_lookup (params : gmap string value) argspec
    (functions variables : value) error (common_params : gmap string value) k :
  add_special_parameters params argspec functions variables error common_params !! k
  = match (if bool_decide (k ∈ argspec) then common_params !! k else None) with
    | Some v => Some v
    | None =>
        match params !! k with
        | Some v => Some v
        | None => special_value argspec functions variables error k
        end
    end.
Proof.
  unfold add_special_parameters, special_value.
  set (p1 := if _ && _ then <["functions":=functions]> params else params).
  set (p2 := if _ && _ then <["variables":=variables]> p1 else p1).
  set (p3 := match error with Some e => _ | None => p2 end).
  assert (H3 : p3 !! k = match p2 !! k with Some v => Some v | None =>
    if bool_decide (k ∈ argspec) && bool_decide (k = "error")
    then error else None end).
  { subst p3. destruct error as [e|]; [apply inject_lookup|].
    destruct (p2 !! k); [done|].
    by destruct (bool_decide (k ∈ argspec) && bool_decide (k = "error")). }
  assert (H4 : (if bool_decide (common_params ≠ ∅)
                then filter (λ kv, kv.1 ∈ argspec) common_params ∪ p3 else p3) !! k
    = match (if bool_decide (k ∈ argspec) then common_params !! k else None) with
      | Some v => Some v | None => p3 !! k end).
  { destruct (decide (common_params = ∅)) as [->|Hc].
    - rewrite (bool_decide_eq_false_2 (∅ ≠ ∅)) by (intros H; by apply H).
      rewrite lookup_empty. by destruct (bool_decide (k ∈ argspec)).
    - rewrite (bool_decide_eq_true_2 (common_params ≠ ∅)) by done.
      rewrite lookup_union.
      destruct (common_params !! k) as [v|] eqn:Hk.
      + destruct (decide (k ∈ argspec)) as [Ha|Ha].
        * rewrite (bool_decide_eq_true_2 _ Ha).
          rewrite (map_lookup_filter_Some_2 _ _ k v) by done.
          by destruct (p3 !! k).
        * rewrite (bool_decide_eq_false_2 _ Ha).
          rewrite map_lookup_filter_None_2; [by destruct (p3 !! k)|].
          right. intros v' _. simpl. done.
      + rewrite map_lookup_filter_None_2 by (left; done).
        destruct (p3 !! k); by destruct (bool_decide (k ∈ argspec)). }
  rewrite H4, H3. subst p2 p1. rewrite !inject_lookup. clear.
  destruct (if bool_decide (k ∈ argspec) then common_params !! k else None); [done|].
  destruct (params !! k); [done|].
  case_bool_decide; simpl; [|done].
  repeat case_bool_decide; subst; done.
Qed.

(** C2, as the code has it: the binder looks at the positional-or-keyword
    parameters of [fn], the [args] of [inspect.getfullargspec(fn)], and at
    nothing else of its signature.  A key of [common_params] that is one of
    these parameters is bound to its common value, also over a value of
    [params]; apart from those keys, every binding of [params] is kept,
    ['functions'], ['variables'] and ['error'] are bound exactly when they
    are among these parameters and [params] does not have them (['error']
    to the error in flight, if there is one), and a name that is not among
    them, be it a keyword-only parameter or the name of [*args] or
    [**kwargs], is bound only if [params] binds it. *)
Theorem add_special_parameters_binds (params : gmap string value)
    (fn : FullArgSpec) (functions variables : value)
    (error : option value) (common_params : gmap string value) :
  let argspec := args fn in
  let bound := add_special_parameters params argspec functions variables error
                                      common_params in
  (∀ k v, k ∈ argspec → common_params !! k = Some v → bound !! k = Some v)
  ∧ (∀ k v, (k ∈ argspec → common_params !! k = None) →
            params !! k = Some v → bound !! k = Some v)
  ∧ (∀ k, k ∉ argspec → bound !! k = params !! k)
  ∧ (∀ k, common_params !! k = None → params !! k = None →
          bound !! k = special_value argspec functions variables error k)
  ∧ (common_params !! "functions" = None → params !! "functions" = None →
     (bound !! "functions" = Some functions ↔ "functions" ∈ argspec)
     ∧ (bound !! "functions" = None ↔ "functions" ∉ argspec))
  ∧ (common_params !! "variables" = None → params !! "variables" = None →
     (bound !! "variables" = Some variables ↔ "variables" ∈ argspec)
     ∧ (bound !! "variables" = None ↔ "variables" ∉ argspec))
  ∧ (∀ e, error = Some e →
     common_params !! "error" = None → params !! "error" = None →
     (bound !! "error" = Some e ↔ "error" ∈ argspec)
     ∧ (bound !! "error" = None ↔ "error" ∉ argspec))
  ∧ (error = None → common_params !! "error" = None →
     bound !! "error" = params !! "error")
  ∧ (∀ k, k ∈ kwonlyargs fn ∨ varargs fn = Some k ∨ varkw fn = Some k →
          k ∉ argspec → bound !! k = params !! k).
Proof.
  intros argspec bound. subst bound. generalize argspec. clear argspec.
  intros argspec.
  repeat split; intros; rewrite ?add_special_parameters_lookup in *;
    unfold special_value in *;
    repeat match goal with
    | H : ?k ∈ _ |- context [bool_decide (?k ∈ _)] =>
        rewrite (bool_decide_eq_true_2 _ H)
    | H : ?k ∉ _ |- context [bool_decide (?k ∈ _)] =>
        rewrite (bool_decide_eq_false_2 _ H)
    | H : ?k ∈ _, H' : context [bool_decide (?k ∈ _)] |- _ =>
        rewrite (bool_decide_eq_true_2 _ H) in H'
    | H : ?k ∉ _, H' : context [bool_decide (?k ∈ _)] |- _ =>
        rewrite (bool_decide_eq_false_2 _ H) in H'
    | H : ?m !! ?k = _ |- context [?m !! ?k] => rewrite H
    | H : ?m !! ?k = _, H' : context [?m !! ?k] |- _ => rewrite H in H'
    | H : ?k ∈ ?l → _ !! ?k = None |- _ =>
        let Hin := fresh in
        destruct (decide (k ∈ l)) as [Hin|Hin]; [pose proof (H Hin)|]; clear H
    end; subst; simpl in *; try done;
    repeat case_bool_decide; simpl in *; try done;
    try (by destruct (params !! _)).
Qed.

End add_special_parameters_facts.

(** C2 as worded fails: a value set in [params] is replaced when
    [common_params] has the key and the callable has the parameter; and a
    callable that declares [variables] as a keyword-only parameter does
    not receive it. *)
Lemma add_special_parameters_replaces_explicit :
  ({["x" := 1]} : gmap string nat) !! "x" = Some 1
  ∧ add_special_parameters ({["x" := 1]} : gmap string nat) ["x"] 0 0 None
                           {["x" := 2]} !! "x" = Some 2
  ∧ "variables"
    ∈ formal_parameters {| args := ["df"]; varargs := None; varkw := None;
                           kwonlyargs := ["variables"] |}
  ∧ add_special_parameters (∅ : gmap string nat)
      (args {| args := ["df"]; varargs := None; varkw := None;
               kwonlyargs := ["variables"] |})
      1 2 None ∅ !! "variables" = None.
Proof.
  split_and!.
  - apply lookup_singleton_eq.
  - rewrite add_special_parameters_lookup.
    rewrite bool_decide_eq_true_2 by set_solver.
    by rewrite lookup_singleton_eq.
  - cbn. set_solver.
  - rewrite add_special_parameters_lookup. cbn [args].
    rewrite bool_decide_eq_false_2 by set_solver.
    rewrite lookup_empty. unfold special_value.
    by rewrite bool_decide_eq_false_2 by set_solver.
Qed.

Lemma add_special_parameters_binds_witness :
  add_special_parameters (∅ : gmap string nat) ["df"; "variables"] 1 2 None ∅
    !! "variables" = Some 2
  ∧ add_special_parameters (∅ : gmap string nat) ["df"] 1 2 None ∅
    !! "variables" = None.
Proof.
  split.
  - apply (add_special_parameters_binds (∅ : gmap string nat)
             {| args := ["df"; "variables"]; varargs := None; varkw := None;
                kwonlyargs := [] |} 1 2 None ∅);
      [apply lookup_empty | apply lookup_empty | set_solver].
  - apply (add_special_parameters_binds (∅ : gmap string nat)
             {| args := ["df"]; varargs := None; varkw := Some "kwargs";
                kwonlyargs := ["variables"] |} 1 2 None ∅);
      [apply lookup_empty | apply lookup_empty | set_solver].
Defined.

(** ** Properties of the wildcard conversion *)

Lemma search_star_contains s :
  search_star s = PyStr.contains PyStr.star s.
Proof.
  induction s as [|c s IH]; [done|].
  cbn [search_star PyStr.contains]. rewrite IH.
  destruct s as [|d s]; [by rewrite andb_false_r|].
  cbn [PyStr.contains].
  destruct (PyStr.eqc c PyStr.backslash), (PyStr.eqc d PyStr.star),
    (PyStr.eqc c PyStr.star); done.
Qed.

Lemma unescaped_star_contains prev s :
  unescaped_star_from prev s = true → PyStr.contains PyStr.star s = true.
Proof.
  revert prev. induction s as [|c s IH]; intros prev; [done|].
  cbn [unescaped_star_from PyStr.contains].
  intros [[H _]%andb_true_iff|H%IH]%orb_true_iff.
  - by rewrite H.
  - rewrite H. apply orb_true_r.
Qed.

Lemma unescaped_star_search s : unescaped_star s = true → search_star s = true.
Proof. rewrite search_star_contains. apply unescaped_star_contains. Qed.

Lemma star_pieces_from_not_nil prev s : star_pieces_from prev s ≠ [].
Proof.
  destruct s as [|c s]; [done|]. cbn [star_pieces_from].
  destruct (_ && _); [done|]. by destruct (star_pieces_from _ s).
Qed.

Lemma join_cons sep p q ps :
  PyStr.join sep (p :: q :: ps) = p +:+ sep +:+ PyStr.join sep (q :: ps).
Proof. done. Qed.

Lemma numbered_join_cons sep n p q ps :
  numbered_join sep n (p :: q :: ps)
  = p +:+ sep (S n) +:+ numbered_join sep (S n) (q :: ps).
Proof. done. Qed.

Lemma numbered_join_String sep n c p ps :
  numbered_join sep n (String c p :: ps) = String c (numbered_join sep n (p :: ps)).
Proof. by destruct ps. Qed.

Lemma numbered_join_const t n ps :
  numbered_join (λ _, t) n ps = PyStr.join t ps.
Proof.
  revert n. induction ps as [|p ps IH]; intros n; [done|].
  destruct ps as [|q ps]; [done|].
  by rewrite numbered_join_cons, join_cons, IH.
Qed.

(** [re.sub] on the stars is the pieces with the replacements between. *)
Lemma sub_star_from_pieces repl prev n s :
  sub_star_from repl prev n s = numbered_join repl n (star_pieces_from prev s).
Proof.
  revert prev n. induction s as [|c s IH]; intros prev n; [done|].
  cbn [sub_star_from star_pieces_from].
  destruct (PyStr.eqc c PyStr.star && negb prev).
  - rewrite IH.
    destruct (star_pieces_from false s) as [|w ws] eqn:Hp;
      [by apply star_pieces_from_not_nil in Hp|].
    by rewrite numbered_join_cons.
  - rewrite IH.
    destruct (star_pieces_from _ s) as [|w ws] eqn:Hp;
      [by apply star_pieces_from_not_nil in Hp|].
    by rewrite numbered_join_String.
Qed.

Lemma join_String sep c p ps :
  PyStr.join sep (String c p :: ps) = String c (PyStr.join sep (p :: ps)).
Proof. by destruct ps. Qed.

(** The pieces with the stars between them are the text. *)
Lemma star_pieces_from_join prev s :
  PyStr.join "*" (star_pieces_from prev s) = s.
Proof.
  revert prev. induction s as [|c s IH]; intros prev; [done|].
  cbn [star_pieces_from].
  destruct (PyStr.eqc c PyStr.star && negb prev) eqn:Hc.
  - apply andb_true_iff in Hc as [Hc _]. apply Ascii.eqb_eq in Hc. subst c.
    destruct (star_pieces_from false s) as [|w ws] eqn:Hp;
      [by apply star_pieces_from_not_nil in Hp|].
    rewrite join_cons, <- Hp, IH. done.
  - specialize (IH (PyStr.eqc c PyStr.backslash)).
    destruct (star_pieces_from _ s) as [|w ws] eqn:Hp;
      [by apply star_pieces_from_not_nil in Hp|].
    by rewrite join_String, IH.
Qed.

Lemma unescaped_star_from_String prev c p :
  (PyStr.eqc c PyStr.star && negb prev) = false →
  unescaped_star_from prev (String c p)
  = unescaped_star_from (PyStr.eqc c PyStr.backslash) p.
Proof. intros H. cbn [unescaped_star_from]. by rewrite H. Qed.

(** No piece holds an unescaped star. *)
Lemma star_pieces_from_clean prev s :
  match star_pieces_from prev s with
  | [] => False
  | p :: ps => unescaped_star_from prev p = false
               ∧ Forall (λ q, unescaped_star q = false) ps
  end.
Proof.
  revert prev. induction s as [|c s IH]; intros prev; [done|].
  cbn [star_pieces_from].
  destruct (PyStr.eqc c PyStr.star && negb prev) eqn:Hc.
  - split; [done|]. specialize (IH false).
    destruct (star_pieces_from false s); [done|].
    destruct IH. by constructor.
  - specialize (IH (PyStr.eqc c PyStr.backslash)).
    destruct (star_pieces_from _ s); [done|].
    destruct IH. split; [|done]. by rewrite unescaped_star_from_String.
Qed.

Lemma star_pieces_clean s : Forall (λ q, unescaped_star q = false) (star_pieces s).
Proof.
  pose proof (star_pieces_from_clean false s) as H. unfold star_pieces.
  destruct (star_pieces_from false s); [done|]. destruct H. by constructor.
Qed.

Lemma star_pieces_two prev s :
  unescaped_star_from prev s = true → 2 ≤ length (star_pieces_from prev s).
Proof.
  revert prev. induction s as [|c s IH]; intros prev; [done|].
  cbn [unescaped_star_from star_pieces_from].
  destruct (PyStr.eqc c PyStr.star && negb prev); simpl.
  - intros _. pose proof (star_pieces_from_not_nil false s).
    destruct (star_pieces_from false s); [done|]. simpl. lia.
  - intros H%IH. destruct (star_pieces_from _ s); simpl in *; lia.
Qed.

Lemma wildcards_to_regex_of_pairs selected_columns :
  wildcards_to_regex selected_columns
  = PyDict.of_pairs (wildcard_entry <$> selected_columns).
Proof.
  unfold wildcards_to_regex, PyDict.of_pairs. generalize (@nil (string * string)).
  induction selected_columns as [|kv l IH]; intros d; [done|]. simpl. apply IH.
Qed.

(** C3: a key with an unescaped star that does not start with [regex:]
    becomes [regex:] followed by the key with every unescaped star replaced
    by a capture group, and every unescaped star of its value becomes the
    reference to group 1, 2, ... from left to right; the rest of both texts
    is kept.  With columns a_1, a_2, b the wildcard a_* renamed to x_*
    gives a_1 to x_1 and a_2 to x_2, in this order, without b. *)
Theorem wildcard_conversion :
  (∀ k v,
     unescaped_star k = true → is_regex k = false →
     wildcard_entry (k, v)
     = ("regex:" +:+ PyStr.join group_text (star_pieces k),
        numbered_join replacer 0 (star_pieces v))
     ∧ PyStr.join "*" (star_pieces k) = k
     ∧ PyStr.join "*" (star_pieces v) = v
     ∧ Forall (λ q, unescaped_star q = false) (star_pieces k)
     ∧ Forall (λ q, unescaped_star q = false) (star_pieces v)
     ∧ 2 ≤ length (star_pieces k))
  ∧ (∀ selected_columns,
       wildcards_to_regex selected_columns
       = PyDict.of_pairs (wildcard_entry <$> selected_columns))
  ∧ replacer 1 = String PyStr.backslash "g<1>"
  ∧ replacer 2 = String PyStr.backslash "g<2>"
  ∧ wildcard_expansion_dict WildRe.engine ["a_1"; "a_2"; "b"] [("a_*", "x_*")]
    = Ok [("a_1", "x_1"); ("a_2", "x_2")].
Proof.
  split_and!; try reflexivity.
  - intros k v Hstar Hre. split_and!.
    + unfold wildcard_entry. cbn [fst snd].
      rewrite (unescaped_star_search k Hstar), Hre. cbn [andb negb].
      unfold sub_star. rewrite !sub_star_from_pieces.
      unfold star_group. by rewrite numbered_join_const.
    + apply star_pieces_from_join.
    + apply star_pieces_from_join.
    + apply star_pieces_clean.
    + apply star_pieces_clean.
    + by apply star_pieces_two.
  - apply wildcards_to_regex_of_pairs.
Qed.

Lemma wildcard_conversion_witness :
  wildcard_entry ("col_*_*", "new_*_*")
  = ("regex:" +:+ PyStr.join group_text ["col_"; "_"; EmptyString],
     numbered_join replacer 0 ["new_"; "_"; EmptyString]).
Proof.
  apply (proj1 wildcard_conversion "col_*_*" "new_*_*"); reflexivity.
Defined.

Example wildcard_escaped_star :
  wildcard_entry ("a\*b*", "x*")
  = ("regex:a\*b" +:+ group_text, String "x" (replacer 1)).
Proof. reflexivity. Qed.

(** ** Properties of the second loop of the column matcher *)

Lemma rfold_fails {A S} (body : S → A → result S) s l x :
  x ∈ l → (∀ s, is_ok (body s x) = false) → is_ok (rfold body s l) = false.
Proof.
  intros Hx Hbody. revert s. induction l as [|y l IH]; intros s;
    [by apply elem_of_nil in Hx|].
  simpl. apply elem_of_cons in Hx as [->|Hx].
  - specialize (Hbody s). by destruct (body s y).
  - destruct (body s y); [by apply IH | done].
Qed.

Lemma last_char_None s : PyStr.last_char s = None → s = EmptyString.
Proof.
  induction s as [|a s IH]; [done|]. simpl.
  destruct s as [|b s]; [done|]. intros H%IH. done.
Qed.

Lemma optional_marker_present all_columns column :
  column ∈ all_columns → column ≠ EmptyString →
  optional_marker all_columns column = Ok (column, false).
Proof.
  intros Hin Hne. unfold optional_marker.
  destruct (PyStr.last_char column) as [c|] eqn:Hc.
  - rewrite (bool_decide_eq_true_2 _ Hin). by rewrite andb_false_r.
  - by apply last_char_None in Hc.
Qed.

Lemma optional_marker_Ok all_columns column marked :
  optional_marker all_columns column = Ok marked →
  (snd marked = false ∧ fst marked = column
   ∧ (PyStr.last_char column = Some "?"%char → column ∈ all_columns))
  ∨ (snd marked = true ∧ fst marked = PyStr.drop_last column
     ∧ PyStr.last_char column = Some "?"%char ∧ column ∉ all_columns).
Proof.
  unfold optional_marker. destruct (PyStr.last_char column) as [c|]; [|done].
  destruct (PyStr.eqc c "?") eqn:Hc; simpl.
  - apply Ascii.eqb_eq in Hc. subst c. case_bool_decide; simpl; intros [= <-]; auto.
  - intros [= <-]. left. split_and!; try done. intros [= ->]. done.
Qed.

Section loop_facts.
Variable re : re_engine.
Variable all_columns : list string.
Variable selected_columns : list (string * string).
Implicit Types (result_columns : list (string * string)) (column : string).

Local Abbreviation step := (expand_column re all_columns selected_columns).

(** A literal key that is a column is mapped under its own name. *)
Lemma expand_column_present result_columns column target :
  is_regex column = false → column ≠ EmptyString →
  column ∈ all_columns →
  PyDict.get column selected_columns = Some target →
  step result_columns column = Ok (PyDict.set column target result_columns).
Proof.
  intros Hre Hne Hin Hget. unfold expand_column. rewrite Hre.
  rewrite optional_marker_present by done. cbn [mbind result_bind fst snd].
  rewrite (bool_decide_eq_true_2 _ Hin).
  unfold PyDict.getitem. by rewrite Hget.
Qed.

(** A literal key without the marker that is no column is an error. *)
Lemma expand_column_missing result_columns column :
  is_regex column = false → column ≠ EmptyString →
  column ∉ all_columns →
  PyStr.last_char column ≠ Some "?"%char →
  step result_columns column
  = Raise (KeyError ("Column " +:+ column +:+ " does not exist")).
Proof.
  intros Hre Hne Hin Hlast. unfold expand_column. rewrite Hre.
  unfold optional_marker.
  destruct (PyStr.last_char column) as [c|] eqn:Hc;
    [|by apply last_char_None in Hc].
  destruct (PyStr.eqc c "?") eqn:Hq.
  { apply Ascii.eqb_eq in Hq. by subst c. }
  cbn [andb mbind result_bind fst snd].
  by rewrite (bool_decide_eq_false_2 _ Hin).
Qed.

(** A literal key with the marker is skipped when neither it nor the name
    without the marker is a column. *)
Lemma expand_column_skipped result_columns column :
  is_regex column = false →
  column ∉ all_columns →
  PyStr.last_char column = Some "?"%char →
  PyStr.drop_last column ∉ all_columns →
  step result_columns column = Ok result_columns.
Proof.
  intros Hre Hin Hlast Hdrop. unfold expand_column. rewrite Hre.
  unfold optional_marker. rewrite Hlast.
  rewrite (bool_decide_eq_false_2 _ Hin).
  change (PyStr.eqc "?" "?" && negb false) with true.
  cbn [mbind result_bind fst snd].
  by rewrite (bool_decide_eq_false_2 _ Hdrop).
Qed.

(** What a turn on a literal key does, when it does not raise. *)
Lemma expand_column_literal result_columns column result' :
  is_regex column = false →
  step result_columns column = Ok result' →
  match resolved_literal all_columns column with
  | Some c => ∃ target, PyDict.get c selected_columns = Some target
                        ∧ result' = PyDict.set c target result_columns
  | None => result' = result_columns
  end.
Proof.
  intros Hre. unfold expand_column, resolved_literal. rewrite Hre.
  destruct (optional_marker all_columns column) as [marked|e] eqn:Hm; [|done].
  cbn [mbind result_bind].
  apply optional_marker_Ok in Hm as [(Ho & Hc & Hq)|(Ho & Hc & Hq & Hn)];
    rewrite Ho, Hc.
  - destruct (decide (column ∈ all_columns)) as [Hin|Hin].
    + rewrite (bool_decide_eq_true_2 _ Hin). unfold PyDict.getitem.
      destruct (PyDict.get column selected_columns) as [target|]; [|done].
      intros [= <-]. by exists target.
    + by rewrite (bool_decide_eq_false_2 _ Hin).
  - rewrite decide_False by done.
    destruct (decide (PyStr.drop_last column ∈ all_columns)) as [Hin|Hin].
    + rewrite (bool_decide_eq_true_2 _ Hin). rewrite decide_True by done.
      unfold PyDict.getitem.
      destruct (PyDict.get _ selected_columns) as [target|]; [|done].
      intros [= <-]. by exists target.
    + rewrite (bool_decide_eq_false_2 _ Hin).
      rewrite decide_False by (by intros [_ ?]). by intros [= <-].
Qed.

(** What a turn on a [regex:] key does, when it does not raise. *)
Lemma expand_column_regex result_columns column result' :
  is_regex column = true →
  step result_columns column = Ok result' →
  ∃ renamed_columns,
    length renamed_columns = length (pattern_columns re all_columns column)
    ∧ result' = PyDict.update
                  (PyDict.of_pairs (zip (pattern_columns re all_columns column)
                                        renamed_columns))
                  result_columns.
Proof.
  intros Hre. unfold expand_column, matching, pattern_columns. rewrite Hre.
  destruct (re_compile re (regex_pattern column)) as [fullmatch|e]; [|done].
  cbn [mbind result_bind]. rewrite keys_fromkeys.
  destruct (renamed _ _ _ _) as [renamed_columns|e] eqn:Hren; [|done].
  cbn [mbind result_bind]. intros [= <-]. exists renamed_columns. split; [|done].
  unfold renamed, except_re_error in Hren. rewrite keys_fromkeys in Hren.
  destruct (PyDict.getitem column selected_columns) as [target|e]; simpl in Hren.
  - destruct (decide (column = target)).
    + destruct (rmap _ _) as [ys|[]] eqn:Hr in Hren; try done.
      injection Hren as <-. by apply rmap_length in Hr.
    + destruct (rmap _ _) as [ys|[]] eqn:Hr in Hren; try done.
      injection Hren as <-. by apply rmap_length in Hr.
  - by destruct e.
Qed.

Lemma pattern_columns_NoDup column : NoDup (pattern_columns re all_columns column).
Proof.
  unfold pattern_columns. destruct (re_compile _ _); [apply dedup_NoDup | constructor].
Qed.

Lemma fst_zip_same_length {A B} (l : list A) (k : list B) :
  length k = length l → (zip l k).*1 = l.
Proof. intros H. apply fst_zip. lia. Qed.

Lemma keys_regex_pairs column (renamed_columns : list string) :
  length renamed_columns = length (pattern_columns re all_columns column) →
  PyDict.keys (PyDict.of_pairs (zip (pattern_columns re all_columns column)
                                    renamed_columns))
  = pattern_columns re all_columns column.
Proof.
  intros Hlen. rewrite keys_of_pairs, fst_zip_same_length by done.
  apply dedup_id, pattern_columns_NoDup.
Qed.

(** One turn changes the keys of the result as [step_keys] says. *)
Lemma expand_column_keys result_columns column result' :
  NoDup (PyDict.keys result_columns) →
  step result_columns column = Ok result' →
  PyDict.keys result' = step_keys re all_columns (PyDict.keys result_columns) column
  ∧ NoDup (PyDict.keys result').
Proof.
  intros Hnd Hstep. unfold step_keys.
  destruct (is_regex column) eqn:Hre.
  - apply expand_column_regex in Hstep as (rn & Hlen & ->); [|done].
    split; [|apply NoDup_update].
    + rewrite keys_update, keys_regex_pairs by done.
      by rewrite (dedup_id (PyDict.keys result_columns)).
    + rewrite keys_regex_pairs by done. apply pattern_columns_NoDup.
  - apply expand_column_literal in Hstep; [|done].
    destruct (resolved_literal all_columns column) as [c|].
    + destruct Hstep as (target & _ & ->). split; [apply keys_set | by apply NoDup_set].
    + by subst.
Qed.

Lemma loop_keys result_columns columns result' :
  NoDup (PyDict.keys result_columns) →
  rfold step result_columns columns = Ok result' →
  PyDict.keys result'
  = fold_left (step_keys re all_columns) columns (PyDict.keys result_columns)
  ∧ NoDup (PyDict.keys result').
Proof.
  revert result_columns. induction columns as [|column columns IH];
    intros result_columns Hnd; simpl.
  - by intros [= <-].
  - destruct (step result_columns column) as [r1|e] eqn:Hstep; [|done].
    cbn [mbind result_bind].
    apply expand_column_keys in Hstep as [Hk Hnd1]; [|done].
    rewrite <- Hk. by apply IH.
Qed.

End loop_facts.

Section order_facts.
Variable re : re_engine.
Variable all_columns : list string.

Local Abbreviation groups := (regex_groups re all_columns).
Local Abbreviation lits := (literal_columns all_columns).

Lemma regex_groups_snoc l x :
  groups (l ++ [x])
  = if is_regex x then groups l ++ [pattern_columns re all_columns x] else groups l.
Proof.
  unfold regex_groups. rewrite filter_app, fmap_app.
  destruct (is_regex x) eqn:Hx.
  - by rewrite filter_cons_True by done.
  - rewrite filter_cons_False by (by rewrite Hx). by rewrite app_nil_r.
Qed.

Lemma literal_columns_snoc l x :
  lits (l ++ [x])
  = if is_regex x then lits l
    else lits l ++ option_list (resolved_literal all_columns x).
Proof.
  unfold literal_columns. rewrite filter_app, omap_app.
  destruct (is_regex x) eqn:Hx.
  - rewrite filter_cons_False by (by rewrite Hx). by rewrite app_nil_r.
  - rewrite filter_cons_True by done. simpl. by destruct (resolved_literal _ x).
Qed.

Lemma elem_of_concat (G : list (list string)) c :
  c ∈ concat G ↔ ∃ g, g ∈ G ∧ c ∈ g.
Proof.
  rewrite list_elem_of_In, in_concat. split; intros (g & Hg & Hc); exists g.
  - by rewrite !list_elem_of_In.
  - by rewrite <- !list_elem_of_In.
Qed.

Lemma elem_of_concat_reverse (G : list (list string)) c :
  c ∈ concat (reverse G) ↔ c ∈ concat G.
Proof.
  rewrite !elem_of_concat. split; intros (g & Hg & Hc); exists g;
    (split; [|done]); by apply elem_of_reverse.
Qed.

(** The keys after the loop, in closed form. *)
Lemma fold_step_keys l :
  fold_left (step_keys re all_columns) l [] = result_order re all_columns l.
Proof.
  induction l as [|x l IH] using rev_ind; [done|].
  rewrite fold_left_app. cbn [fold_left]. rewrite IH. clear IH.
  unfold result_order, step_keys.
  rewrite regex_groups_snoc, literal_columns_snoc.
  set (D := dedup (concat (reverse (groups l)))).
  set (L := filter (λ c, c ∉ concat (groups l)) (dedup (lits l))).
  assert (HD : ∀ c, c ∈ D ↔ c ∈ concat (groups l)).
  { intros c. subst D. by rewrite dedup_elem_of, elem_of_concat_reverse. }
  destruct (is_regex x).
  - set (M := pattern_columns re all_columns x).
    rewrite reverse_app. cbn [reverse rev_append app concat].
    change (rev_append [] [M]) with [M]. cbn [app concat].
    rewrite dedup_app, (dedup_id M) by apply pattern_columns_NoDup.
    rewrite filter_app, <- app_assoc. f_equal. f_equal.
    subst L. rewrite list_filter_filter. apply list_filter_iff.
    intros c. rewrite concat_app. cbn [concat]. rewrite app_nil_r.
    rewrite not_elem_of_app. tauto.
  - fold D. destruct (resolved_literal all_columns x) as [c|];
      [change (option_list (Some c)) with [c]
      |change (option_list None) with (@nil string); by rewrite app_nil_r].
    rewrite dedup_snoc.
    destruct (decide (c ∈ lits l)) as [Hl|Hl].
    + rewrite decide_True; [done|].
      destruct (decide (c ∈ concat (groups l))) as [Hg|Hg].
      * apply elem_of_app. left. by apply HD.
      * apply elem_of_app. right. subst L. apply list_elem_of_filter.
        split; [done|]. by rewrite dedup_elem_of.
    + rewrite filter_app, filter_cons, filter_nil.
      destruct (decide (c ∉ concat (groups l))) as [Hg|Hg].
      * rewrite decide_False; [by rewrite app_assoc|].
        intros [HcD|HcL]%elem_of_app; [by apply HD in HcD|].
        subst L. apply list_elem_of_filter in HcL as [_ HcL].
        rewrite dedup_elem_of in HcL. done.
      * rewrite decide_True; [by rewrite app_nil_r|].
        apply elem_of_app. left. apply HD. by apply dec_stable.
Qed.

End order_facts.

Section value_facts.
Variable re : re_engine.
Variable all_columns : list string.
Variable selected_columns : list (string * string).
Implicit Types (result_columns : list (string * string)) (column : string).

Local Abbreviation step := (expand_column re all_columns selected_columns).

(** Once a column holds the target of its own key, it keeps it. *)
Lemma step_keeps_target result_columns column result' c v :
  NoDup (PyDict.keys result_columns) →
  PyDict.get c selected_columns = Some v →
  PyDict.get c result_columns = Some v →
  step result_columns column = Ok result' →
  PyDict.get c result' = Some v.
Proof.
  intros Hnd Hsel Hc Hstep. destruct (is_regex column) eqn:Hre.
  - apply expand_column_regex in Hstep as (rn & _ & ->); [|done].
    rewrite get_update by done. by rewrite Hc.
  - apply expand_column_literal in Hstep; [|done].
    destruct (resolved_literal all_columns column) as [c'|]; [|by subst].
    destruct Hstep as (target & Ht & ->). rewrite get_set.
    destruct (decide (c = c')) as [<-|]; [congruence | done].
Qed.

Lemma loop_keeps_target result_columns columns result' c v :
  NoDup (PyDict.keys result_columns) →
  PyDict.get c selected_columns = Some v →
  PyDict.get c result_columns = Some v →
  rfold step result_columns columns = Ok result' →
  PyDict.get c result' = Some v.
Proof.
  revert result_columns. induction columns as [|column columns IH];
    intros result_columns Hnd Hsel Hc; simpl.
  - by intros [= <-].
  - destruct (step result_columns column) as [r1|e] eqn:Hstep; [|done].
    cbn [mbind result_bind]. apply IH; [|done|].
    + by apply expand_column_keys in Hstep as [_ ?].
    + by eapply step_keeps_target.
Qed.

(** The column of a literal key holds, after the loop, the target that the
    specification gives to that column. *)
Lemma loop_literal_target columns column c result' :
  column ∈ columns → is_regex column = false →
  resolved_literal all_columns column = Some c →
  rfold step [] columns = Ok result' →
  ∃ v, PyDict.get c selected_columns = Some v ∧ PyDict.get c result' = Some v.
Proof.
  intros Hin Hre Hres Hloop.
  apply list_elem_of_split in Hin as (l1 & l2 & ->).
  rewrite rfold_app in Hloop.
  destruct (rfold step [] l1) as [r1|e] eqn:H1; [|done].
  cbn [mbind result_bind rfold] in Hloop.
  destruct (step r1 column) as [r2|e] eqn:H2; [|done].
  cbn [mbind result_bind] in Hloop.
  assert (Hnd1 : NoDup (PyDict.keys r1)).
  { apply loop_keys in H1 as [_ ?]; [done | constructor]. }
  pose proof (expand_column_keys _ _ _ _ _ _ Hnd1 H2) as [_ Hnd2].
  apply expand_column_literal in H2; [|done]. rewrite Hres in H2.
  destruct H2 as (v & Hv & ->). exists v. split; [done|].
  eapply loop_keeps_target; [exact Hnd2|done| |exact Hloop].
  rewrite get_set. by rewrite decide_True.
Qed.

End value_facts.

(** A literal key keeps its entry through the first loop. *)
Lemma wildcard_entry_literal k v : literal k → wildcard_entry (k, v) = (k, v).
Proof. intros [Hs _]. unfold wildcard_entry. cbn [fst]. by rewrite Hs. Qed.

Lemma is_regex_converted s : is_regex ("regex:" +:+ s) = true.
Proof. reflexivity. Qed.

Lemma wildcard_entry_key kv :
  (wildcard_entry kv).1 = kv.1 ∨ is_regex (wildcard_entry kv).1 = true.
Proof.
  unfold wildcard_entry. destruct (_ && _); [right; apply is_regex_converted | by left].
Qed.

Lemma wildcards_to_regex_snoc l kv :
  wildcards_to_regex (l ++ [kv])
  = PyDict.set (wildcard_entry kv).1 (wildcard_entry kv).2 (wildcards_to_regex l).
Proof. unfold wildcards_to_regex. by rewrite fold_left_app. Qed.

Lemma wildcards_to_regex_NoDup l : NoDup (PyDict.keys (wildcards_to_regex l)).
Proof.
  rewrite wildcards_to_regex_of_pairs, keys_of_pairs. apply dedup_NoDup.
Qed.

Lemma wildcards_to_regex_literal selected_columns k v :
  NoDup selected_columns.*1 → (k, v) ∈ selected_columns → literal k →
  PyDict.get k (wildcards_to_regex selected_columns) = Some v.
Proof.
  intros Hnd Hin Hlit.
  induction selected_columns as [|[k' v'] l IH] using rev_ind;
    [by apply elem_of_nil in Hin|].
  rewrite wildcards_to_regex_snoc, get_set.
  rewrite fmap_app in Hnd. apply NoDup_app in Hnd as (Hndl & Hdis & _).
  apply elem_of_app in Hin as [Hin|[= <- <-]%list_elem_of_singleton].
  - rewrite decide_False; [by apply IH|].
    intros Heq. destruct (wildcard_entry_key (k', v')) as [Hk|Hk].
    + rewrite Hk in Heq. cbn [fst] in Heq. subst k'.
      apply (Hdis k); [|by left]. apply list_elem_of_fmap. by exists (k, v).
    + rewrite <- Heq in Hk. destruct Hlit as [_ Hlit]. congruence.
  - rewrite wildcard_entry_literal by done. cbn [fst snd].
    by rewrite decide_True.
Qed.

Lemma wildcards_to_regex_keys selected_columns k v :
  (k, v) ∈ selected_columns → literal k →
  k ∈ PyDict.keys (wildcards_to_regex selected_columns).
Proof.
  intros Hin Hlit. rewrite wildcards_to_regex_of_pairs, keys_of_pairs, dedup_elem_of.
  apply list_elem_of_fmap. exists (k, v). split; [done|].
  apply list_elem_of_fmap. exists (k, v). split; [|done].
  by rewrite wildcard_entry_literal.
Qed.

(** ** The column matcher as a whole *)

Lemma rfold_same {A S} (body : S → A → result S) s l :
  (∀ x, x ∈ l → body s x = Ok s) → rfold body s l = Ok s.
Proof.
  induction l as [|x l IH]; intros H; [done|]. simpl.
  rewrite H by (by left). cbn [mbind result_bind].
  apply IH. intros y Hy. apply H. by right.
Qed.

Lemma last_char_Some_ne s c : PyStr.last_char s = Some c → s ≠ EmptyString.
Proof. by intros H ->. Qed.

Lemma resolved_literal_present all_columns column :
  column ∈ all_columns → resolved_literal all_columns column = Some column.
Proof. intros H. unfold resolved_literal. by rewrite decide_True. Qed.

Section matcher_claims.
Variable re : re_engine.
Variable all_columns : list string.
Implicit Types (selected_columns result_columns : list (string * string)).

Lemma expansion_literal_target selected_columns result_columns column c :
  wildcard_expansion_dict re all_columns selected_columns = Ok result_columns →
  column ∈ PyDict.keys (wildcards_to_regex selected_columns) →
  is_regex column = false →
  resolved_literal all_columns column = Some c →
  ∃ v, PyDict.get c (wildcards_to_regex selected_columns) = Some v
       ∧ PyDict.get c result_columns = Some v.
Proof.
  unfold wildcard_expansion_dict. intros Hloop Hin Hre Hres.
  by eapply loop_literal_target.
Qed.

Lemma expansion_present selected_columns result_columns k v :
  wildcard_expansion_dict re all_columns selected_columns = Ok result_columns →
  NoDup selected_columns.*1 → (k, v) ∈ selected_columns →
  literal k → k ∈ all_columns →
  PyDict.get k result_columns = Some v.
Proof.
  intros Hr Hnd Hin Hlit Hall.
  destruct (expansion_literal_target selected_columns result_columns k k)
    as (v' & Hv' & ->); try done.
  - by eapply wildcards_to_regex_keys.
  - by destruct Hlit.
  - by apply resolved_literal_present.
  - rewrite <- Hv'. by apply wildcards_to_regex_literal.
Qed.

(** C4, as the code has it: the keys of the result are the columns of the
    patterns, the group of the pattern declared last first and the group
    of the pattern declared first last, each group in table order and a
    column under the first group that has it in this order, followed by
    the columns of the literal keys that no pattern matched, in the order
    of their keys; and the column of a literal key carries the rename
    target that the specification gives it, whatever the patterns did. *)
Theorem expansion_order selected_columns result_columns :
  wildcard_expansion_dict re all_columns selected_columns = Ok result_columns →
  let keys := PyDict.keys (wildcards_to_regex selected_columns) in
  PyDict.keys result_columns = result_order re all_columns keys
  ∧ NoDup (PyDict.keys result_columns)
  ∧ (∀ column c,
       column ∈ keys → is_regex column = false →
       resolved_literal all_columns column = Some c →
       is_Some (PyDict.get c result_columns)
       ∧ PyDict.get c result_columns
         = PyDict.get c (wildcards_to_regex selected_columns))
  ∧ (∀ k v,
       NoDup selected_columns.*1 → (k, v) ∈ selected_columns →
       literal k → k ∈ all_columns →
       PyDict.get k result_columns = Some v).
Proof.
  intros Hr keys.
  assert (Hloop := Hr). unfold wildcard_expansion_dict in Hloop.
  apply loop_keys in Hloop as [Hkeys Hnd]; [|constructor].
  split_and!; try done.
  - rewrite Hkeys. apply fold_step_keys.
  - intros column c Hin Hre Hres.
    destruct (expansion_literal_target _ _ _ _ Hr Hin Hre Hres) as (v & Hv & Hc).
    rewrite Hv, Hc. by split.
  - intros k v Hnd' Hin Hlit Hall. by eapply expansion_present.
Qed.

(** The literal keys where the loop does what is meant, for a key that is
    not the empty text: a key that is a column is mapped to its target; a
    key without the question mark that is no column is an error that names
    it; a key with the question mark is skipped when neither it nor the
    name before the question mark is a column, so that a specification of
    such keys alone gives the empty mapping. *)
Theorem literal_keys :
  (∀ selected_columns result_columns column,
     is_regex column = false → column ≠ EmptyString →
     (column ∈ all_columns →
      ∀ target, PyDict.get column selected_columns = Some target →
        expand_column re all_columns selected_columns result_columns column
        = Ok (PyDict.set column target result_columns))
     ∧ (column ∉ all_columns → PyStr.last_char column ≠ Some "?"%char →
        expand_column re all_columns selected_columns result_columns column
        = Raise (KeyError ("Column " +:+ column +:+ " does not exist")))
     ∧ (column ∉ all_columns → PyStr.last_char column = Some "?"%char →
        PyStr.drop_last column ∉ all_columns →
        expand_column re all_columns selected_columns result_columns column
        = Ok result_columns))
  ∧ (∀ selected_columns,
       Forall (λ kv, literal kv.1 ∧ PyStr.last_char kv.1 = Some "?"%char
                     ∧ (kv.1 ∉ all_columns)
                     ∧ (PyStr.drop_last kv.1 ∉ all_columns)) selected_columns →
       wildcard_expansion_dict re all_columns selected_columns = Ok [])
  ∧ (∀ selected_columns k v,
       (k, v) ∈ selected_columns → literal k → k ≠ EmptyString →
       k ∉ all_columns → PyStr.last_char k ≠ Some "?"%char →
       is_ok (wildcard_expansion_dict re all_columns selected_columns) = false)
  ∧ (∀ k v,
       literal k → k ≠ EmptyString →
       (k ∉ all_columns → PyStr.last_char k ≠ Some "?"%char →
        wildcard_expansion_dict re all_columns [(k, v)]
        = Raise (KeyError ("Column " +:+ k +:+ " does not exist")))
       ∧ (k ∈ all_columns →
          wildcard_expansion_dict re all_columns [(k, v)] = Ok [(k, v)]))
  ∧ (∀ selected_columns k v result_columns,
       NoDup selected_columns.*1 → (k, v) ∈ selected_columns →
       literal k → k ∈ all_columns →
       wildcard_expansion_dict re all_columns selected_columns = Ok result_columns →
       PyDict.get k result_columns = Some v).
Proof.
  split_and!.
  - intros selected_columns result_columns column Hre Hne. split_and!.
    + intros. by apply expand_column_present.
    + intros. by apply expand_column_missing.
    + intros. by apply expand_column_skipped.
  - intros selected_columns Hall. unfold wildcard_expansion_dict.
    apply rfold_same. intros column Hcol.
    rewrite wildcards_to_regex_of_pairs, keys_of_pairs, dedup_elem_of in Hcol.
    apply list_elem_of_fmap in Hcol as ([k' v'] & -> & Hin).
    apply list_elem_of_fmap in Hin as ([k v] & Heq & Hin).
    rewrite Forall_forall in Hall. destruct (Hall _ Hin) as (Hlit & Hq & Hn & Hd).
    cbn [fst] in *. rewrite wildcard_entry_literal in Heq by done.
    injection Heq as -> ->. destruct Hlit as [_ Hre].
    by apply expand_column_skipped.
  - intros selected_columns k v Hin Hlit Hne Hn Hq. unfold wildcard_expansion_dict.
    apply (rfold_fails _ _ _ k); [by eapply wildcards_to_regex_keys|].
    intros s. destruct Hlit as [_ Hre]. by rewrite expand_column_missing.
  - intros k v Hlit Hne.
    assert (Htmp : wildcards_to_regex [(k, v)] = [(k, v)]).
    { unfold wildcards_to_regex. cbn [fold_left].
      by rewrite wildcard_entry_literal. }
    unfold wildcard_expansion_dict. rewrite Htmp. cbn [PyDict.keys fmap list_fmap fst rfold].
    destruct Hlit as [_ Hre]. split.
    + intros Hn Hq. by rewrite expand_column_missing.
    + intros Hin. rewrite (expand_column_present _ _ _ _ _ v) by
        (try done; cbn [PyDict.get]; by rewrite decide_True).
      done.
  - intros selected_columns k v result_columns Hnd Hin Hlit Hall Hr.
    by eapply expansion_present.
Qed.

Local Abbreviation name_step := (expand_name re all_columns).

Lemma expand_name_present (result_columns : list (string * unit)) column :
  is_regex column = false → column ≠ EmptyString → column ∈ all_columns →
  name_step result_columns column = Ok (PyDict.set column tt result_columns).
Proof.
  intros Hre Hne Hin. unfold expand_name. rewrite Hre.
  rewrite optional_marker_present by done. cbn [mbind result_bind fst snd].
  by rewrite (bool_decide_eq_true_2 _ Hin).
Qed.

(** A turn of the loop of [wildcard_expansion] loses no name. *)
Lemma expand_name_grows (result_columns result' : list (string * unit)) column c :
  name_step result_columns column = Ok result' →
  c ∈ PyDict.keys result_columns → c ∈ PyDict.keys result'.
Proof.
  unfold expand_name. destruct (is_regex column).
  - destruct (matching re all_columns _) as [m|e]; [|done].
    cbn [mbind result_bind]. intros [= <-] Hc.
    rewrite keys_update. apply elem_of_app. by left.
  - destruct (optional_marker all_columns column) as [marked|e]; [|done].
    cbn [mbind result_bind]. case_bool_decide.
    + intros [= <-] Hc. apply keys_set_elem_of. by right.
    + destruct (snd marked); [|done]. by intros [= <-].
Qed.

Lemma name_loop_grows (result_columns result' : list (string * unit)) columns c :
  rfold name_step result_columns columns = Ok result' →
  c ∈ PyDict.keys result_columns → c ∈ PyDict.keys result'.
Proof.
  revert result_columns. induction columns as [|column columns IH];
    intros result_columns; simpl.
  - by intros [= <-].
  - destruct (name_step result_columns column) as [r1|e] eqn:Hstep; [|done].
    cbn [mbind result_bind]. intros Hloop Hc.
    apply (IH r1 Hloop). by eapply expand_name_grows.
Qed.

Lemma wildcard_name_literal k : literal k → wildcard_name k = k.
Proof. intros [Hs _]. unfold wildcard_name. by rewrite Hs. Qed.

(** C9: a literal key that ends in a question mark and is itself a column
    keeps its question mark: the marker is not read as optional, the key is
    mapped (in [wildcard_expansion_dict]) or selected (in
    [wildcard_expansion]) under its full name, and the question mark is
    removed from a key only when the key is no column. *)
Theorem question_mark_column column :
  literal column →
  PyStr.last_char column = Some "?"%char →
  column ∈ all_columns →
  optional_marker all_columns column = Ok (column, false)
  ∧ (∀ selected_columns result_columns target,
       PyDict.get column selected_columns = Some target →
       expand_column re all_columns selected_columns result_columns column
       = Ok (PyDict.set column target result_columns))
  ∧ (∀ result_columns : list (string * unit),
       expand_name re all_columns result_columns column
       = Ok (PyDict.set column tt result_columns))
  ∧ (∀ selected_columns result_columns v,
       NoDup selected_columns.*1 → (column, v) ∈ selected_columns →
       wildcard_expansion_dict re all_columns selected_columns = Ok result_columns →
       PyDict.get column result_columns = Some v)
  ∧ (∀ v, wildcard_expansion_dict re all_columns [(column, v)] = Ok [(column, v)])
  ∧ (∀ names (found : list string),
       column ∈ names →
       wildcard_expansion re all_columns (Lst names) = Ok found →
       column ∈ found)
  ∧ wildcard_expansion re all_columns (Str column) = Ok [column]
  ∧ (∀ k marked,
       optional_marker all_columns k = Ok marked → snd marked = true →
       (k ∉ all_columns) ∧ fst marked = PyStr.drop_last k).
Proof.
  intros Hlit Hq Hin.
  assert (Hne : column ≠ EmptyString) by (by eapply last_char_Some_ne).
  assert (Hre : is_regex column = false) by (by destruct Hlit).
  split_and!.
  - by apply optional_marker_present.
  - intros. by apply expand_column_present.
  - intros. by apply expand_name_present.
  - intros selected_columns result_columns v Hnd Hv Hr. by eapply expansion_present.
  - intros v. unfold wildcard_expansion_dict, wildcards_to_regex. cbn [fold_left].
    rewrite wildcard_entry_literal by done.
    cbn [PyDict.set PyDict.keys fmap list_fmap fst snd rfold].
    rewrite (expand_column_present _ _ _ _ _ v) by
      (try done; cbn [PyDict.get]; by rewrite decide_True).
    done.
  - intros names found Hnames. unfold wildcard_expansion.
    cbn [as_list].
    destruct (rfold _ _ _) as [r|e] eqn:Hloop; [|done].
    cbn [mbind result_bind]. intros [= <-].
    assert (Hc : column ∈ wildcard_name <$> names).
    { apply list_elem_of_fmap. exists column. by rewrite wildcard_name_literal. }
    apply list_elem_of_split in Hc as (l1 & l2 & Heq). rewrite Heq in Hloop.
    rewrite rfold_app in Hloop.
    destruct (rfold name_step [] l1) as [r1|e] eqn:H1; [|done].
    cbn [mbind result_bind rfold] in Hloop.
    rewrite expand_name_present in Hloop by done.
    cbn [mbind result_bind] in Hloop.
    apply (name_loop_grows _ _ _ _ Hloop). apply keys_set_elem_of. by left.
  - unfold wildcard_expansion. cbn [as_list fmap list_fmap rfold].
    rewrite wildcard_name_literal by done.
    by rewrite expand_name_present.
  - intros k marked Hm Hs.
    apply optional_marker_Ok in Hm as [(Ho & _)|(_ & Hf & _ & Hn)]; [congruence|done].
Qed.

End matcher_claims.

(** C4 as worded fails: the group of the pattern declared last comes
    first. *)
Lemma expansion_not_in_declared_order :
  wildcard_expansion_dict WildRe.engine ["a1"; "b1"] [("a*", "x*"); ("b*", "y*")]
  = Ok [("b1", "y1"); ("a1", "x1")]
  ∧ declared_order WildRe.engine ["a1"; "b1"]
      (PyDict.keys (wildcards_to_regex [("a*", "x*"); ("b*", "y*")]))
    = ["a1"; "b1"].
Proof. split; reflexivity. Qed.

Lemma expansion_order_witness :
  PyDict.keys [("b1", "y1"); ("a1", "x1")]
  = result_order WildRe.engine ["a1"; "b1"]
      (PyDict.keys (wildcards_to_regex [("a*", "x*"); ("b*", "y*")])).
Proof.
  apply (expansion_order WildRe.engine ["a1"; "b1"] [("a*", "x*"); ("b*", "y*")]
           [("b1", "y1"); ("a1", "x1")]).
  reflexivity.
Defined.

Example literal_overrides_pattern :
  wildcard_expansion_dict WildRe.engine ["a1"; "b1"] [("a1", "kept"); ("*", "x_*")]
  = Ok [("a1", "kept"); ("b1", "x_b1")]
  ∧ wildcard_expansion_dict WildRe.engine ["a1"; "b1"] [("*", "x_*"); ("a1", "kept")]
    = Ok [("a1", "kept"); ("b1", "x_b1")].
Proof. split; reflexivity. Qed.

(** C5: the input at which the code misses.  The key ["a?"] ends in a
    question mark and is no column, while ["a"] is one: the loop strips the
    question mark and then reads the target under the stripped name, a key
    that the specification does not have, so the call raises the KeyError
    of that lookup; [wildcard_expansion], given the same name and the same
    columns, selects the column.  The empty key is an error as well, even
    when it is a column: the loop reads the last character of an empty
    text. *)
Lemma optional_key_of_present_column :
  ("a?" ∉ ["a"])
  ∧ wildcard_expansion_dict WildRe.engine ["a"] [("a?", "x")] = Raise (KeyError "a")
  ∧ wildcard_expansion WildRe.engine ["a"] (Str "a?") = Ok ["a"]
  ∧ wildcard_expansion_dict WildRe.engine [EmptyString] [(EmptyString, "x")]
    = Raise (IndexError "string index out of range").
Proof. split_and!; [|reflexivity..]. by intros [?|?%elem_of_nil]%elem_of_cons. Qed.

Lemma literal_keys_witness :
  wildcard_expansion_dict WildRe.engine ["a"] [("missing?", "missing")] = Ok [].
Proof.
  apply (proj1 (proj2 (literal_keys WildRe.engine ["a"]))).
  repeat constructor; cbn [fst]; try reflexivity.
  - by intros [?|?%elem_of_nil]%elem_of_cons.
  - change (PyStr.drop_last "missing?") with "missing".
    by intros [?|?%elem_of_nil]%elem_of_cons.
Defined.

Example missing_required_column :
  wildcard_expansion_dict WildRe.engine ["a"] [("missing", "missing")]
  = Raise (KeyError "Column missing does not exist").
Proof. reflexivity. Qed.

Lemma question_mark_column_witness :
  wildcard_expansion_dict WildRe.engine ["a"; "why?"] [("why?", "because")]
  = Ok [("why?", "because")]
  ∧ wildcard_expansion WildRe.engine ["a"; "why?"] (Str "why?") = Ok ["why?"].
Proof.
  assert (Hin : "why?" ∈ ["a"; "why?"]) by (right; left).
  split.
  - by apply (question_mark_column WildRe.engine ["a"; "why?"] "why?").
  - by apply (question_mark_column WildRe.engine ["a"; "why?"] "why?").
Defined.

(** ** Properties of utils.get_nested_function *)

Lemma rstrip_cons c s :
  PyStr.is_space c = false → PyStr.rstrip (String c s) = String c (PyStr.rstrip s).
Proof. intros Hc. simpl. rewrite Hc. by destruct (PyStr.rstrip s). Qed.

Lemma strip_custom name :
  PyStr.strip ("custom." +:+ name) = "custom." +:+ PyStr.rstrip name.
Proof.
  unfold PyStr.strip.
  change (PyStr.lstrip ("custom." +:+ name)) with ("custom." +:+ name).
  change ("custom." +:+ name)
    with (String "c" (String "u" (String "s" (String "t" (String "o"
            (String "m" (String "." name))))))).
  rewrite !rstrip_cons by reflexivity. reflexivity.
Qed.

Lemma split_custom name :
  PyStr.split "." ("custom." +:+ name) = "custom" :: PyStr.split "." name.
Proof. reflexivity. Qed.

Lemma split_not_nil sep s : PyStr.split sep s ≠ [].
Proof.
  destruct s as [|a s]; simpl; [done|].
  destruct (PyStr.eqc a sep); [done|]. by destruct (PyStr.split sep s).
Qed.

Section get_nested_function_facts.
Context {ident : Type}.
Variable py_None : pyobj ident.
Implicit Types (obj fn : pyobj ident) (segments : list string).

Lemma traverse_ok fn_string obj segments fn :
  rfold (get_segment fn_string) obj segments = Ok fn ↔ resolves obj segments fn.
Proof.
  split.
  - revert obj. induction segments as [|name rest IH]; intros obj; simpl.
    + intros [= ->]. constructor.
    + destruct obj as [items|id attrs]; simpl;
        destruct (PyDict.get name _) as [o|] eqn:Hget; simpl; try done;
        intros H%IH; econstructor; eauto.
  - induction 1 as [|items name o rest fn Hget _ IH|id attrs name o rest fn Hget _ IH];
      simpl; [done|..]; by rewrite Hget.
Qed.

Lemma traverse_raise fn_string obj segments e :
  rfold (get_segment fn_string) obj segments = Raise e → e = not_recognized fn_string.
Proof.
  apply (rfold_raise _ (λ e, e = not_recognized fn_string)). clear.
  intros obj name e. destruct obj as [items|id attrs]; simpl;
    destruct (PyDict.get name _); simpl; congruence.
Qed.

Lemma traverse_missing fn_string obj segments :
  (¬ ∃ fn, resolves obj segments fn) →
  rfold (get_segment fn_string) obj segments = Raise (not_recognized fn_string).
Proof.
  intros Hno.
  destruct (rfold (get_segment fn_string) obj segments) as [fn|e] eqn:Hr.
  - exfalso. apply Hno. exists fn. by apply traverse_ok in Hr.
  - by apply traverse_raise in Hr as ->.
Qed.

Lemma get_nested_function_custom name stock_functions custom_functions
    default_stock_functions :
  (is_Some stock_functions ∨ is_Some custom_functions) →
  get_nested_function py_None ("custom." +:+ name) stock_functions custom_functions
                      default_stock_functions
  = rfold (get_segment ("custom." +:+ name)) (default py_None custom_functions)
          (PyStr.split "." (PyStr.rstrip name)).
Proof.
  intros Hroots. unfold get_nested_function.
  rewrite strip_custom, split_custom.
  rewrite decide_True by done.
  rewrite decide_False.
  - destruct custom_functions, stock_functions; try done.
    by destruct Hroots as [[? [=]]|[? [=]]].
  - cbn [length]. intros [= Hlen]. apply length_zero_iff_nil in Hlen.
    by apply split_not_nil in Hlen.
Qed.

Lemma get_nested_function_stock fn_string stock_functions custom_functions
    default_stock_functions :
  (is_Some stock_functions ∨ is_Some custom_functions) →
  head (PyStr.split "." (PyStr.strip fn_string)) ≠ Some "custom" →
  get_nested_function py_None fn_string stock_functions custom_functions
                      default_stock_functions
  = rfold (get_segment fn_string) (default py_None stock_functions)
          (PyStr.split "." (PyStr.strip fn_string)
           ++ default_segment default_stock_functions).
Proof.
  intros Hroots Hhead. unfold get_nested_function, default_segment.
  destruct (PyStr.split "." (PyStr.strip fn_string)) as [|first rest] eqn:Hsplit;
    [by apply split_not_nil in Hsplit|].
  rewrite decide_False by (intros ->; by apply Hhead).
  assert (Heq : (match default_stock_functions with
                 | Some d => if decide (d = EmptyString) then first :: rest
                             else (first :: rest) ++ [d]
                 | None => first :: rest
                 end)
                = (first :: rest) ++ match default_stock_functions with
                                     | Some d => if decide (d = EmptyString) then []
                                                 else [d]
                                     | None => []
                                     end).
  { destruct default_stock_functions as [d|]; [destruct (decide _)|];
      by rewrite ?app_nil_r. }
  fold (default_segment default_stock_functions) in Heq.
  destruct custom_functions, stock_functions; cbn [mbind result_bind fst snd];
    rewrite ?Heq; try done.
  by destruct Hroots as [[? [=]]|[? [=]]].
Qed.


(** C8: without any root the call fails with ['No functions provided']
    whatever the name; a name that starts with [custom.] is resolved from
    the custom root along the segments after the prefix, and from no other
    root; any other name is resolved from the stock root along its segments
    followed by the default segment, if one is given; a segment is a key of
    a dict node or an attribute of an object node, and when some segment is
    missing the call fails with a ValueError that names the function as it
    was asked for. *)
Theorem get_nested_function_resolves :
  (∀ fn_string default_stock_functions,
     get_nested_function py_None fn_string None None default_stock_functions
     = Raise (ValueError "No functions provided"))
  ∧ (∀ name stock_functions custom_functions default_stock_functions,
       is_Some stock_functions ∨ is_Some custom_functions →
       let fn_string := "custom." +:+ name in
       let called :=
         get_nested_function py_None fn_string stock_functions custom_functions
                             default_stock_functions in
       let root := default py_None custom_functions in
       let segments := PyStr.split "." (PyStr.rstrip name) in
       (∀ fn, called = Ok fn ↔ resolves root segments fn)
       ∧ ((¬ ∃ fn, resolves root segments fn) ↔
          called = Raise (ValueError ("Function " +:+ fn_string +:+ " not recognized"))))
  ∧ (∀ fn_string stock_functions custom_functions default_stock_functions,
       is_Some stock_functions ∨ is_Some custom_functions →
       head (PyStr.split "." (PyStr.strip fn_string)) ≠ Some "custom" →
       let called :=
         get_nested_function py_None fn_string stock_functions custom_functions
                             default_stock_functions in
       let root := default py_None stock_functions in
       let segments := PyStr.split "." (PyStr.strip fn_string)
                       ++ default_segment default_stock_functions in
       (∀ fn, called = Ok fn ↔ resolves root segments fn)
       ∧ ((¬ ∃ fn, resolves root segments fn) ↔
          called = Raise (ValueError ("Function " +:+ fn_string +:+ " not recognized")))).
Proof.
  split_and!.
  - done.
  - intros name stock custom dflt Hroots fn_string called root segments.
    subst called root segments fn_string.
    rewrite get_nested_function_custom by done.
    split; [intros fn; apply traverse_ok|].
    split; [apply traverse_missing|].
    intros Hr [fn Hfn%(traverse_ok ("custom." +:+ name))]. congruence.
  - intros fn_string stock custom dflt Hroots Hhead called root segments.
    subst called root segments.
    rewrite get_nested_function_stock by done.
    split; [intros fn; apply traverse_ok|].
    split; [apply traverse_missing|].
    intros Hr [fn Hfn%(traverse_ok fn_string)]. congruence.
Qed.

End get_nested_function_facts.

Lemma get_nested_function_resolves_witness :
  get_nested_function (PyObject 0 []) "custom.pkg.f" None
    (Some (PyDictNode [("pkg", PyObject 1 [("f", PyObject 2 [])])])) None
  = Ok (PyObject 2 []).
Proof.
  apply (proj1 (proj2 (get_nested_function_resolves (PyObject 0 []))) "pkg.f" None
           (Some (PyDictNode [("pkg", PyObject 1 [("f", PyObject 2 [])])])) None).
  - right. by eexists.
  - apply (resolves_key _ "pkg" (PyObject 1 [("f", PyObject 2 [])])); [done|].
    apply (resolves_attr _ _ "f" (PyObject 2 [])); [done|].
    apply resolves_here.
Defined.

Example get_nested_function_missing :
  get_nested_function (PyObject 0 []) "custom.pkg.g" None
    (Some (PyDictNode [("pkg", PyObject 1 [("f", PyObject 2 [])])])) None
  = Raise (ValueError "Function custom.pkg.g not recognized").
Proof. reflexivity. Qed.

Example get_nested_function_default :
  get_nested_function (PyObject 0 []) " space " 
    (Some (PyObject 1 [("space", PyObject 2 [("run", PyObject 3 [])])])) None
    (Some "run")
  = Ok (PyObject 3 []).
Proof. reflexivity. Qed.


(** ** Properties of the column handling of extract.py *)

Lemma in_out_raise input output :
  extract.mismatch input output →
  extract.in_out input output = Raise (ValueError extract.cardinality_message).
Proof.
  intros [H1 H2]. unfold extract.in_out.
  by rewrite !bool_decide_eq_true_2.
Qed.

Lemma in_out_ok input output :
  ¬ extract.mismatch input output →
  extract.in_out input output = Ok (as_list input, as_list (default input output)).
Proof.
  intros H. unfold extract.in_out, extract.mismatch in *.
  destruct (decide (length (as_list input) ≠ length (as_list (default input output))));
    destruct (decide (1 < length (as_list (default input output))));
    rewrite ?bool_decide_eq_true_2, ?bool_decide_eq_false_2 by done; try done.
  tauto.
Qed.




Lemma join_rows_ok sep (cols : list (list string)) :
  PyTable.rows cols ≠ [] →
  PyTable.join_rows sep cols = Ok (PyStr.join sep <$> PyTable.rows cols).
Proof. unfold PyTable.join_rows. by destruct (PyTable.rows cols). Qed.

Lemma join_rows_no_rows sep (cols : list (list string)) :
  PyTable.rows cols = [] →
  PyTable.join_rows sep cols
  = Raise (AttributeError "'DataFrame' object has no attribute 'tolist'").
Proof. unfold PyTable.join_rows. by intros ->. Qed.

Section extract_facts.
Context {cell kwargs : Type}.
Variable str : cell → string.
Variable _re_findall : string → cell → cell + extract.findall_error.
Implicit Types (df : list (string * list cell)) (f : list string → list cell).





(** In aggregate mode, on a table with rows, the joined texts go through
    the transform once and the result is the output column. *)
Lemma joined_or_each_joined sep f df input o frame :
  1 < length input →
  PyTable.columns df input = Ok frame →
  PyTable.rows (map (map str) frame) ≠ [] →
  extract.joined_or_each str sep f df input [o]
  = Ok (PyTable.assign o
          (f (PyStr.join sep <$> PyTable.rows (map (map str) frame))) df).
Proof.
  intros Hlen Hframe Hrows. unfold extract.joined_or_each.
  rewrite bool_decide_eq_true_2 by done. rewrite Hframe.
  cbn [mbind result_bind]. by rewrite join_rows_ok.
Qed.

(** In aggregate mode, on a table without rows, the call stops at
    [tolist]. *)
Lemma joined_or_each_no_rows sep f df input o frame :
  1 < length input →
  PyTable.columns df input = Ok frame →
  PyTable.rows (map (map str) frame) = [] →
  extract.joined_or_each str sep f df input [o]
  = Raise (AttributeError "'DataFrame' object has no attribute 'tolist'").
Proof.
  intros Hlen Hframe Hrows. unfold extract.joined_or_each.
  rewrite bool_decide_eq_true_2 by done. rewrite Hframe.
  cbn [mbind result_bind]. by rewrite join_rows_no_rows.
Qed.



End extract_facts.

Section fan_out.
Context {cell kwargs : Type}.
Variable str : cell → string.
Variable _extract_address : list string → string → kwargs → list cell.
Variable _extract_attributes :
  list string → string → option string → option string → string → kwargs
  → list cell.
Variable _extract_brackets : list string → list string → bool → list cell.
Variable _extract_codes : list string → kwargs → list cell.
Variable _extract_html : list string → string → kwargs → list cell.
Variable _extract_properties :
  list string → option string → string → kwargs → list cell.
Variable _re_findall : string → cell → cell + extract.findall_error.
Implicit Types (df : list (string * list cell)).

Local Abbreviation address := (extract.address str _extract_address).
Local Abbreviation attributes := (extract.attributes str _extract_attributes).
Local Abbreviation brackets := (extract.brackets str _extract_brackets).
Local Abbreviation codes := (extract.codes str _extract_codes).
Local Abbreviation html := (extract.html str _extract_html).
Local Abbreviation properties := (extract.properties str _extract_properties).
Local Abbreviation regex := (extract.regex _re_findall).




Lemma rows_lookup {A} (cols : list (list A)) i row :
  cols ≠ [] →
  Forall2 (λ c x, c !! i = Some x) cols row →
  PyTable.rows cols !! i = Some row.
Proof.
  intros Hne H. induction H as [|c x cols row Hx Hrest IH]; [done|].
  destruct cols as [|c' cols].
  - apply Forall2_nil_inv_l in Hrest as ->. simpl.
    by rewrite list_lookup_fmap, Hx.
  - change (PyTable.rows (c :: c' :: cols))
      with (zip_with cons c (PyTable.rows (c' :: cols))).
    rewrite lookup_zip_with, Hx, IH by done. done.
Qed.

(** C7: with one output column and more than one input column, on a
    table that has a row, [address], [brackets] and [properties] hand the
    transform the rows joined with a space, [attributes] and [codes] the
    rows joined with [" AAA "]; the transform is applied once and its
    result is the output column.  Row [i] of the joined texts is the [str]
    of the cells of row [i], in the order of [input], with the separator
    between them.  On a table without rows the five calls stop with the
    AttributeError of [tolist] before the transform is called: this is the
    input at which the code misses what it does for every other table. *)
Theorem aggregate_separators df input o output frame dataType responseContent
    attribute_type desired_unit bound find include_brackets property_type
    return_data_type kw :
  1 < length (as_list input) →
  as_list output = [o] →
  PyTable.columns df (as_list input) = Ok frame →
  let texts := PyTable.rows (map (map str) frame) in
  let joined sep := PyStr.join sep <$> texts in
  let missing := AttributeError "'DataFrame' object has no attribute 'tolist'" in
  let calls :=
    [(address df input (Some output) dataType kw,
      _extract_address (joined " ") dataType kw);
     (properties df input (Some output) property_type return_data_type kw,
      _extract_properties (joined " ") property_type return_data_type kw);
     (attributes df input (Some output) responseContent attribute_type desired_unit
                 bound kw,
      _extract_attributes (joined " AAA ") responseContent attribute_type
                          desired_unit bound kw);
     (codes df input (Some output) kw,
      _extract_codes (joined " AAA ") kw)] in
  (texts ≠ [] →
   Forall (λ call, fst call = Ok (PyTable.assign o (snd call) df)) calls
   ∧ (Forall (λ t, t ∈ extract.bracket_types) (as_list find) →
      brackets df input (Some output) find include_brackets
      = Ok (PyTable.assign o
              (_extract_brackets (joined " ") (as_list find) include_brackets) df)))
  ∧ (texts = [] →
     Forall (λ call, fst call = Raise missing) calls
     ∧ (Forall (λ t, t ∈ extract.bracket_types) (as_list find) →
        brackets df input (Some output) find include_brackets = Raise missing))
  ∧ (∀ sep i row,
       Forall2 (λ c x, c !! i = Some x) frame row →
       joined sep !! i = Some (PyStr.join sep (map str row))).
Proof.
  intros Hin Hout Hframe texts joined missing calls.
  assert (Hm : ¬ extract.mismatch input (Some output)).
  { unfold extract.mismatch. simpl. rewrite Hout. simpl. lia. }
  assert (Hfind : Forall (λ t, t ∈ extract.bracket_types) (as_list find) →
                  negb (forallb (λ element, bool_decide (element ∈ extract.bracket_types))
                          (as_list find)) = false).
  { intros Hbr. apply negb_false_iff, forallb_forall. intros t Ht.
    apply bool_decide_eq_true_2. rewrite Forall_forall in Hbr. apply Hbr.
    by apply list_elem_of_In. }
  split_and!.
  - intros Hrows. split.
    + subst calls. repeat apply Forall_cons_2; [..|apply Forall_nil_2];
        cbn [fst snd];
        unfold extract.address, extract.attributes, extract.codes,
          extract.properties;
        rewrite (in_out_ok _ _ Hm); cbn [mbind result_bind fst snd];
        change (default input (Some output)) with output; rewrite Hout; by rewrite (joined_or_each_joined _ _ _ _ _ _ frame).
    + intros Hbr. unfold extract.brackets.
      rewrite (in_out_ok _ _ Hm); cbn [mbind result_bind fst snd].
      change (default input (Some output)) with output. rewrite (Hfind Hbr), Hout.
      by rewrite (joined_or_each_joined _ _ _ _ _ _ frame).
  - intros Hrows. split.
    + subst calls. repeat apply Forall_cons_2; [..|apply Forall_nil_2];
        cbn [fst snd];
        unfold extract.address, extract.attributes, extract.codes,
          extract.properties;
        rewrite (in_out_ok _ _ Hm); cbn [mbind result_bind fst snd];
        change (default input (Some output)) with output; rewrite Hout; by rewrite (joined_or_each_no_rows _ _ _ _ _ _ frame).
    + intros Hbr. unfold extract.brackets.
      rewrite (in_out_ok _ _ Hm); cbn [mbind result_bind fst snd].
      change (default input (Some output)) with output. rewrite (Hfind Hbr), Hout.
      by rewrite (joined_or_each_no_rows _ _ _ _ _ _ frame).
  - intros sep i row Hrow. subst joined texts. cbv beta.
    rewrite list_lookup_fmap, (rows_lookup _ i (map str row)); [done| |].
    + intros Hnil. apply fmap_nil_inv in Hnil. subst frame.
      apply rmap_length in Hframe. simpl in Hframe. lia.
    + apply Forall2_fmap. eapply Forall2_impl; [exact Hrow|].
      intros c x Hc. simpl. by rewrite list_lookup_fmap, Hc.
Qed.

End fan_out.

(** The table, the cells and the transforms of the examples: cells are
    texts and every transform returns the texts it is given. *)
Example address_two_to_three :
  extract.address (λ s : string, s) (λ texts _ (_ : unit), texts)
    [("a", ["1"; "2"]); ("b", ["x"; "y"])]
    (Lst ["a"; "b"]) (Some (Lst ["p"; "q"; "r"])) "streets" tt
  = Raise (ValueError extract.cardinality_message).
Proof. reflexivity. Qed.

Example address_one_to_two :
  extract.address (λ s : string, s) (λ texts _ (_ : unit), texts)
    [("a", ["1"; "2"]); ("b", ["x"; "y"])]
    (Str "a") (Some (Lst ["p"; "q"])) "streets" tt
  = Raise (ValueError extract.cardinality_message).
Proof. reflexivity. Qed.

Example codes_two_to_one :
  extract.codes (λ s : string, s) (λ texts (_ : unit), texts)
    [("a", ["1"; "2"]); ("b", ["x"; "y"])]
    (Lst ["a"; "b"]) (Some (Str "out")) tt
  = Ok [("a", ["1"; "2"]); ("b", ["x"; "y"]); ("out", ["1 AAA x"; "2 AAA y"])].
Proof. reflexivity. Qed.



(** The table without rows: two input columns to one output column. *)
Example address_no_rows :
  extract.address (λ s : string, s) (λ texts _ (_ : unit), texts)
    [("a", []); ("b", [])] (Lst ["a"; "b"]) (Some (Str "out")) "streets" tt
  = Raise (AttributeError "'DataFrame' object has no attribute 'tolist'").
Proof. reflexivity. Qed.

Lemma aggregate_separators_witness :
  extract.address (λ s : string, s) (λ texts _ (_ : unit), texts)
    [("a", ["1"; "2"]); ("b", ["x"; "y"])]
    (Lst ["a"; "b"]) (Some (Str "out")) "streets" tt
  = Ok [("a", ["1"; "2"]); ("b", ["x"; "y"]); ("out", ["1 x"; "2 y"])]
  ∧ extract.codes (λ s : string, s) (λ texts (_ : unit), texts)
      [("a", []); ("b", [])] (Lst ["a"; "b"]) (Some (Str "out")) tt
    = Raise (AttributeError "'DataFrame' object has no attribute 'tolist'").
Proof.
  split.
  - destruct (proj1
      (aggregate_separators (λ s : string, s) (λ texts _ (_ : unit), texts)
         (λ texts _ _ _ _ _, texts) (λ texts _ _, texts) (λ texts _, texts)
         (λ texts _ _ _, texts)
         [("a", ["1"; "2"]); ("b", ["x"; "y"])] (Lst ["a"; "b"]) "out" (Str "out")
         [["1"; "2"]; ["x"; "y"]] "streets" "span" None None "mid" (Str "all")
         false None "list" tt ltac:(simpl; lia) eq_refl eq_refl) ltac:(done))
      as [H _].
    apply Forall_cons in H as [H _]. exact H.
  - destruct (proj1 (proj2
      (aggregate_separators (λ s : string, s) (λ texts _ (_ : unit), texts)
         (λ texts _ _ _ _ _, texts) (λ texts _ _, texts) (λ texts _, texts)
         (λ texts _ _ _, texts)
         [("a", []); ("b", [])] (Lst ["a"; "b"]) "out" (Str "out")
         [[]; []] "streets" "span" None None "mid" (Str "all")
         false None "list" tt ltac:(simpl; lia) eq_refl eq_refl)) eq_refl)
      as [H _].
    do 3 apply Forall_cons in H as [_ H]. apply Forall_cons in H as [H _]. exact H.
Defined.

(** ** Properties of split.tokenize and split.list *)

Section split_facts.
Context {cell ident : Type}.
Variable py_None : pyobj ident.
Variable _format_tokenize :
  list cell → string → option (pyobj ident) → option string → list cell.
Implicit Types (df : list (string * list cell)).

Local Abbreviation tokenize := (split.tokenize py_None _format_tokenize).






End split_facts.



Section list_facts.
Context {cell : Type}.
Variable as_pylist : cell → option (list cell).
Variable of_pylist : list cell → cell.
Variable of_str : string → cell.
Variable json_loads : cell → result cell.
Variable other_len : cell → result nat.
Variable cannot_concatenate : cell → string.
Variable _array : list (list cell) → result (list (list cell)).
Implicit Types (df : list (string * list cell)) (l r : list cell).

Local Abbreviation pad_list := (split.pad_list of_str).
Local Abbreviation load_row := (split.load_row as_pylist json_loads).
Local Abbreviation split_list :=
  (split.list as_pylist of_pylist of_str json_loads other_len cannot_concatenate
              _array).

Lemma max_len_ge lens n : n ∈ lens → n ≤ split.max_len lens.
Proof.
  unfold split.max_len. induction lens as [|m lens IH]; [by intros ?%elem_of_nil|].
  intros [->|H]%elem_of_cons; simpl; [lia|]. specialize (IH H). lia.
Qed.

Lemma pad_list_length n l : length l ≤ n → length (pad_list n l) = n.
Proof.
  intros H. unfold split.pad_list. rewrite length_app, length_replicate. lia.
Qed.

Lemma pad_list_lookup n l j :
  length l ≤ n → j < n →
  pad_list n l !! j = Some (default (of_str EmptyString) (l !! j)).
Proof.
  intros Hl Hj. unfold split.pad_list.
  destruct (decide (j < length l)) as [Hlt|Hge].
  - rewrite lookup_app_l by done.
    destruct (lookup_lt_is_Some_2 l j Hlt) as [x ->]. done.
  - rewrite lookup_app_r by lia.
    rewrite (lookup_ge_None_2 l j) by lia. simpl.
    apply lookup_replicate_2. lia.
Qed.

Lemma rmap_len loaded parsed :
  Forall2 (λ x l, as_pylist x = Some l) loaded parsed →
  rmap (split.len as_pylist other_len) loaded = Ok (length <$> parsed).
Proof.
  induction 1 as [|x l loaded parsed Hx _ IH]; simpl; [done|].
  assert (split.len as_pylist other_len x = Ok (length l)) as ->
    by (unfold split.len; by rewrite Hx).
  rewrite IH. done.
Qed.

Lemma rmap_pad n loaded parsed :
  Forall2 (λ x l, as_pylist x = Some l) loaded parsed →
  rmap (split.pad as_pylist of_str cannot_concatenate n) loaded
  = Ok (pad_list n <$> parsed).
Proof.
  induction 1 as [|x l loaded parsed Hx _ IH]; simpl; [done|].
  assert (split.pad as_pylist of_str cannot_concatenate n x = Ok (pad_list n l)) as ->
    by (unfold split.pad; by rewrite Hx).
  rewrite IH. done.
Qed.

Lemma padded_column n parsed j :
  Forall (λ l, length l ≤ n) parsed → j < n →
  omap (λ r, r !! j) (pad_list n <$> parsed)
  = (λ l, default (of_str EmptyString) (l !! j)) <$> parsed.
Proof.
  intros H Hj. induction H as [|l parsed Hl _ IH]; [done|].
  cbn [fmap list_fmap omap list_omap].
  rewrite pad_list_lookup by done. by rewrite IH.
Qed.

Lemma assign_padded_rows df headers n parsed :
  Forall (λ l, length l ≤ n) parsed → length headers = n →
  PyTable.assign_rows headers (pad_list n <$> parsed) df
  = Ok (fold_left
          (λ df jh, PyTable.assign (snd jh)
                      ((λ l, default (of_str EmptyString) (l !! fst jh)) <$> parsed) df)
          (imap (λ j h, (j, h)) headers) df).
Proof.
  intros Hlen Hh. unfold PyTable.assign_rows.
  rewrite bool_decide_eq_true_2.
  2: { apply Forall_fmap. eapply Forall_impl; [exact Hlen|].
       intros l Hl. simpl. rewrite pad_list_length by done. by rewrite Hh. }
  f_equal.
  assert (Hj : Forall (λ jh : nat * string, fst jh < n) (imap (λ j h, (j, h)) headers)).
  { apply Forall_forall. intros [j h] Hjh.
    apply elem_of_lookup_imap_1 in Hjh as (i & y & [= -> ->] & Hy).
    apply lookup_lt_Some in Hy. simpl. lia. }
  revert df Hj. generalize (imap (λ j h, (j, h)) headers). clear Hh.
  intros jhs. induction jhs as [|[j h] jhs IH]; intros df Hj; [done|].
  apply Forall_cons in Hj as [Hj Hjs]. simpl in Hj.
  cbn [fold_left fst snd]. rewrite padded_column by done. by apply IH.
Qed.

(** C10: when the input column has no row, [split.list] returns the table;
    otherwise every parsed list is extended on the right with empty texts
    to the length of the longest one, and these padded rows are what is
    assigned: as a column of lists for a single name, and through the
    array that pandas makes of them for a wildcard or a list of names.
    With a wildcard output, when that array is the padded rows themselves,
    the column of position [j] has, in every row, item [j] of the row's
    list or the empty text. *)
Theorem list_pads df input output :
  (PyTable.column df input = Ok [] → split_list df input output = Ok df)
  ∧ (∀ values loaded parsed,
       values ≠ [] →
       PyTable.column df input = Ok values →
       rmap load_row values = Ok loaded →
       Forall2 (λ x l, as_pylist x = Some l) loaded parsed →
       let n := split.max_len (length <$> parsed) in
       let padded := pad_list n <$> parsed in
       Forall2 (λ l r, r = l ++ replicate (n - length l) (of_str EmptyString)
                       ∧ length r = n) parsed padded
       ∧ split_list df input output
         = match split.wildcard_template output with
           | Some template =>
               rows ← _array padded;
               PyTable.assign_rows (split.output_headers template n) rows df
           | None =>
               match output with
               | Str name => Ok (PyTable.assign name (of_pylist <$> padded) df)
               | Lst names =>
                   rows ← _array padded;
                   PyTable.assign_rows names rows df
               end
           end
       ∧ (∀ template,
            split.wildcard_template output = Some template →
            _array padded = Ok padded →
            split_list df input output
            = Ok (fold_left
                    (λ df jh,
                       PyTable.assign (snd jh)
                         ((λ l, default (of_str EmptyString) (l !! fst jh)) <$> parsed)
                         df)
                    (imap (λ j h, (j, h)) (split.output_headers template n)) df))).
Proof.
  split.
  - intros Hcol. unfold split.list. rewrite Hcol. done.
  - intros values loaded parsed Hne Hcol Hload Hparsed n padded.
    assert (Hle : Forall (λ l, length l ≤ n) parsed).
    { apply Forall_forall. intros l Hl. apply max_len_ge.
      apply list_elem_of_fmap. by exists l. }
    assert (Hrun : split_list df input output
                   = match split.wildcard_template output with
                     | Some template =>
                         rows ← _array padded;
                         PyTable.assign_rows (split.output_headers template n) rows df
                     | None =>
                         match output with
                         | Str name =>
                             Ok (PyTable.assign name (of_pylist <$> padded) df)
                         | Lst names =>
                             rows ← _array padded;
                             PyTable.assign_rows names rows df
                         end
                     end).
    { unfold split.list. rewrite Hcol. cbn [mbind result_bind]. rewrite Hload.
      cbn [mbind result_bind].
      assert (Hlen : length loaded = length values) by (by eapply rmap_length).
      rewrite bool_decide_eq_false_2.
      2: { destruct values; [done|]. simpl in Hlen. lia. }
      rewrite (rmap_len loaded parsed) by done. cbn [mbind result_bind].
      fold n. rewrite (rmap_pad n loaded parsed) by done. cbn [mbind result_bind].
      fold padded.
      destruct (split.wildcard_template output) as [template|]; [|done].
      assert (Hhead : length (default [] (head padded)) = n).
      { subst padded. destruct parsed as [|l parsed].
        - apply Forall2_nil_inv_r in Hparsed. subst loaded.
          destruct values; [done|]. simpl in Hlen. lia.
        - simpl. apply pad_list_length. by apply Forall_cons in Hle as [? _]. }
      cbv zeta. by rewrite Hhead. }
    split_and!.
    + subst padded. apply Forall2_fmap_r, Forall_Forall2_diag.
      eapply Forall_impl; [exact Hle|]. intros l Hl. simpl.
      split; [done|]. by apply pad_list_length.
    + exact Hrun.
    + intros template Ht Harr. rewrite Hrun, Ht, Harr. cbn [mbind result_bind].
      apply assign_padded_rows; [done|].
      unfold split.output_headers. by rewrite length_fmap, length_seq.
Qed.

End list_facts.

Example list_wildcard :
  split.list value_items VList VStr no_json no_len (λ _, "can only concatenate")
    array_of_texts
    [("col", [VList [VStr "a"; VStr "b"; VStr "c"]; VList [VStr "d"]])]
    "col" (Str "out*")
  = Ok [("col", [VList [VStr "a"; VStr "b"; VStr "c"]; VList [VStr "d"]]);
        ("out1", [VStr "a"; VStr "d"]);
        ("out2", [VStr "b"; VStr EmptyString]);
        ("out3", [VStr "c"; VStr EmptyString])].
Proof. reflexivity. Qed.

Lemma list_pads_witness :
  split.list value_items VList VStr no_json no_len (λ _, "can only concatenate")
    array_of_texts
    [("col", [VList [VStr "a"; VStr "b"]; VList []])] "col" (Str "part_*")
  = Ok [("col", [VList [VStr "a"; VStr "b"]; VList []]);
        ("part_1", [VStr "a"; VStr EmptyString]);
        ("part_2", [VStr "b"; VStr EmptyString])].
Proof.
  pose proof (proj2
    (list_pads value_items VList VStr no_json no_len (λ _, "can only concatenate")
       array_of_texts
       [("col", [VList [VStr "a"; VStr "b"]; VList []])] "col" (Str "part_*"))
    [VList [VStr "a"; VStr "b"]; VList []]
    [VList [VStr "a"; VStr "b"]; VList []]
    [[VStr "a"; VStr "b"]; []]) as H.
  destruct H as (_ & _ & H); [done | reflexivity | reflexivity
                             | by repeat constructor |].
  apply (H "part_*"); reflexivity.
Defined.

(** ** More on the column matcher *)

Section dict_more.
Context {V : Type}.
Implicit Types (d e : list (string * V)) (k : string) (v : V).

Lemma set_fresh d k v : k ∉ PyDict.keys d → PyDict.set k v d = d ++ [(k, v)].
Proof.
  unfold PyDict.keys. induction d as [|[k' v'] d IH]; [done|].
  cbn [fmap list_fmap fst]. intros [Hk Hd]%not_elem_of_cons.
  cbn [PyDict.set]. rewrite decide_False by done. by rewrite IH.
Qed.

Lemma fold_set_fresh d e :
  NoDup (PyDict.keys d ++ PyDict.keys e) →
  fold_left (λ d kv, PyDict.set kv.1 kv.2 d) e d = d ++ e.
Proof.
  revert d. induction e as [|[k v] e IH]; intros d Hnd; [by rewrite app_nil_r|].
  cbn [fold_left fst snd].
  assert (Hk : k ∉ PyDict.keys d).
  { apply NoDup_app in Hnd as (_ & Hdis & _). intros Hk. apply (Hdis k Hk). by left. }
  rewrite set_fresh by done. rewrite IH.
  - by rewrite <- app_assoc.
  - unfold PyDict.keys in *. rewrite fmap_app, <- app_assoc. exact Hnd.
Qed.

Lemma of_pairs_id e : NoDup (PyDict.keys e) → PyDict.of_pairs e = e.
Proof. intros Hnd. unfold PyDict.of_pairs. by rewrite fold_set_fresh. Qed.

Lemma update_nil_l e : NoDup (PyDict.keys e) → PyDict.update [] e = e.
Proof. apply of_pairs_id. Qed.

End dict_more.

Lemma rfold_each_ok {A S} (body : S → A → result S) s l s' x :
  rfold body s l = Ok s' → x ∈ l → ∃ s0 s1, body s0 x = Ok s1.
Proof.
  revert s. induction l as [|y l IH]; intros s; [by intros _ ?%elem_of_nil|].
  simpl. destruct (body s y) as [s1|e] eqn:Hy; [|done]. cbn [mbind result_bind].
  intros Hl [->|Hx]%elem_of_cons; [by exists s, s1 | by eapply IH].
Qed.

Lemma rmap_Forall2 {A B} (f : A → result B) l ys :
  rmap f l = Ok ys → Forall2 (λ x y, f x = Ok y) l ys.
Proof.
  revert ys. induction l as [|x l IH]; intros ys; simpl.
  - intros [= <-]. constructor.
  - destruct (f x) as [y|] eqn:Hx; [|done]. cbn [mbind result_bind].
    destruct (rmap f l) as [ys'|]; [|done]. cbn [mbind result_bind].
    intros [= <-]. constructor; [done | by apply IH].
Qed.

Lemma pattern_columns_subset re all_columns column c :
  c ∈ pattern_columns re all_columns column → c ∈ all_columns.
Proof.
  unfold pattern_columns. destruct (re_compile _ _); [|by intros ?%elem_of_nil].
  rewrite dedup_elem_of, list_elem_of_filter. tauto.
Qed.

Lemma resolved_literal_elem all_columns column c :
  resolved_literal all_columns column = Some c → c ∈ all_columns.
Proof.
  unfold resolved_literal. repeat case_decide; intros [= <-]; tauto.
Qed.

Lemma literal_columns_elem all_columns keys c :
  c ∈ literal_columns all_columns keys → c ∈ all_columns.
Proof.
  unfold literal_columns. intros (k & _ & Hk)%list_elem_of_omap.
  by eapply resolved_literal_elem.
Qed.

Lemma regex_groups_elem re all_columns keys c :
  c ∈ concat (regex_groups re all_columns keys) → c ∈ all_columns.
Proof.
  intros (g & Hg & Hc)%elem_of_concat. unfold regex_groups in Hg.
  apply list_elem_of_fmap in Hg as (k & -> & _).
  by eapply pattern_columns_subset.
Qed.

Lemma result_order_elem re all_columns keys c :
  c ∈ result_order re all_columns keys → c ∈ all_columns.
Proof.
  unfold result_order. intros [H|H]%elem_of_app.
  - rewrite dedup_elem_of, elem_of_concat_reverse in H. by eapply regex_groups_elem.
  - apply list_elem_of_filter in H as [_ H]. rewrite dedup_elem_of in H.
    by eapply literal_columns_elem.
Qed.

Section matcher_more.
Variable re : re_engine.
Variable all_columns : list string.
Implicit Types (selected_columns result_columns : list (string * string)).

(** X1: every key of the mapping that [wildcard_expansion_dict] returns is
    a column of the table, and no column is a key twice. *)
Theorem expansion_selects_columns selected_columns result_columns :
  wildcard_expansion_dict re all_columns selected_columns = Ok result_columns →
  Forall (λ c, c ∈ all_columns) (PyDict.keys result_columns)
  ∧ NoDup (PyDict.keys result_columns).
Proof.
  unfold wildcard_expansion_dict. intros Hloop.
  apply loop_keys in Hloop as [Hkeys Hnd]; [|constructor].
  split; [|done]. rewrite Hkeys, fold_step_keys.
  apply Forall_forall. intros c. apply result_order_elem.
Qed.

Lemma literal_loop selected_columns (done_ todo : list (string * string)) :
  selected_columns = done_ ++ todo →
  NoDup selected_columns.*1 →
  Forall (λ kv, is_regex kv.1 = false ∧ kv.1 ≠ EmptyString ∧ kv.1 ∈ all_columns)
         todo →
  rfold (expand_column re all_columns selected_columns) done_ (PyDict.keys todo)
  = Ok selected_columns.
Proof.
  revert done_. induction todo as [|[k v] todo IH]; intros done_ Heq Hnd Hall.
  - rewrite app_nil_r in Heq. by subst.
  - apply Forall_cons in Hall as [(Hre & Hne & Hin) Hall]. cbn [fst] in *.
    cbn [PyDict.keys fmap list_fmap fst rfold].
    rewrite (expand_column_present _ _ _ _ _ v); try done.
    + cbn [mbind result_bind]. rewrite set_fresh.
      * apply IH; [by rewrite <- app_assoc|done..].
      * subst selected_columns. rewrite fmap_app in Hnd.
        apply NoDup_app in Hnd as (_ & Hdis & _). intros Hk.
        apply (Hdis k Hk). by left.
    + apply get_NoDup; [done|]. subst. apply elem_of_app. right. by left.
Qed.

Lemma wildcards_to_regex_literal_id selected_columns :
  NoDup selected_columns.*1 →
  Forall (λ kv, literal kv.1) selected_columns →
  wildcards_to_regex selected_columns = selected_columns.
Proof.
  intros Hnd Hall. rewrite wildcards_to_regex_of_pairs.
  replace (wildcard_entry <$> selected_columns) with selected_columns.
  - by apply of_pairs_id.
  - symmetry. rewrite <- (list_fmap_id selected_columns) at 2.
    apply list_fmap_ext. intros i [k v] Hi. simpl.
    apply wildcard_entry_literal. rewrite Forall_forall in Hall.
    apply (Hall (k, v)). by eapply list_elem_of_lookup_2.
Qed.

(** X2: a specification made of literal keys that are columns of the table
    comes back as it is, entry for entry and in its own order; in
    particular the identity specification of the columns of a table is its
    own expansion. *)
Theorem literal_spec_roundtrip selected_columns :
  NoDup selected_columns.*1 →
  Forall (λ kv, literal kv.1 ∧ kv.1 ≠ EmptyString ∧ kv.1 ∈ all_columns)
         selected_columns →
  wildcard_expansion_dict re all_columns selected_columns = Ok selected_columns.
Proof.
  intros Hnd Hall. unfold wildcard_expansion_dict.
  rewrite wildcards_to_regex_literal_id; [|done|].
  - apply literal_loop; [done..|].
    eapply Forall_impl; [exact Hall|]. intros kv ([_ ?] & ? & ?). done.
  - eapply Forall_impl; [exact Hall|]. by intros kv (? & _).
Qed.

(** X3: a pattern that compiles and that no column matches adds nothing and
    raises nothing: its rename value is never read, so even a value that
    could not be substituted is accepted. *)
Theorem unmatched_pattern_is_skipped selected_columns result_columns column
    fullmatch :
  is_regex column = true →
  column ∈ PyDict.keys selected_columns →
  re_compile re (regex_pattern column) = Ok fullmatch →
  Forall (λ c, fullmatch c = false) all_columns →
  NoDup (PyDict.keys result_columns) →
  expand_column re all_columns selected_columns result_columns column
  = Ok result_columns.
Proof.
  intros Hre Hin Hc Hno Hnd. unfold expand_column, matching. rewrite Hre, Hc.
  cbn [mbind result_bind].
  assert (Hf : filter (λ c, fullmatch c = true) all_columns = []).
  { clear -Hno. induction Hno as [|c l Hc _ IH]; [done|].
    rewrite filter_cons_False by (by rewrite Hc). exact IH. }
  rewrite Hf. change (PyDict.fromkeys []) with (@nil (string * unit)).
  unfold renamed. apply getitem_ok in Hin as [target Ht]. rewrite Ht.
  cbn [mbind result_bind PyDict.keys fmap list_fmap rmap].
  assert (Hr : ∀ msg, except_re_error
                 (if decide (column = target) then Ok [] else Ok (@nil string)) msg
               = Ok []) by (intros; by destruct (decide _)).
  rewrite Hr. cbn [mbind result_bind zip_with].
  change (PyDict.of_pairs []) with (@nil (string * string)).
  by rewrite update_nil_l.
Qed.

End matcher_more.

Lemma expansion_selects_columns_witness :
  Forall (λ c, c ∈ ["a_1"; "a_2"; "b"]) (PyDict.keys [("a_1", "x_1"); ("a_2", "x_2")]).
Proof.
  apply (expansion_selects_columns WildRe.engine ["a_1"; "a_2"; "b"]
           [("a_*", "x_*")] [("a_1", "x_1"); ("a_2", "x_2")]).
  reflexivity.
Defined.

Lemma literal_spec_roundtrip_witness :
  wildcard_expansion_dict WildRe.engine ["a"; "b"; "c"] [("b", "B"); ("a", "a")]
  = Ok [("b", "B"); ("a", "a")].
Proof.
  apply (literal_spec_roundtrip WildRe.engine ["a"; "b"; "c"] [("b", "B"); ("a", "a")]).
  - repeat constructor; set_solver.
  - repeat constructor; set_solver.
Defined.

Lemma unmatched_pattern_is_skipped_witness :
  expand_column WildRe.engine ["a"; "b"] [("regex:z" +:+ group_text, "bad\9")]
    [("a", "kept")] ("regex:z" +:+ group_text)
  = Ok [("a", "kept")].
Proof.
  apply (unmatched_pattern_is_skipped WildRe.engine ["a"; "b"]
           [("regex:z" +:+ group_text, "bad\9")] [("a", "kept")]
           ("regex:z" +:+ group_text)
           (λ s, bool_decide (is_Some (WildRe.match_here true
                                         [WildRe.Lit "z"; WildRe.Group] s)))).
  - reflexivity.
  - left.
  - reflexivity.
  - by repeat constructor.
  - repeat constructor. set_solver.
Defined.

Lemma rmap_first_raise {A B} (f : A → result B) l1 x l2 e :
  Forall (λ y, is_ok (f y) = true) l1 → f x = Raise e →
  rmap f (l1 ++ x :: l2) = Raise e.
Proof.
  intros Hl1 Hx. induction Hl1 as [|y l1 Hy _ IH]; simpl.
  - by rewrite Hx.
  - destruct (f y); [|done]. cbn [mbind result_bind]. by rewrite IH.
Qed.

Section pattern_more.
Variable re : re_engine.
Variable all_columns : list string.
Implicit Types (selected_columns result_columns : list (string * string)).

(** The names of the columns of a pattern, as one list comprehension. *)
Lemma renamed_rmap selected_columns column target matching_columns :
  PyDict.get column selected_columns = Some target →
  renamed re selected_columns column matching_columns
  = except_re_error
      (rmap (renamed_column re column target) (PyDict.keys matching_columns))
      (invalid_pattern_message target).
Proof.
  intros Ht. unfold renamed, renamed_column, invalid_pattern_message, PyDict.getitem.
  rewrite Ht. cbn [mbind result_bind default].
  by destruct (decide (column = target)).
Qed.

(** X4: a pattern that does not compile raises what [re.compile] raises,
    unchanged; a rename value that [re.sub] rejects on a matched column
    raises the ValueError that names the value. *)
Theorem pattern_errors selected_columns result_columns column :
  is_regex column = true →
  (∀ e, re_compile re (regex_pattern column) = Raise e →
        expand_column re all_columns selected_columns result_columns column
        = Raise e)
  ∧ (∀ fullmatch target before col after msg,
       re_compile re (regex_pattern column) = Ok fullmatch →
       PyDict.get column selected_columns = Some target →
       dedup (filter (λ c, fullmatch c = true) all_columns)
       = before ++ col :: after →
       Forall (λ c, is_ok (renamed_column re column target c) = true) before →
       renamed_column re column target col = Raise (ReError msg) →
       expand_column re all_columns selected_columns result_columns column
       = Raise (ValueError (invalid_pattern_message target))).
Proof.
  intros Hre. split.
  - intros e He. unfold expand_column, matching. by rewrite Hre, He.
  - intros fullmatch target before col after msg Hc Ht Hm Hbefore Hcol.
    unfold expand_column, matching. rewrite Hre, Hc. cbn [mbind result_bind].
    rewrite (renamed_rmap _ _ target) by done.
    rewrite keys_fromkeys, Hm.
    by rewrite (rmap_first_raise _ _ _ _ (ReError msg)).
Qed.

(** A turn on a [regex:] key, with the names it gives. *)
Lemma expand_column_regex_names selected_columns result_columns column result' :
  is_regex column = true →
  expand_column re all_columns selected_columns result_columns column = Ok result' →
  ∃ target names,
    PyDict.get column selected_columns = Some target
    ∧ Forall2 (λ c name, renamed_column re column target c = Ok name)
              (pattern_columns re all_columns column) names
    ∧ result' = PyDict.update
                  (PyDict.of_pairs (zip (pattern_columns re all_columns column) names))
                  result_columns.
Proof.
  intros Hre. unfold expand_column, matching, pattern_columns. rewrite Hre.
  destruct (re_compile re (regex_pattern column)) as [fullmatch|e]; [|done].
  cbn [mbind result_bind]. rewrite keys_fromkeys.
  destruct (PyDict.get column selected_columns) as [target|] eqn:Ht.
  - rewrite (renamed_rmap _ _ target) by done. rewrite keys_fromkeys.
    destruct (rmap _ _) as [names|e] eqn:Hr; [|by destruct e].
    cbn [except_re_error mbind result_bind]. intros [= <-].
    exists target, names. split_and!; [done| |done]. by apply rmap_Forall2.
  - unfold renamed, PyDict.getitem. rewrite Ht. done.
Qed.

Lemma get_zip_Forall2 {B} (P : string → B → Prop) (l : list string) (ys : list B) c :
  NoDup l → Forall2 P l ys → c ∈ l →
  ∃ y, PyDict.get c (zip l ys) = Some y ∧ P c y.
Proof.
  intros Hnd H. induction H as [|x y l ys Hxy _ IH]; [by intros ?%elem_of_nil|].
  apply NoDup_cons in Hnd as [Hx Hnd]. cbn [zip_with PyDict.get].
  intros [->|Hc]%elem_of_cons.
  - exists y. by rewrite decide_True.
  - rewrite decide_False by (intros ->; done). by apply IH.
Qed.

Lemma step_keeps_entry selected_columns result_columns column result' c v :
  NoDup (PyDict.keys result_columns) →
  PyDict.get c result_columns = Some v →
  (is_regex column = false → resolved_literal all_columns column ≠ Some c) →
  expand_column re all_columns selected_columns result_columns column = Ok result' →
  PyDict.get c result' = Some v.
Proof.
  intros Hnd Hc Hlit Hstep. destruct (is_regex column) eqn:Hre.
  - apply expand_column_regex in Hstep as (rn & _ & ->); [|done].
    rewrite get_update by done. by rewrite Hc.
  - apply expand_column_literal in Hstep; [|done].
    destruct (resolved_literal all_columns column) as [c'|]; [|by subst].
    destruct Hstep as (target & Ht & ->). rewrite get_set.
    rewrite decide_False; [done|]. intros ->. by apply Hlit.
Qed.

Lemma loop_keeps_entry selected_columns result_columns columns result' c v :
  NoDup (PyDict.keys result_columns) →
  PyDict.get c result_columns = Some v →
  Forall (λ k, is_regex k = false → resolved_literal all_columns k ≠ Some c) columns →
  rfold (expand_column re all_columns selected_columns) result_columns columns
  = Ok result' →
  PyDict.get c result' = Some v.
Proof.
  revert result_columns. induction columns as [|column columns IH];
    intros result_columns Hnd Hc Hall; simpl.
  - by intros [= <-].
  - apply Forall_cons in Hall as [Hk Hall].
    destruct (expand_column _ _ _ result_columns column) as [r1|e] eqn:Hstep; [|done].
    cbn [mbind result_bind]. apply IH; [|by eapply step_keeps_entry|done].
    by apply expand_column_keys in Hstep as [_ ?].
Qed.

Lemma fold_step_keys_elem columns c :
  c ∈ fold_left (step_keys re all_columns) columns [] →
  ∃ k, k ∈ columns ∧ c ∈ name_columns re all_columns k.
Proof.
  rewrite fold_step_keys. unfold result_order, name_columns.
  intros [H|H]%elem_of_app.
  - rewrite dedup_elem_of, elem_of_concat_reverse in H.
    apply elem_of_concat in H as (g & Hg & Hc). unfold regex_groups in Hg.
    apply list_elem_of_fmap in Hg as (k & -> & Hk).
    apply list_elem_of_filter in Hk as [Hre Hk]. exists k. by rewrite Hre.
  - apply list_elem_of_filter in H as [_ H]. rewrite dedup_elem_of in H.
    unfold literal_columns in H. apply list_elem_of_omap in H as (k & Hk & Hres).
    apply list_elem_of_filter in Hk as [Hre Hk]. exists k. rewrite Hre, Hres.
    split; [done|]. by left.
Qed.

(** X5: when several patterns match a column, the name from the pattern
    declared first is the one kept, unless a literal key names the column:
    a later pattern never replaces an entry. *)
Theorem first_pattern_names_column selected_columns result_columns
    before pattern after c :
  wildcard_expansion_dict re all_columns selected_columns = Ok result_columns →
  PyDict.keys (wildcards_to_regex selected_columns) = before ++ pattern :: after →
  is_regex pattern = true →
  c ∈ pattern_columns re all_columns pattern →
  Forall (λ k, c ∉ name_columns re all_columns k) before →
  Forall (λ k, is_regex k = false → resolved_literal all_columns k ≠ Some c) after →
  ∃ target name,
    PyDict.get pattern (wildcards_to_regex selected_columns) = Some target
    ∧ renamed_column re pattern target c = Ok name
    ∧ PyDict.get c result_columns = Some name.
Proof.
  unfold wildcard_expansion_dict. intros Hloop Hkeys Hre Hc Hbefore Hafter.
  rewrite Hkeys, rfold_app in Hloop.
  destruct (rfold _ [] before) as [r1|e] eqn:H1; [|done].
  cbn [mbind result_bind rfold] in Hloop.
  destruct (expand_column _ _ _ r1 pattern) as [r2|e] eqn:H2; [|done].
  cbn [mbind result_bind] in Hloop.
  apply loop_keys in H1 as [Hk1 Hnd1]; [|constructor].
  pose proof (expand_column_keys _ _ _ _ _ _ Hnd1 H2) as [_ Hnd2].
  apply expand_column_regex_names in H2 as (target & names & Ht & Hnames & ->); [|done].
  destruct (get_zip_Forall2 _ _ _ c (pattern_columns_NoDup re all_columns pattern)
              Hnames Hc) as (name & Hget & Hname).
  exists target, name. split_and!; [done..|].
  eapply loop_keeps_entry; [exact Hnd2| |exact Hafter|exact Hloop].
  rewrite get_update by done.
  assert (Hnone : PyDict.get c r1 = None).
  { apply get_None. rewrite Hk1. intros (k & Hk & Hck)%fold_step_keys_elem.
    rewrite Forall_forall in Hbefore. by apply (Hbefore k). }
  rewrite Hnone. rewrite get_of_pairs; [done|].
  rewrite fst_zip_same_length; [apply pattern_columns_NoDup|].
  symmetry. by eapply Forall2_length.
Qed.

End pattern_more.

Lemma pattern_errors_witness :
  expand_column WildRe.engine ["a1"] [("regex:a" +:+ group_text, "x\g<2>")] []
    ("regex:a" +:+ group_text)
  = Raise (ValueError "Invalid regex pattern: x\g<2>. Are you missing a capture group?").
Proof.
  apply (proj2 (pattern_errors WildRe.engine ["a1"]
                  [("regex:a" +:+ group_text, "x\g<2>")] []
                  ("regex:a" +:+ group_text) eq_refl)
           (λ s, bool_decide (is_Some (WildRe.match_here true
                                         [WildRe.Lit "a"; WildRe.Group] s)))
           "x\g<2>" [] "a1" [] "invalid group reference 2");
    first [reflexivity | constructor].
Defined.

Lemma first_pattern_names_column_witness :
  ∃ target name,
    PyDict.get ("regex:" +:+ group_text +:+ "1")
      (wildcards_to_regex [("*1", "one_*"); ("a*", "x_*")]) = Some target
    ∧ renamed_column WildRe.engine ("regex:" +:+ group_text +:+ "1") target "a1" = Ok name
    ∧ PyDict.get "a1" [("a1", "one_a"); ("a2", "x_2"); ("b1", "one_b")] = Some name.
Proof.
  apply (first_pattern_names_column WildRe.engine ["a1"; "a2"; "b1"]
           [("*1", "one_*"); ("a*", "x_*")]
           [("a1", "one_a"); ("a2", "x_2"); ("b1", "one_b")]
           [] ("regex:" +:+ group_text +:+ "1") ["regex:a" +:+ group_text] "a1").
  - reflexivity.
  - reflexivity.
  - reflexivity.
  - by left.
  - constructor.
  - repeat constructor. discriminate.
Defined.

(** ** More on wildcard_expansion *)

Lemma dedup_dedup_app l1 l2 : dedup (dedup l1 ++ l2) = dedup (l1 ++ l2).
Proof.
  rewrite !dedup_app, (dedup_id (dedup l1)) by apply dedup_NoDup.
  f_equal. apply list_filter_iff. intros x. by rewrite dedup_elem_of.
Qed.

Section names_more.
Variable re : re_engine.
Variable all_columns : list string.
Implicit Types (result_columns : list (string * unit)) (column : string).

Local Abbreviation name_step := (expand_name re all_columns).

Lemma expand_name_literal result_columns column result' :
  is_regex column = false →
  name_step result_columns column = Ok result' →
  match resolved_literal all_columns column with
  | Some c => result' = PyDict.set c tt result_columns
  | None => result' = result_columns
  end.
Proof.
  intros Hre. unfold expand_name, resolved_literal. rewrite Hre.
  destruct (optional_marker all_columns column) as [marked|e] eqn:Hm; [|done].
  cbn [mbind result_bind].
  apply optional_marker_Ok in Hm as [(Ho & Hc & Hq)|(Ho & Hc & Hq & Hn)];
    rewrite Ho, Hc.
  - destruct (decide (column ∈ all_columns)) as [Hin|Hin].
    + rewrite (bool_decide_eq_true_2 _ Hin). by intros [= <-].
    + by rewrite (bool_decide_eq_false_2 _ Hin).
  - rewrite decide_False by done.
    destruct (decide (PyStr.drop_last column ∈ all_columns)) as [Hin|Hin].
    + rewrite (bool_decide_eq_true_2 _ Hin). rewrite decide_True by done.
      by intros [= <-].
    + rewrite (bool_decide_eq_false_2 _ Hin).
      rewrite decide_False by (by intros [_ ?]). by intros [= <-].
Qed.

Lemma expand_name_keys result_columns column result' :
  NoDup (PyDict.keys result_columns) →
  name_step result_columns column = Ok result' →
  PyDict.keys result'
  = dedup (PyDict.keys result_columns ++ name_columns re all_columns column).
Proof.
  intros Hnd Hstep. unfold name_columns. destruct (is_regex column) eqn:Hre.
  - revert Hstep. unfold expand_name, matching, pattern_columns. rewrite Hre.
    destruct (re_compile re (regex_pattern column)) as [fullmatch|e]; [|done].
    cbn [mbind result_bind]. intros [= <-].
    rewrite keys_update, keys_fromkeys, dedup_app.
    by rewrite (dedup_id (PyDict.keys result_columns)),
      (dedup_id (dedup _)) by (done || apply dedup_NoDup).
  - apply expand_name_literal in Hstep; [|done].
    destruct (resolved_literal all_columns column) as [c|].
    + subst result'. change (option_list (Some c)) with [c].
      by rewrite keys_set, dedup_snoc, dedup_id.
    + subst result'. change (option_list None) with (@nil string).
      by rewrite app_nil_r, dedup_id.
Qed.

Lemma name_loop_keys result_columns columns result' :
  NoDup (PyDict.keys result_columns) →
  rfold name_step result_columns columns = Ok result' →
  PyDict.keys result'
  = dedup (PyDict.keys result_columns
           ++ concat (name_columns re all_columns <$> columns)).
Proof.
  revert result_columns. induction columns as [|column columns IH];
    intros result_columns Hnd; simpl.
  - intros [= <-]. by rewrite app_nil_r, dedup_id.
  - destruct (name_step result_columns column) as [r1|e] eqn:Hstep; [|done].
    cbn [mbind result_bind]. intros Hloop.
    pose proof (expand_name_keys _ _ _ Hnd Hstep) as Hk.
    rewrite (IH r1); [|rewrite Hk; apply dedup_NoDup|done].
    by rewrite Hk, dedup_dedup_app, <- app_assoc.
Qed.

Lemma name_columns_elem column c :
  c ∈ name_columns re all_columns column → c ∈ all_columns.
Proof.
  unfold name_columns. destruct (is_regex column).
  - apply pattern_columns_subset.
  - destruct (resolved_literal all_columns column) as [c'|] eqn:Hres;
      [|by intros ?%elem_of_nil].
    intros ->%list_elem_of_singleton. by eapply resolved_literal_elem.
Qed.

Lemma expansion_names_found selected_columns found :
  wildcard_expansion re all_columns selected_columns = Ok found →
  found = dedup (concat (name_columns re all_columns
                         <$> (wildcard_name <$> as_list selected_columns))).
Proof.
  unfold wildcard_expansion.
  destruct (rfold _ _ _) as [r|e] eqn:Hloop; [|done].
  cbn [mbind result_bind]. intros [= <-].
  apply name_loop_keys in Hloop; [|constructor].
  by cbn [PyDict.keys fmap list_fmap app] in Hloop.
Qed.

(** X6: [wildcard_expansion] returns the columns that its names select, in
    the order of the names (the columns of one pattern in table order),
    each column once, at the place of its first selection; every name it
    returns is a column of the table. *)
Theorem expansion_names_order selected_columns found :
  wildcard_expansion re all_columns selected_columns = Ok found →
  found = dedup (concat (name_columns re all_columns
                         <$> (wildcard_name <$> as_list selected_columns)))
  ∧ NoDup found
  ∧ Forall (λ c, c ∈ all_columns) found.
Proof.
  intros Hloop%expansion_names_found. split_and!.
  - exact Hloop.
  - rewrite Hloop. apply dedup_NoDup.
  - rewrite Hloop. apply Forall_forall. intros c.
    rewrite dedup_elem_of. intros (g & Hg & Hc)%elem_of_concat.
    apply list_elem_of_fmap in Hg as (k & -> & _). by eapply name_columns_elem.
Qed.

(** X7: in [wildcard_expansion] a literal name that ends in a question mark
    and is no column selects the column named before the question mark when
    there is one and nothing otherwise; a literal name without the question
    mark that is no column is an error that names it. *)
Theorem optional_names column :
  literal column → column ∉ all_columns →
  (PyStr.last_char column = Some "?"%char →
   PyStr.drop_last column ∈ all_columns →
   wildcard_expansion re all_columns (Str column) = Ok [PyStr.drop_last column])
  ∧ (PyStr.last_char column = Some "?"%char →
     PyStr.drop_last column ∉ all_columns →
     wildcard_expansion re all_columns (Str column) = Ok [])
  ∧ (column ≠ EmptyString → PyStr.last_char column ≠ Some "?"%char →
     ∀ names, column ∈ names →
       is_ok (wildcard_expansion re all_columns (Lst names)) = false)
  ∧ (column ≠ EmptyString → PyStr.last_char column ≠ Some "?"%char →
     wildcard_expansion re all_columns (Str column)
     = Raise (KeyError ("Column " +:+ column +:+ " does not exist"))).
Proof.
  intros Hlit Hn. assert (Hre : is_regex column = false) by (by destruct Hlit).
  assert (Hstep_opt : PyStr.last_char column = Some "?"%char →
            ∀ r, name_step r column
                 = if bool_decide (PyStr.drop_last column ∈ all_columns)
                   then Ok (PyDict.set (PyStr.drop_last column) tt r) else Ok r).
  { intros Hq r. unfold expand_name, optional_marker. rewrite Hre, Hq.
    rewrite (bool_decide_eq_false_2 _ Hn).
    change (PyStr.eqc "?" "?" && negb false) with true. done. }
  assert (Hstep_req : column ≠ EmptyString → PyStr.last_char column ≠ Some "?"%char →
            ∀ r, name_step r column
                 = Raise (KeyError ("Column " +:+ column +:+ " does not exist"))).
  { intros Hne Hq r. unfold expand_name, optional_marker. rewrite Hre.
    destruct (PyStr.last_char column) as [a|] eqn:Ha;
      [|by apply last_char_None in Ha].
    destruct (PyStr.eqc a "?") eqn:Hqa.
    { apply Ascii.eqb_eq in Hqa. by subst a. }
    cbn [andb mbind result_bind fst snd].
    by rewrite (bool_decide_eq_false_2 _ Hn). }
  unfold wildcard_expansion. cbn [as_list fmap list_fmap rfold].
  rewrite wildcard_name_literal by done.
  split_and!.
  - intros Hq Hd. rewrite Hstep_opt by done.
    by rewrite (bool_decide_eq_true_2 _ Hd).
  - intros Hq Hd. rewrite Hstep_opt by done.
    by rewrite (bool_decide_eq_false_2 _ Hd).
  - intros Hne Hq names Hin.
    assert (is_ok (rfold name_step [] (wildcard_name <$> names)) = false) as Hf.
    { apply (rfold_fails _ _ _ column).
      - apply list_elem_of_fmap. exists column. by rewrite wildcard_name_literal.
      - intros s. by rewrite Hstep_req. }
    by destruct (rfold _ _ _).
  - intros Hne Hq. by rewrite Hstep_req.
Qed.

End names_more.

Lemma expansion_names_order_witness :
  ["b1"; "a1"; "a2"]
  = dedup (concat (name_columns WildRe.engine ["a1"; "b1"; "a2"]
                   <$> (wildcard_name <$> as_list (Lst ["b*"; "a*"; "a1"])))).
Proof.
  apply (expansion_names_order WildRe.engine ["a1"; "b1"; "a2"]
           (Lst ["b*"; "a*"; "a1"]) ["b1"; "a1"; "a2"]).
  reflexivity.
Defined.

Lemma optional_names_witness :
  wildcard_expansion WildRe.engine ["a"; "b"] (Str "a?") = Ok ["a"].
Proof.
  apply (optional_names WildRe.engine ["a"; "b"] "a?").
  - by split.
  - set_solver.
  - reflexivity.
  - by left.
Defined.

Section siblings.
Variable re : re_engine.
Variable all_columns : list string.

Lemma wildcard_entry_name kv : (wildcard_entry kv).1 = wildcard_name kv.1.
Proof. unfold wildcard_entry, wildcard_name. by destruct (_ && _). Qed.

Lemma wildcards_to_regex_names (selected_columns : list (string * string)) :
  PyDict.keys (wildcards_to_regex selected_columns)
  = dedup (wildcard_name <$> selected_columns.*1).
Proof.
  rewrite wildcards_to_regex_of_pairs, keys_of_pairs. f_equal.
  rewrite <- !list_fmap_compose. apply list_fmap_ext.
  intros i kv _. apply wildcard_entry_name.
Qed.

Lemma expand_name_ok_of_column (selected_columns s s' : list (string * string))
    column (r : list (string * unit)) :
  expand_column re all_columns selected_columns s column = Ok s' →
  ∃ r', expand_name re all_columns r column = Ok r'.
Proof.
  unfold expand_column, expand_name, matching. destruct (is_regex column).
  - destruct (re_compile re (regex_pattern column)); [|done].
    intros _. by eexists.
  - destruct (optional_marker all_columns column) as [marked|]; [|done].
    cbn [mbind result_bind]. case_bool_decide; [intros _; by eexists|].
    destruct (snd marked); [intros _; by eexists | done].
Qed.

Lemma result_order_elem_of keys c :
  c ∈ result_order re all_columns keys
  ↔ ∃ k, k ∈ keys ∧ c ∈ name_columns re all_columns k.
Proof.
  split.
  - rewrite <- fold_step_keys. apply fold_step_keys_elem.
  - intros (k & Hk & Hc). unfold result_order, name_columns in *.
    apply elem_of_app.
    destruct (decide (c ∈ concat (regex_groups re all_columns keys))) as [Hg|Hg].
    { left. by rewrite dedup_elem_of, elem_of_concat_reverse. }
    right. apply list_elem_of_filter. split; [done|]. rewrite dedup_elem_of.
    destruct (is_regex k) eqn:Hre.
    + exfalso. apply Hg. apply elem_of_concat.
      exists (pattern_columns re all_columns k). split; [|done].
      unfold regex_groups. apply list_elem_of_fmap. exists k. split; [done|].
      by apply list_elem_of_filter.
    + destruct (resolved_literal all_columns k) as [c'|] eqn:Hres;
        [|by apply elem_of_nil in Hc].
      apply list_elem_of_singleton in Hc as ->.
      unfold literal_columns. apply list_elem_of_omap. exists k. split; [|done].
      by apply list_elem_of_filter.
Qed.

(** X8: whenever [wildcard_expansion_dict] returns a mapping for a
    specification, [wildcard_expansion] returns a list for the keys of that
    specification, and the names of the list are the keys of the mapping
    (in another order when several patterns are involved). *)
Theorem expansions_agree (selected_columns result_columns : list (string * string)) :
  wildcard_expansion_dict re all_columns selected_columns = Ok result_columns →
  ∃ found,
    wildcard_expansion re all_columns (Lst selected_columns.*1) = Ok found
    ∧ ∀ c, c ∈ found ↔ c ∈ PyDict.keys result_columns.
Proof.
  intros Hr. assert (Hloop := Hr). unfold wildcard_expansion_dict in Hloop.
  destruct (rfold_ok (expand_name re all_columns) (λ _, True) []
              (wildcard_name <$> selected_columns.*1) I) as (r & Hnames & _).
  { intros r0 x _ Hx.
    assert (Hx' : x ∈ PyDict.keys (wildcards_to_regex selected_columns)).
    { by rewrite wildcards_to_regex_names, dedup_elem_of. }
    destruct (rfold_each_ok _ _ _ _ _ Hloop Hx') as (s0 & s1 & Hs).
    destruct (expand_name_ok_of_column _ _ _ _ r0 Hs) as [r' Hr']. by exists r'. }
  assert (Hfound : wildcard_expansion re all_columns (Lst selected_columns.*1)
                   = Ok (PyDict.keys r)).
  { unfold wildcard_expansion. cbn [as_list]. by rewrite Hnames. }
  exists (PyDict.keys r). split; [done|]. intros c.
  apply expansion_names_found in Hfound as ->.
  apply loop_keys in Hloop as [-> _]; [|constructor].
  rewrite fold_step_keys, result_order_elem_of, dedup_elem_of, elem_of_concat.
  cbn [as_list]. rewrite wildcards_to_regex_names. split.
  - intros (g & Hg & Hc). apply list_elem_of_fmap in Hg as (k & -> & Hk).
    exists k. by rewrite dedup_elem_of.
  - intros (k & Hk & Hc). rewrite dedup_elem_of in Hk.
    exists (name_columns re all_columns k). split; [|done].
    apply list_elem_of_fmap. by exists k.
Qed.

(** X9: in [wildcard_expansion_dict] a literal key that ends in a question
    mark and is no column, while the name before the question mark is one,
    writes that column with the target that the specification gives to the
    name without the question mark; when the specification has no such
    key, the turn raises the KeyError of the lookup, so that a specification
    with this key alone always raises. *)
Theorem optional_key_of_column (selected_columns result_columns : list (string * string))
    column :
  literal column → column ∉ all_columns →
  PyStr.last_char column = Some "?"%char →
  PyStr.drop_last column ∈ all_columns →
  expand_column re all_columns selected_columns result_columns column
  = match PyDict.get (PyStr.drop_last column) selected_columns with
    | Some target => Ok (PyDict.set (PyStr.drop_last column) target result_columns)
    | None => Raise (KeyError (PyStr.drop_last column))
    end
  ∧ ∀ v, wildcard_expansion_dict re all_columns [(column, v)]
         = Raise (KeyError (PyStr.drop_last column)).
Proof.
  intros Hlit Hn Hq Hd. assert (Hre : is_regex column = false) by (by destruct Hlit).
  assert (Hstep : ∀ sel r,
    expand_column re all_columns sel r column
    = match PyDict.get (PyStr.drop_last column) sel with
      | Some target => Ok (PyDict.set (PyStr.drop_last column) target r)
      | None => Raise (KeyError (PyStr.drop_last column))
      end).
  { intros sel r. unfold expand_column, optional_marker. rewrite Hre, Hq.
    rewrite (bool_decide_eq_false_2 _ Hn).
    change (PyStr.eqc "?" "?" && negb false) with true.
    cbn [mbind result_bind fst snd]. rewrite (bool_decide_eq_true_2 _ Hd).
    unfold PyDict.getitem. by destruct (PyDict.get _ sel). }
  split; [apply Hstep|]. intros v.
  unfold wildcard_expansion_dict, wildcards_to_regex. cbn [fold_left].
  rewrite wildcard_entry_literal by done.
  cbn [PyDict.set PyDict.keys fmap list_fmap fst snd rfold]. rewrite Hstep.
  cbn [PyDict.get]. rewrite decide_False; [done|].
  intros Heq. rewrite Heq in Hd. done.
Qed.

End siblings.

Lemma expansions_agree_witness :
  ∃ found,
    wildcard_expansion WildRe.engine ["a1"; "b1"] (Lst [("a*", "x*"); ("b*", "y*")].*1)
    = Ok found
    ∧ ∀ c, c ∈ found ↔ c ∈ PyDict.keys [("b1", "y1"); ("a1", "x1")].
Proof.
  apply (expansions_agree WildRe.engine ["a1"; "b1"] [("a*", "x*"); ("b*", "y*")]
           [("b1", "y1"); ("a1", "x1")]).
  reflexivity.
Defined.

Lemma optional_key_of_column_witness :
  expand_column WildRe.engine ["a"] [("a?", "x"); ("a", "y")] [] "a?"
  = Ok [("a", "y")].
Proof.
  apply (optional_key_of_column WildRe.engine ["a"] [("a?", "x"); ("a", "y")] [] "a?").
  - by split.
  - set_solver.
  - reflexivity.
  - by left.
Defined.

(** ** More on get_nested_function and add_special_parameters *)

Section resolver_more.
Context {ident : Type}.
Variable py_None : pyobj ident.
Implicit Types (stock custom : option (pyobj ident)) (d : option string).

Lemma resolves_app (obj fn : pyobj ident) p q :
  resolves obj (p ++ q) fn ↔ ∃ mid, resolves obj p mid ∧ resolves mid q fn.
Proof.
  split.
  - revert obj. induction p as [|name p IH]; intros obj; simpl.
    + intros H. exists obj. split; [constructor | done].
    + inversion 1 as [|items n o rest f Hget Hrest|id attrs n o rest f Hget Hrest];
        subst; destruct (IH _ Hrest) as (mid & Hp & Hq); exists mid;
        (split; [|done]); econstructor; eauto.
  - intros (mid & Hp & Hq).
    induction Hp as [|items n o rest f Hget _ IH|id attrs n o rest f Hget _ IH];
      simpl; [done|..]; econstructor; eauto.
Qed.

(** X10: the two roots are never mixed.  A name that starts with [custom.]
    gets the same answer whatever the stock root and the default segment
    are; any other name gets the same answer whatever the custom root is;
    the name [custom] alone is an error of its own. *)
Theorem roots_do_not_mix :
  (∀ name stock stock' custom d d',
     is_Some custom →
     get_nested_function py_None ("custom." +:+ name) stock custom d
     = get_nested_function py_None ("custom." +:+ name) stock' custom d')
  ∧ (∀ fn_string stock custom custom' d,
       is_Some stock →
       head (PyStr.split "." (PyStr.strip fn_string)) ≠ Some "custom" →
       get_nested_function py_None fn_string stock custom d
       = get_nested_function py_None fn_string stock custom' d)
  ∧ (∀ fn_string stock custom d,
       is_Some stock ∨ is_Some custom →
       PyStr.strip fn_string = "custom" →
       get_nested_function py_None fn_string stock custom d
       = Raise (ValueError "Custom function not defined correctly")).
Proof.
  split_and!.
  - intros name stock stock' custom d d' Hc.
    by rewrite !get_nested_function_custom by (by right).
  - intros fn_string stock custom custom' d Hs Hhead.
    by rewrite !get_nested_function_stock by (done || by left).
  - intros fn_string stock custom d Hroots Hstrip. unfold get_nested_function.
    rewrite Hstrip.
    destruct custom, stock; try done. by destruct Hroots as [[? [=]]|[? [=]]].
Qed.

(** X11: the default segment of a stock name is one more lookup on what the
    name itself resolves to, and resolution follows a path piece by piece:
    a dotted path resolves exactly when its first part resolves to an
    object from which the rest resolves. *)
Theorem default_is_last_lookup fn_string stock custom default_stock_functions :
  is_Some stock ∨ is_Some custom →
  head (PyStr.split "." (PyStr.strip fn_string)) ≠ Some "custom" →
  default_stock_functions ≠ EmptyString →
  get_nested_function py_None fn_string stock custom (Some default_stock_functions)
  = (obj ← get_nested_function py_None fn_string stock custom None;
     get_segment fn_string obj default_stock_functions)
  ∧ get_nested_function py_None fn_string stock custom (Some EmptyString)
    = get_nested_function py_None fn_string stock custom None
  ∧ ∀ (obj fn : pyobj ident) p q,
      resolves obj (p ++ q) fn ↔ ∃ mid, resolves obj p mid ∧ resolves mid q fn.
Proof.
  intros Hroots Hhead Hd. rewrite !get_nested_function_stock by done.
  unfold default_segment. rewrite decide_False by done. rewrite decide_True by done.
  cbn [app]. rewrite app_nil_r, rfold_app. split_and!; [|done|apply resolves_app].
  destruct (rfold _ _ _) as [obj|e]; [|done]. cbn [mbind result_bind rfold].
  by destruct (get_segment fn_string obj default_stock_functions).
Qed.

End resolver_more.

Lemma roots_do_not_mix_witness :
  get_nested_function (PyObject 0 []) "custom.f" None
    (Some (PyDictNode [("f", PyObject 1 [])])) None
  = get_nested_function (PyObject 0 []) "custom.f"
      (Some (PyObject 2 [("custom", PyObject 3 [("f", PyObject 4 [])])]))
      (Some (PyDictNode [("f", PyObject 1 [])])) (Some "run").
Proof.
  apply (proj1 (roots_do_not_mix (PyObject 0 []))). by eexists.
Defined.

Lemma default_is_last_lookup_witness :
  get_nested_function (PyObject 0 []) "space"
    (Some (PyObject 1 [("space", PyObject 2 [("run", PyObject 3 [])])])) None
    (Some "run")
  = (obj ← get_nested_function (PyObject 0 []) "space"
             (Some (PyObject 1 [("space", PyObject 2 [("run", PyObject 3 [])])]))
             None None;
     get_segment "space" obj "run").
Proof.
  apply (default_is_last_lookup (PyObject 0 []) "space"
           (Some (PyObject 1 [("space", PyObject 2 [("run", PyObject 3 [])])]))
           None "run").
  - left. by eexists.
  - discriminate.
  - discriminate.
Defined.

Section binder_more.
Context {value : Type}.

(** X12: binding is idempotent and never removes a key: binding the result
    again with the same callable and the same ambient values changes
    nothing, and every key of [params] is a key of the result. *)
Theorem add_special_parameters_idempotent (params : gmap string value)
    (argspec : list string) (functions variables : value) (error : option value)
    (common_params : gmap string value) :
  let bound := add_special_parameters params argspec functions variables error
                                      common_params in
  add_special_parameters bound argspec functions variables error common_params
  = bound
  ∧ dom params ⊆ dom bound
  ∧ ∀ k, k ∈ dom bound →
         k ∈ dom params
         ∨ (k ∈ argspec
            ∧ (k ∈ dom common_params ∨ k = "functions" ∨ k = "variables"
               ∨ (k = "error" ∧ is_Some error))).
Proof.
  intros bound. subst bound. split_and!.
  - apply map_eq. intros k. rewrite !add_special_parameters_lookup.
    destruct (if bool_decide (k ∈ argspec) then common_params !! k else None);
      [done|].
    destruct (params !! k); [done|].
    by destruct (special_value argspec functions variables error k).
  - intros k [v Hv]%elem_of_dom. apply elem_of_dom.
    rewrite add_special_parameters_lookup, Hv.
    by destruct (if bool_decide (k ∈ argspec) then common_params !! k else None).
  - intros k [v Hv]%elem_of_dom. rewrite add_special_parameters_lookup in Hv.
    destruct (params !! k) as [p|] eqn:Hp; [left; by apply elem_of_dom|]. right.
    unfold special_value in Hv.
    destruct (decide (k ∈ argspec)) as [Ha|Ha].
    + split; [done|]. rewrite (bool_decide_eq_true_2 _ Ha) in Hv.
      destruct (common_params !! k) as [c|] eqn:Hc; [left; by apply elem_of_dom|].
      right. repeat case_bool_decide; subst; auto; done.
    + by rewrite (bool_decide_eq_false_2 _ Ha) in Hv.
Qed.

End binder_more.

(** ** More on the column handling of extract.py *)

Section writes.
Context {cell : Type}.
Implicit Types (df : list (string * list cell)).

Lemma writes_only_refl outs df : writes_only outs df df.
Proof. split_and!; auto. Qed.

Lemma writes_only_assign outs df o (values : list cell) :
  o ∈ outs → writes_only outs df (PyTable.assign o values df).
Proof.
  intros Ho. unfold PyTable.assign. split_and!.
  - intros c Hc. rewrite get_set. rewrite decide_False; [done|]. by intros ->.
  - intros c Hc. apply keys_set_elem_of. by right.
  - intros c [->|Hc]%keys_set_elem_of; auto.
Qed.

Lemma writes_only_trans outs df1 df2 df3 :
  writes_only outs df1 df2 → writes_only outs df2 df3 → writes_only outs df1 df3.
Proof.
  intros (H1 & H2 & H3) (K1 & K2 & K3). split_and!.
  - intros c Hc. by rewrite K1, H1.
  - auto.
  - intros c Hc. destruct (K3 c Hc) as [?|?]; auto.
Qed.

Lemma writes_only_mono outs outs' df df' :
  (∀ c, c ∈ outs → c ∈ outs') → writes_only outs df df' → writes_only outs' df df'.
Proof.
  intros Hsub (H1 & H2 & H3). split_and!; [|done|].
  - intros c Hc. apply H1. intros ?. apply Hc. auto.
  - intros c Hc. destruct (H3 c Hc); auto.
Qed.

(** A loop whose turns read the first column of a pair and assign the
    second one. *)
Lemma loop_writes_only (body : list (string * list cell) → string * string
                               → result (list (string * list cell)))
    df ios df' :
  (∀ df io df', body df io = Ok df' →
     ∃ values, df' = PyTable.assign (snd io) values df ∧ fst io ∈ PyDict.keys df) →
  rfold body df ios = Ok df' →
  writes_only ios.*2 df df'
  ∧ (Forall (λ io, fst io = snd io) ios → PyDict.keys df' = PyDict.keys df).
Proof.
  intros Hbody. revert df. induction ios as [|io ios IH]; intros df; simpl.
  - intros [= <-]. split; [apply writes_only_refl | done].
  - destruct (body df io) as [df1|e] eqn:Hstep; [|done]. cbn [mbind result_bind].
    intros Hloop. destruct (IH _ Hloop) as [Hw Hk].
    destruct (Hbody _ _ _ Hstep) as (values & -> & Hin). split.
    + eapply writes_only_trans.
      * apply (writes_only_assign (snd io :: ios.*2)). by left.
      * eapply writes_only_mono; [|exact Hw]. intros c Hc. by right.
    + intros [Heq Hall]%Forall_cons. rewrite Hk by done.
      unfold PyTable.assign. rewrite keys_set, <- Heq. by rewrite decide_True.
Qed.

Lemma elem_of_zip_snd (input output : list string) c :
  c ∈ (zip input output).*2 → c ∈ output.
Proof.
  intros ([i o] & -> & Hio)%list_elem_of_fmap. by eapply elem_of_zip_r.
Qed.

Lemma zip_same (l : list string) : Forall (λ io, fst io = snd io) (zip l l).
Proof. induction l as [|x l IH]; simpl; by constructor. Qed.

Lemma assign_loop_body (g : list cell → list cell) df (io : string * string) df' :
  (values ← PyTable.column df (fst io);
   Ok (PyTable.assign (snd io) (g values) df)) = Ok df' →
  ∃ values, df' = PyTable.assign (snd io) values df ∧ fst io ∈ PyDict.keys df.
Proof.
  unfold PyTable.column.
  destruct (PyDict.getitem (fst io) df) as [values|] eqn:Hv; [|done].
  cbn [mbind result_bind]. intros [= <-]. eexists. split; [done|].
  apply getitem_Ok in Hv. apply get_is_Some. by eexists.
Qed.

(** A loop over pairs of columns that assigns to the second column a
    function of the cells of the first. *)
Lemma assign_loop_writes (g : list cell → list cell) df input output df' :
  rfold (λ df io,
           values ← PyTable.column df (fst io);
           Ok (PyTable.assign (snd io) (g values) df)) df (zip input output) = Ok df' →
  writes_only output df df'
  ∧ (input = output → PyDict.keys df' = PyDict.keys df).
Proof.
  intros Hloop. apply loop_writes_only in Hloop as [Hw Hk].
  - split.
    + eapply writes_only_mono; [|exact Hw]. apply elem_of_zip_snd.
    + intros ->. apply Hk, zip_same.
  - intros ? ? ?. apply assign_loop_body.
Qed.

Lemma assign_loop_lookup (g : list cell → list cell) df input output df' :
  rfold (λ df io,
           values ← PyTable.column df (fst io);
           Ok (PyTable.assign (snd io) (g values) df)) df (zip input output) = Ok df' →
  NoDup output → reads_before_writes input output →
  ∀ j i o values,
    input !! j = Some i → output !! j = Some o →
    PyDict.get i df = Some values →
    PyDict.get o df' = Some (g values).
Proof.
  revert df output. induction input as [|i0 input IH]; intros df output Hloop Hnd Hrw;
    [intros j i o values Hi; by rewrite lookup_nil in Hi|].
  destruct output as [|o0 output];
    [intros j i o values _ Ho; by rewrite lookup_nil in Ho|].
  cbn [zip_with rfold fst snd] in Hloop.
  change (PyTable.column df i0) with (PyDict.getitem i0 df) in Hloop.
  destruct (PyDict.getitem i0 df) as [values0|] eqn:Hv0; [|done].
  cbn [mbind result_bind] in Hloop. apply getitem_Ok in Hv0.
  apply NoDup_cons in Hnd as [Ho0 Hnd].
  intros [|j] i o values Hi Ho Hv; cbn [lookup list_lookup] in Hi, Ho.
  - injection Hi as <-. injection Ho as <-.
    apply assign_loop_writes in Hloop as [(Hw & _ & _) _].
    rewrite Hw by done. unfold PyTable.assign. rewrite get_set, decide_True by done.
    congruence.
  - eapply (IH _ _ Hloop Hnd); [|exact Hi|exact Ho|].
    + intros j' k o' i' Hlt Ho' Hi'. apply (Hrw (S j') (S k) o' i'); [lia|done..].
    + unfold PyTable.assign. rewrite get_set. rewrite decide_False; [done|].
      intros ->. by apply (Hrw 0 (S j) o0 o0); [lia|..].
Qed.

End writes.

Section extract_more.
Context {cell kwargs : Type}.
Variable str : cell → string.
Variable _extract_address : list string → string → kwargs → list cell.
Variable _extract_attributes :
  list string → string → option string → option string → string → kwargs
  → list cell.
Variable _extract_brackets : list string → list string → bool → list cell.
Variable _extract_codes : list string → kwargs → list cell.
Variable _extract_html : list string → string → kwargs → list cell.
Variable _extract_properties :
  list string → option string → string → kwargs → list cell.
Variable _re_findall : string → cell → cell + extract.findall_error.
Implicit Types (df : list (string * list cell)) (f : list string → list cell).

Local Abbreviation address := (extract.address str _extract_address).
Local Abbreviation attributes := (extract.attributes str _extract_attributes).
Local Abbreviation brackets := (extract.brackets str _extract_brackets).
Local Abbreviation codes := (extract.codes str _extract_codes).
Local Abbreviation html := (extract.html str _extract_html).
Local Abbreviation properties := (extract.properties str _extract_properties).
Local Abbreviation regex := (extract.regex _re_findall).

Lemma each_column_writes f df input output df' :
  extract.each_column str f df input output = Ok df' →
  writes_only output df df'
  ∧ (input = output → PyDict.keys df' = PyDict.keys df).
Proof. apply (assign_loop_writes (λ values, f (map str values))). Qed.

Lemma joined_or_each_writes sep f df input output df' :
  extract.joined_or_each str sep f df input output = Ok df' →
  writes_only output df df'
  ∧ (input = output → PyDict.keys df' = PyDict.keys df).
Proof.
  unfold extract.joined_or_each.
  destruct output as [|o [|o' output]]; try apply each_column_writes.
  case_bool_decide as Hlen; [|apply each_column_writes].
  destruct (PyTable.columns df input) as [frame|]; [|done].
  cbn [mbind result_bind].
  destruct (PyTable.join_rows sep _) as [texts|]; [|done].
  cbn [mbind result_bind]. intros [= <-]. split.
  - apply writes_only_assign. by left.
  - intros ->. simpl in Hlen. lia.
Qed.

Lemma regex_loop_writes find df input output df' :
  rfold (λ df io,
           values ← PyTable.column df (fst io);
           found ← extract.findall_column _re_findall find values;
           Ok (PyTable.assign (snd io) found df)) df (zip input output) = Ok df' →
  writes_only output df df'
  ∧ (input = output → PyDict.keys df' = PyDict.keys df).
Proof.
  intros Hloop. apply loop_writes_only in Hloop as [Hw Hk].
  - split.
    + eapply writes_only_mono; [|exact Hw]. apply elem_of_zip_snd.
    + intros ->. apply Hk, zip_same.
  - clear. intros df [i o] df'. cbn [fst snd]. unfold PyTable.column.
    destruct (PyDict.getitem i df) as [values|] eqn:Hv; [|done].
    cbn [mbind result_bind].
    destruct (extract.findall_column _ _ _) as [found|]; [|done].
    cbn [mbind result_bind]. intros [= <-]. eexists. split; [done|].
    apply getitem_Ok in Hv. apply get_is_Some. by eexists.
Qed.

Lemma in_out_Ok input output io :
  extract.in_out input output = Ok io →
  io = (as_list input, as_list (default input output)).
Proof.
  unfold extract.in_out. destruct (_ && _); [done|]. by intros [= <-].
Qed.

(** X13: whatever the seven functions do, they write output columns only:
    when a call returns, every column that is not an output column has the
    cells it had, no column is lost, and no column is added besides output
    columns; without [output] the table has the
    columns it had, in the same order. *)
Theorem wrangles_write_outputs_only df input output dataType responseContent
    attribute_type desired_unit bound find include_brackets data_type
    property_type return_data_type pattern kw :
  let results :=
    [address df input output dataType kw;
     attributes df input output responseContent attribute_type desired_unit bound kw;
     brackets df input output find include_brackets;
     codes df input output kw;
     html df input data_type output kw;
     properties df input output property_type return_data_type kw;
     regex df input pattern output] in
  Forall (λ r, ∀ df', r = Ok df' →
            writes_only (as_list (default input output)) df df'
            ∧ (output = None → PyDict.keys df' = PyDict.keys df)) results.
Proof.
  intros results. subst results.
  repeat apply Forall_cons_2; [..|apply Forall_nil_2]; intros df';
    unfold extract.address, extract.attributes, extract.brackets, extract.codes,
      extract.html, extract.properties, extract.regex;
    (destruct (extract.in_out input output) as [io|] eqn:Hio; [|done]);
    apply in_out_Ok in Hio; subst io; cbn [mbind result_bind fst snd];
    try (destruct (negb _); [done|]);
    intros Hr;
    first [apply joined_or_each_writes in Hr as [Hw Hk]
          |apply each_column_writes in Hr as [Hw Hk]
          |apply regex_loop_writes in Hr as [Hw Hk]];
    (split; [done|]); intros ->; by apply Hk.
Qed.

Lemma each_column_lookup f df input output df' :
  extract.each_column str f df input output = Ok df' →
  NoDup output → reads_before_writes input output →
  ∀ j i o values,
    input !! j = Some i → output !! j = Some o →
    PyDict.get i df = Some values →
    PyDict.get o df' = Some (f (map str values)).
Proof. apply (assign_loop_lookup (λ values, f (map str values))). Qed.

(** X14: with as many output columns as input columns, output column [j]
    is the transform of the texts that input column [j] had before the
    call, provided the output columns are distinct and no output column is
    the input column of a later pair; this covers the call without
    [output], which replaces each input column by its own transform. *)
Theorem zipped_columns df input output dataType responseContent
    attribute_type desired_unit bound find include_brackets data_type
    property_type return_data_type kw j i o values :
  let outs := as_list (default input output) in
  length (as_list input) = length outs →
  NoDup outs → reads_before_writes (as_list input) outs →
  as_list input !! j = Some i → outs !! j = Some o →
  PyDict.get i df = Some values →
  let texts := map str values in
  (∀ df', address df input output dataType kw = Ok df' →
          PyDict.get o df' = Some (_extract_address texts dataType kw))
  ∧ (∀ df', attributes df input output responseContent attribute_type desired_unit
                       bound kw = Ok df' →
            PyDict.get o df'
            = Some (_extract_attributes texts responseContent attribute_type
                                        desired_unit bound kw))
  ∧ (∀ df', brackets df input output find include_brackets = Ok df' →
            PyDict.get o df'
            = Some (_extract_brackets texts (as_list find) include_brackets))
  ∧ (∀ df', codes df input output kw = Ok df' →
            PyDict.get o df' = Some (_extract_codes texts kw))
  ∧ (∀ df', html df input data_type output kw = Ok df' →
            PyDict.get o df' = Some (_extract_html texts data_type kw))
  ∧ (∀ df', properties df input output property_type return_data_type kw = Ok df' →
            PyDict.get o df'
            = Some (_extract_properties texts property_type return_data_type kw)).
Proof.
  intros outs Hlen Hnd Hrw Hi Ho Hv texts.
  assert (Hj : ∀ sep f df',
            extract.joined_or_each str sep f df (as_list input) outs = Ok df' →
            PyDict.get o df' = Some (f texts)).
  { intros sep f df' Hr. eapply each_column_lookup; eauto.
    revert Hr. unfold extract.joined_or_each.
    destruct outs as [|o0 [|o1 outs']]; try done.
    rewrite bool_decide_eq_false_2; [done|]. simpl in Hlen. lia. }
  split_and!; intros df';
    unfold extract.address, extract.attributes, extract.brackets, extract.codes,
      extract.html, extract.properties;
    (destruct (extract.in_out input output) as [io|] eqn:Hio; [|done]);
    apply in_out_Ok in Hio; subst io; cbn [mbind result_bind fst snd];
    try (destruct (negb _); [done|]);
    intros Hr;
    first [exact (Hj _ (λ t, _) _ Hr)
          |exact (each_column_lookup (λ t, _) _ _ _ _ Hr Hnd Hrw _ _ _ _ Hi Ho Hv)].
Qed.

(** X15: [html] and [regex] have no aggregate mode: with several input
    columns and one output column they read the first input column only,
    and the other names are not even looked up. *)
Theorem html_regex_first_input_only df i rest output o data_type pattern kw :
  as_list output = [o] →
  html df (Lst (i :: rest)) data_type (Some output) kw
  = html df (Str i) data_type (Some output) kw
  ∧ regex df (Lst (i :: rest)) pattern (Some output)
    = regex df (Str i) pattern (Some output).
Proof.
  intros Ho. unfold extract.html, extract.regex, extract.in_out, extract.each_column.
  change (default _ (Some output)) with output. rewrite Ho. cbn [length].
  rewrite !(bool_decide_eq_false_2 (1 < 1)) by lia.
  rewrite !andb_false_r. cbn [mbind result_bind fst snd as_list].
  by destruct rest.
Qed.

(** X16: [brackets] checks the lengths first and [find] second, and both
    before it reads a column.  A [find] is wrong when one of its elements
    is none of [round], [square], [curly], [angled] and [all]: it is
    reported even when the input columns do not exist, and a length
    mismatch is reported even when [find] is wrong. *)
Theorem brackets_error_order df input output find include_brackets :
  ¬ Forall (λ t, t ∈ extract.bracket_types) (as_list find) →
  (extract.mismatch input output →
   brackets df input output find include_brackets
   = Raise (ValueError extract.cardinality_message))
  ∧ (¬ extract.mismatch input output →
     brackets df input output find include_brackets
     = Raise (ValueError
                "find must only contain the elements: round, square, curly, angled")).
Proof.
  intros Hfind. unfold extract.brackets. split; intros Hm.
  - by rewrite in_out_raise.
  - rewrite in_out_ok by done. cbn [mbind result_bind].
    replace (negb _) with true; [done|]. symmetry. apply negb_true_iff.
    apply not_true_is_false. intros Hall. apply Hfind, Forall_forall.
    intros t Ht. rewrite forallb_forall in Hall.
    apply list_elem_of_In, Hall, bool_decide_eq_true in Ht. exact Ht.
Qed.

End extract_more.

Lemma wrangles_write_outputs_only_witness :
  ∃ df', extract.codes (λ s : string, s) (λ texts (_ : unit), texts)
           [("a", ["1"; "2"]); ("b", ["x"; "y"])] (Str "a") (Some (Str "c")) tt
         = Ok df'
         ∧ PyDict.get "b" df' = Some ["x"; "y"]
         ∧ PyDict.keys df' = ["a"; "b"; "c"].
Proof.
  pose proof
    (wrangles_write_outputs_only (λ s : string, s) (λ texts _ (_ : unit), texts)
       (λ texts _ _ _ _ _, texts) (λ texts _ _, texts) (λ texts _, texts)
       (λ texts _ _, texts) (λ texts _ _ _, texts) (λ _ x, inl x)
       [("a", ["1"; "2"]); ("b", ["x"; "y"])] (Str "a") (Some (Str "c"))
       "streets" "span" None None "mid" (Str "all") false "text" None "list"
       "[0-9]+" tt) as H.
  do 3 apply Forall_cons in H as [_ H]. apply Forall_cons in H as [H _].
  eexists. split; [reflexivity|].
  destruct (H _ eq_refl) as [(Hw & _ & _) _]. split; [|reflexivity].
  rewrite Hw; [reflexivity|]. cbn. set_solver.
Defined.

Lemma zipped_columns_witness :
  ∃ df', extract.codes (λ s : string, s) (λ texts (_ : unit), (λ t, t +:+ "!") <$> texts)
           [("a", ["1"; "2"]); ("b", ["x"; "y"])] (Lst ["a"; "b"]) None tt
         = Ok df'
         ∧ PyDict.get "b" df' = Some ["x!"; "y!"].
Proof.
  eexists. split; [reflexivity|].
  refine (proj1 (proj2 (proj2 (proj2
    (zipped_columns (λ s : string, s) (λ texts _ (_ : unit), texts)
       (λ texts _ _ _ _ _, texts) (λ texts _ _, texts)
       (λ texts (_ : unit), (λ t, t +:+ "!") <$> texts)
       (λ texts _ _, texts) (λ texts _ _ _, texts)
       [("a", ["1"; "2"]); ("b", ["x"; "y"])] (Lst ["a"; "b"]) None
       "streets" "span" None None "mid" (Str "all") false "text" None "list" tt
       1 "b" "b" ["x"; "y"] _ _ _ _ _ _)))) _ eq_refl).
  - reflexivity.
  - cbn. repeat constructor; set_solver.
  - intros [|[|j]] [|[|k]] o i Hlt Ho Hi; cbn in Ho, Hi; try lia;
      by simplify_eq.
  - reflexivity.
  - reflexivity.
  - reflexivity.
Defined.

Lemma html_regex_first_input_only_witness :
  extract.html (λ s : string, s) (λ texts _ (_ : unit), texts)
    [("a", ["1"; "2"])] (Lst ["a"; "missing"]) "text" (Some (Str "o")) tt
  = Ok [("a", ["1"; "2"]); ("o", ["1"; "2"])].
Proof.
  rewrite (proj1 (html_regex_first_input_only (λ s : string, s)
                    (λ texts _ (_ : unit), texts) (λ _ x, inl x)
                    [("a", ["1"; "2"])] "a" ["missing"] (Str "o") "o" "text" "[0-9]+" tt
                    eq_refl)).
  reflexivity.
Defined.

Lemma brackets_error_order_witness :
  extract.brackets (λ s : string, s) (λ texts _ _, texts)
    [("a", ["1"; "2"])] (Lst ["x"; "y"]) (Some (Lst ["p"; "q"; "r"])) (Str "oval") false
  = Raise (ValueError extract.cardinality_message)
  ∧ extract.brackets (λ s : string, s) (λ texts _ _, texts)
      [("a", ["1"; "2"])] (Str "missing") None (Str "oval") false
    = Raise (ValueError
               "find must only contain the elements: round, square, curly, angled").
Proof.
  split.
  - apply (brackets_error_order (λ s : string, s) (λ texts _ _, texts)
             [("a", ["1"; "2"])] (Lst ["x"; "y"]) (Some (Lst ["p"; "q"; "r"]))
             (Str "oval") false).
    + intros [H _]%Forall_cons.
      exact (bool_decide_eq_false_1 ("oval" ∈ extract.bracket_types) eq_refl H).
    + unfold extract.mismatch. cbn. lia.
  - apply (brackets_error_order (λ s : string, s) (λ texts _ _, texts)
             [("a", ["1"; "2"])] (Str "missing") None (Str "oval") false).
    + intros [H _]%Forall_cons.
      exact (bool_decide_eq_false_1 ("oval" ∈ extract.bracket_types) eq_refl H).
    + unfold extract.mismatch. cbn. lia.
Defined.

(** ** extract.custom *)

Section custom_more.
Context {cell kwargs : Type}.
Variable str : cell → string.
Variable _extract_custom :
  list string → string → bool → bool → bool → bool → bool → kwargs → list cell.
Variable _format_concatenate : list (list string) → string → list string.
Implicit Types (df : list (string * list cell)).

Local Abbreviation each_model := (extract_custom.each_model str _extract_custom).
Local Abbreviation custom :=
  (extract_custom.custom str _extract_custom _format_concatenate).



(** X18: with one model and several output columns whose number is not the
    number of input columns, [custom] handles the first input column and
    the first output column and nothing else: the other output columns
    are not written. *)
Theorem custom_one_model_first_pair df input model_id output m i o
    (use_labels first_element case_sensitive extract_raw use_spellcheck : bool)
    (kw : kwargs) :
  let outs := as_list (default input output) in
  as_list model_id = [m] →
  length (as_list input) ≠ length outs → 1 < length outs →
  head (as_list input) = Some i → head outs = Some o →
  custom df input model_id output use_labels first_element case_sensitive
    extract_raw use_spellcheck kw
  = (values ← PyTable.column df i;
     Ok (PyTable.assign o
           (_extract_custom (map str values) m first_element use_labels
              case_sensitive extract_raw use_spellcheck kw) df)).
Proof.
  intros outs Hm Hne Hlen Hi Ho. unfold extract_custom.custom. fold outs.
  rewrite Hm. rewrite (bool_decide_eq_false_2 (length (as_list input) = length outs))
    by done.
  rewrite (bool_decide_eq_false_2 (length outs = 1)) by lia.
  rewrite andb_false_r. cbn [andb].
  unfold extract_custom.each_model.
  destruct (as_list input) as [|i' input']; [done|]. injection Hi as ->.
  destruct outs as [|o' outs']; [done|]. injection Ho as ->.
  cbn [zip_with rfold fst snd]. destruct input', outs'; cbn [zip_with rfold];
    by destruct (PyTable.column df i).
Qed.

End custom_more.


Lemma custom_one_model_first_pair_witness :
  extract_custom.custom (λ s : string, s)
    (λ texts model _ _ _ _ _ (_ : unit), (λ t, model +:+ t) <$> texts)
    (λ rows sep, PyStr.join sep <$> rows)
    [("a", ["1"; "2"]); ("b", ["x"; "y"])]
    (Lst ["a"; "b"]) (Str "m") (Some (Lst ["p"; "q"; "r"]))
    true false false false false tt
  = Ok [("a", ["1"; "2"]); ("b", ["x"; "y"]); ("p", ["m1"; "m2"])].
Proof.
  rewrite (custom_one_model_first_pair (λ s : string, s)
             (λ texts model _ _ _ _ _ (_ : unit), (λ t, model +:+ t) <$> texts)
             (λ rows sep, PyStr.join sep <$> rows)
             [("a", ["1"; "2"]); ("b", ["x"; "y"])]
             (Lst ["a"; "b"]) (Str "m") (Some (Lst ["p"; "q"; "r"])) "m" "a" "p"
             true false false false false tt);
    [reflexivity|reflexivity|cbn; lia|cbn; lia|reflexivity|reflexivity].
Defined.

(** ** More on split.tokenize *)

Section tokenize_more.
Context {cell ident : Type}.
Variable py_None : pyobj ident.
Variable _format_tokenize :
  list cell → string → option (pyobj ident) → option string → list cell.
Implicit Types (df : list (string * list cell)).

Local Abbreviation tokenize := (split.tokenize py_None _format_tokenize).

(** X19: when [split.tokenize] returns, it has written output columns
    only, and without [output] the table has the columns it had, in the
    same order; with distinct output columns, none of which is the input
    column of a later pair, output column [j] holds the tokens of the
    cells that input column [j] had before the call, for the method that
    was chosen. *)
Theorem tokenize_columns df input output method functions chosen df' :
  let outs := as_list (default input output) in
  split.tokenize_method py_None method functions = Ok chosen →
  tokenize df input output method functions = Ok df' →
  writes_only outs df df'
  ∧ (output = None → PyDict.keys df' = PyDict.keys df)
  ∧ (NoDup outs → reads_before_writes (as_list input) outs →
     ∀ j i o values,
       as_list input !! j = Some i → outs !! j = Some o →
       PyDict.get i df = Some values →
       PyDict.get o df'
       = Some (_format_tokenize values (fst (fst chosen)) (snd (fst chosen))
                                (snd chosen))).
Proof.
  intros outs Hm. unfold split.tokenize. fold outs.
  destruct (bool_decide _); [done|]. rewrite Hm. cbn [mbind result_bind].
  intros Hloop.
  pose proof (assign_loop_writes
                (λ values, _format_tokenize values (fst (fst chosen))
                             (snd (fst chosen)) (snd chosen))
                _ _ _ _ Hloop) as [Hw Hk].
  split_and!; [done| |].
  - intros ->. by apply Hk.
  - intros Hnd Hrw.
    apply (assign_loop_lookup
             (λ values, _format_tokenize values (fst (fst chosen))
                          (snd (fst chosen)) (snd chosen))
             _ _ _ _ Hloop Hnd Hrw).
Qed.

(** A method [custom.<name>] is looked up in [functions], one segment of
    the dotted name after the other. *)
Lemma tokenize_custom_lookup df input output name functions :
  let method := "custom." +:+ name in
  let segments := PyStr.split "." (PyStr.rstrip name) in
  (∀ fn, resolves functions segments fn →
         split.tokenize_method py_None method functions
         = Ok ("function", Some fn, None))
  ∧ ((¬ ∃ fn, resolves functions segments fn) →
     length (as_list input) = length (as_list (default input output)) →
     tokenize df input output method functions
     = Raise (not_recognized method)).
Proof.
  intros method segments.
  assert (Hfn : get_nested_function py_None method None (Some functions) None
                = rfold (get_segment method) functions segments).
  { subst method. rewrite get_nested_function_custom; [done|]. right. by eexists. }
  split.
  - intros fn Hres. unfold split.tokenize_method.
    change (PyStr.startswith "custom." method) with true. cbv iota. rewrite Hfn.
    apply (traverse_ok method) in Hres. by rewrite Hres.
  - intros Hno Hlen. unfold split.tokenize, split.tokenize_method.
    rewrite bool_decide_eq_false_2 by (by intros ?).
    change (PyStr.startswith "custom." method) with true. cbv iota. rewrite Hfn.
    by rewrite traverse_missing.
Qed.

(** A method that is no known name is refused before a column is read. *)
Lemma tokenize_unknown_refused df input output method functions :
  length (as_list input) = length (as_list (default input output)) →
  PyStr.startswith "custom." method = false →
  PyStr.startswith "regex:" (PyStr.lower method) = false →
  method ∉ ["space"; "boundary"; "boundary_ignore_space"] →
  tokenize df input output method functions
  = Raise (ValueError split.method_message).
Proof.
  intros Hlen Hc Hr Hn. unfold split.tokenize, split.tokenize_method.
  rewrite bool_decide_eq_false_2 by (by intros ?).
  rewrite Hc, Hr. by rewrite bool_decide_eq_false_2.
Qed.

(** X20: the method is checked after the lengths of the lists and before
    a column is read.  A method [custom.<name>] is looked up in
    [functions], one segment of the dotted name after the other: when the
    name leads to a function, that function is handed over as the method
    "function"; when it leads nowhere the call fails with "Function
    custom.<name> not recognized".  A method that is not one of the three
    names, does not start with "custom." and does not start, in any case
    of the letters, with "regex:" is refused with the ValueError of the
    methods.  Both errors come whether or not the columns exist. *)
Theorem tokenize_method_checked df input output functions :
  length (as_list input) = length (as_list (default input output)) →
  (∀ name fn,
     resolves functions (PyStr.split "." (PyStr.rstrip name)) fn →
     split.tokenize_method py_None ("custom." +:+ name) functions
     = Ok ("function", Some fn, None))
  ∧ (∀ name,
       (¬ ∃ fn, resolves functions (PyStr.split "." (PyStr.rstrip name)) fn) →
       tokenize df input output ("custom." +:+ name) functions
       = Raise (not_recognized ("custom." +:+ name)))
  ∧ (∀ method,
       PyStr.startswith "custom." method = false →
       PyStr.startswith "regex:" (PyStr.lower method) = false →
       method ∉ ["space"; "boundary"; "boundary_ignore_space"] →
       tokenize df input output method functions
       = Raise (ValueError split.method_message)).
Proof.
  intros Hlen. split_and!.
  - intros name fn. apply (tokenize_custom_lookup df input output name functions).
  - intros name Hno.
    by apply (tokenize_custom_lookup df input output name functions).
  - intros method. by apply tokenize_unknown_refused.
Qed.

End tokenize_more.

Lemma tokenize_columns_witness :
  ∃ df', split.tokenize (PyObject 0 []) (λ (values : list string) method _ _,
                                           (λ v, method +:+ ":" +:+ v) <$> values)
           [("a", ["x y"]); ("b", ["z"])] (Lst ["a"; "b"]) (Some (Lst ["p"; "a"]))
           "space" (PyDictNode []) = Ok df'
         ∧ PyDict.get "a" df' = Some ["space:z"].
Proof.
  eexists. split; [reflexivity|].
  refine (proj2 (proj2
    (tokenize_columns (PyObject 0 []) (λ (values : list string) method _ _,
                                         (λ v, method +:+ ":" +:+ v) <$> values)
       [("a", ["x y"]); ("b", ["z"])] (Lst ["a"; "b"]) (Some (Lst ["p"; "a"]))
       "space" (PyDictNode []) ("space", None, None) _ eq_refl eq_refl))
    _ _ 1 "b" "a" ["z"] eq_refl eq_refl eq_refl).
  - cbn. repeat constructor; set_solver.
  - intros [|[|j]] [|[|k]] o i Hlt Ho Hi; cbn in Ho, Hi; try lia;
      by simplify_eq.
Defined.

Lemma tokenize_method_checked_witness :
  split.tokenize (PyObject 0 []) (λ (values : list string) _ _ _, values)
    [("a", ["x y"])] (Str "missing") None "Space" (PyDictNode [])
  = Raise (ValueError
             ("Method must be one of: space, boundary, "
              +:+ "boundary_ignore_space, custom.<function>, regex:<pattern>")).
Proof.
  apply (proj2 (proj2
    (tokenize_method_checked (PyObject 0 [])
       (λ (values : list string) _ _ _, values)
       [("a", ["x y"])] (Str "missing") None (PyDictNode []) eq_refl)) "Space");
    [reflexivity|reflexivity|].
  exact (bool_decide_eq_false_1
           ("Space" ∈ ["space"; "boundary"; "boundary_ignore_space"]) eq_refl).
Defined.

(** ** More on split.list: the columns of the result *)

Lemma string_length_app (s1 s2 : string) :
  String.length (s1 +:+ s2) = String.length s1 + String.length s2.
Proof. induction s1 as [|a s1 IH]; simpl; [done|]. by rewrite IH. Qed.

Lemma string_app_inj_length (a1 a2 b1 b2 : string) :
  String.length a1 = String.length a2 → a1 +:+ b1 = a2 +:+ b2 → a1 = a2.
Proof.
  revert a2. induction a1 as [|x a1 IH]; intros [|y a2]; simpl; try done.
  intros [= Hlen] [= -> Heq]. f_equal. by apply IH.
Qed.

(** The number of occurrences of a character. *)
Lemma replace_char_length c by_ s :
  ∃ k, (PyStr.contains c s = true → 0 < k)
       ∧ String.length (PyStr.replace_char c by_ s) + k
         = String.length s + k * String.length by_
       ∧ ∀ by', String.length (PyStr.replace_char c by' s) + k
                = String.length s + k * String.length by'.
Proof.
  induction s as [|a s (k & Hk & Hlen & Hall)]; simpl.
  - exists 0. split_and!; [done|done|done].
  - destruct (PyStr.eqc a c); simpl.
    + exists (S k). split_and!; [lia|..].
      * rewrite string_length_app. lia.
      * intros by'. rewrite string_length_app. specialize (Hall by'). lia.
    + exists k. split_and!; [done|lia|]. intros by'. specialize (Hall by'). lia.
Qed.

Lemma replace_char_inj c b1 b2 s :
  PyStr.contains c s = true →
  PyStr.replace_char c b1 s = PyStr.replace_char c b2 s → b1 = b2.
Proof.
  intros Hc Heq.
  assert (Hlen : String.length b1 = String.length b2).
  { destruct (replace_char_length c b1 s) as (k & Hk & _ & Hall).
    pose proof (Hall b1) as H1. pose proof (Hall b2) as H2.
    rewrite Heq in H1. specialize (Hk Hc). nia. }
  revert Hc Heq. induction s as [|a s IH]; simpl; [done|].
  destruct (PyStr.eqc a c); simpl.
  - intros _. by apply string_app_inj_length.
  - intros Hc [= Heq]. by apply IH.
Qed.

Lemma to_uint_not_Nil n : Nat.to_uint n ≠ Decimal.Nil.
Proof.
  intros H. assert (Hz : Nat.to_uint n = Nat.to_uint 0 → n = 0)
    by apply Unsigned.to_uint_inj.
  pose proof (Unsigned.of_to n) as Hn. rewrite H in Hn. simpl in Hn. subst n.
  discriminate H.
Qed.

(** [str] of two different numbers gives two different texts. *)
Lemma of_nat_inj i j : PyStr.of_nat i = PyStr.of_nat j → i = j.
Proof.
  unfold PyStr.of_nat. intros H. apply Unsigned.to_uint_inj.
  pose proof (NilZero.usu _ (to_uint_not_Nil i)) as Hi.
  pose proof (NilZero.usu _ (to_uint_not_Nil j)) as Hj.
  rewrite H in Hi. congruence.
Qed.

Lemma wildcard_template_star output template :
  split.wildcard_template output = Some template →
  PyStr.contains PyStr.star template = true.
Proof.
  destruct output as [s|[|s [|? ?]]]; simpl; try done;
    destruct (PyStr.contains PyStr.star s) eqn:Hs; by intros [= <-].
Qed.

Lemma output_headers_lookup template n j :
  j < n →
  split.output_headers template n !! j
  = Some (PyStr.replace_char PyStr.star (PyStr.of_nat (S j)) template).
Proof.
  intros Hj. unfold split.output_headers.
  rewrite list_lookup_fmap, lookup_seq_lt by done. done.
Qed.

(** The generated headers are pairwise distinct. *)
Lemma output_headers_NoDup template n :
  PyStr.contains PyStr.star template = true →
  NoDup (split.output_headers template n).
Proof.
  intros Hstar. unfold split.output_headers. apply NoDup_fmap_2; [|apply NoDup_seq].
  intros i j Heq. by apply of_nat_inj, (replace_char_inj _ _ _ _ Hstar).
Qed.

Section list_more.
Context {cell : Type}.
Variable as_pylist : cell → option (list cell).
Variable of_pylist : list cell → cell.
Variable of_str : string → cell.
Variable json_loads : cell → result cell.
Variable other_len : cell → result nat.
Variable cannot_concatenate : cell → string.
Variable _array : list (list cell) → result (list (list cell)).
Implicit Types (df : list (string * list cell)) (l r : list cell).

Local Abbreviation pad_list := (split.pad_list of_str).
Local Abbreviation load_row := (split.load_row as_pylist json_loads).
Local Abbreviation split_list :=
  (split.list as_pylist of_pylist of_str json_loads other_len cannot_concatenate
              _array).

(** Item [j] of every row, the empty text where a row is shorter. *)
Local Abbreviation item_column parsed j :=
  ((λ l, default (of_str EmptyString) (l !! j)) <$> parsed).

Lemma fold_assign_other (col : nat → list cell) (jhs : list (nat * string)) df c :
  c ∉ jhs.*2 →
  PyDict.get c (fold_left (λ df jh, PyTable.assign (snd jh) (col (fst jh)) df) jhs df)
  = PyDict.get c df.
Proof.
  revert df. induction jhs as [|[j h] jhs IH]; intros df Hc; [done|].
  cbn [fold_left fst snd]. rewrite fmap_cons in Hc.
  apply not_elem_of_cons in Hc as [Hne Hc]. rewrite IH by done.
  unfold PyTable.assign. rewrite get_set. by rewrite decide_False.
Qed.

Lemma fold_assign_lookup (col : nat → list cell) (jhs : list (nat * string)) df j h :
  NoDup jhs.*2 → (j, h) ∈ jhs →
  PyDict.get h (fold_left (λ df jh, PyTable.assign (snd jh) (col (fst jh)) df) jhs df)
  = Some (col j).
Proof.
  revert df. induction jhs as [|[j0 h0] jhs IH]; intros df Hnd Hin;
    [by apply elem_of_nil in Hin|].
  rewrite fmap_cons in Hnd. apply NoDup_cons in Hnd as [Hh0 Hnd].
  cbn [fold_left fst snd].
  apply elem_of_cons in Hin as [[= -> ->]|Hin].
  - rewrite fold_assign_other by done.
    unfold PyTable.assign. rewrite get_set. by rewrite decide_True.
  - by apply IH.
Qed.

Lemma fold_assign_keys (col : nat → list cell) (jhs : list (nat * string)) df :
  writes_only jhs.*2 df
    (fold_left (λ df jh, PyTable.assign (snd jh) (col (fst jh)) df) jhs df).
Proof.
  revert df. induction jhs as [|[j h] jhs IH]; intros df; [apply writes_only_refl|].
  cbn [fold_left fst snd]. rewrite fmap_cons. eapply writes_only_trans.
  - apply (writes_only_assign (h :: jhs.*2)). by left.
  - eapply writes_only_mono; [|apply IH]. intros c Hc. by right.
Qed.

Lemma imap_pair_snd (headers : list string) :
  (imap (λ j h, (j, h)) headers).*2 = headers.
Proof.
  rewrite <- (list_fmap_id headers) at 2. unfold fmap at 1.
  rewrite fmap_imap. apply list_eq. intros i.
  rewrite list_lookup_imap, list_lookup_fmap. by destruct (headers !! i).
Qed.

Lemma elem_of_imap_pair (headers : list string) j h :
  headers !! j = Some h → (j, h) ∈ imap (λ j h, (j, h)) headers.
Proof. intros H. apply elem_of_lookup_imap. by exists j, h. Qed.

(** What the call computes once the rows are lists. *)
Lemma list_unfold df input output values loaded parsed :
  values ≠ [] →
  PyTable.column df input = Ok values →
  rmap load_row values = Ok loaded →
  Forall2 (λ x l, as_pylist x = Some l) loaded parsed →
  let n := split.max_len (length <$> parsed) in
  Forall (λ l, length l ≤ n) parsed
  ∧ split_list df input output
    = match split.wildcard_template output with
      | Some template =>
          rows ← _array (pad_list n <$> parsed);
          PyTable.assign_rows (split.output_headers template n) rows df
      | None =>
          match output with
          | Str name =>
              Ok (PyTable.assign name (of_pylist <$> (pad_list n <$> parsed)) df)
          | Lst names =>
              rows ← _array (pad_list n <$> parsed);
              PyTable.assign_rows names rows df
          end
      end.
Proof.
  intros Hne Hcol Hload Hparsed n.
  assert (Hle : Forall (λ l, length l ≤ n) parsed).
  { apply Forall_forall. intros l Hl. apply max_len_ge.
    apply list_elem_of_fmap. by exists l. }
  split; [done|].
  unfold split.list. rewrite Hcol. cbn [mbind result_bind]. rewrite Hload.
  cbn [mbind result_bind].
  assert (Hlen : length loaded = length values) by (by eapply rmap_length).
  rewrite bool_decide_eq_false_2.
  2: { destruct values; [done|]. simpl in Hlen. lia. }
  rewrite (rmap_len as_pylist other_len loaded parsed) by done.
  cbn [mbind result_bind]. fold n.
  rewrite (rmap_pad as_pylist of_str cannot_concatenate n loaded parsed) by done.
  cbn [mbind result_bind].
  destruct (split.wildcard_template output) as [template|]; [|done].
  assert (Hhead : length (default [] (head (pad_list n <$> parsed))) = n).
  { destruct parsed as [|l parsed].
    - apply Forall2_nil_inv_r in Hparsed. subst loaded.
      destruct values; [done|]. simpl in Hlen. lia.
    - simpl. apply pad_list_length. by apply Forall_cons in Hle as [? _]. }
  cbv zeta. by rewrite Hhead.
Qed.

(** X21: with a wildcard output, [split.list] makes one column for each
    position of the longest list, as far as the array that pandas makes of
    the padded rows is these rows themselves (as it is for rows of texts):
    the column of position [j], counted from 0, is named by the template
    with [j + 1] in the place of every star and holds, for each row, item
    [j] of the row's list, or the empty text where the list is shorter.
    The names are pairwise distinct, so no generated column overwrites
    another one, and no other column of the table is touched. *)
Theorem list_wildcard_columns df input output template values loaded parsed :
  values ≠ [] →
  PyTable.column df input = Ok values →
  rmap load_row values = Ok loaded →
  Forall2 (λ x l, as_pylist x = Some l) loaded parsed →
  split.wildcard_template output = Some template →
  let n := split.max_len (length <$> parsed) in
  let headers := split.output_headers template n in
  _array (pad_list n <$> parsed) = Ok (pad_list n <$> parsed) →
  ∃ df', split_list df input output = Ok df'
         ∧ NoDup headers
         ∧ (∀ j, j < n →
              PyDict.get (PyStr.replace_char PyStr.star (PyStr.of_nat (S j)) template) df'
              = Some (item_column parsed j))
         ∧ writes_only headers df df'.
Proof.
  intros Hne Hcol Hload Hparsed Ht n headers Harr.
  destruct (list_unfold df input output values loaded parsed Hne Hcol Hload Hparsed)
    as [Hle Hrun].
  rewrite Ht in Hrun. fold n in Hle, Hrun. fold headers in Hrun.
  rewrite Harr in Hrun. cbn [mbind result_bind] in Hrun.
  assert (Hnd : NoDup headers)
    by (apply output_headers_NoDup; by eapply wildcard_template_star).
  rewrite (assign_padded_rows of_str df headers n parsed) in Hrun; [|done|].
  2: { unfold headers, split.output_headers. by rewrite length_fmap, length_seq. }
  eexists. split; [exact Hrun|]. split; [done|]. split.
  - intros j Hj.
    apply (fold_assign_lookup (λ j, item_column parsed j)).
    + by rewrite imap_pair_snd.
    + apply elem_of_imap_pair. by apply output_headers_lookup.
  - rewrite <- (imap_pair_snd headers) at 1.
    apply (fold_assign_keys (λ j, item_column parsed j)).
Qed.

(** X22: with a list of output names that is not a wildcard, as far as
    the array that pandas makes of the padded rows is these rows
    themselves (as it is for rows of texts), the number of names has to be
    the length of the longest list: otherwise the call fails with "Columns
    must be same length as key" and, when it is, the column of the name at
    position [j] holds item [j] of each row's list, or the empty text.
    When the array cannot be made, the call fails with the error of the
    array. *)
Theorem list_named_columns df input names values loaded parsed :
  values ≠ [] →
  PyTable.column df input = Ok values →
  rmap load_row values = Ok loaded →
  Forall2 (λ x l, as_pylist x = Some l) loaded parsed →
  split.wildcard_template (Lst names) = None →
  let n := split.max_len (length <$> parsed) in
  let padded := pad_list n <$> parsed in
  (_array padded = Ok padded → length names ≠ n →
   split_list df input (Lst names)
   = Raise (ValueError "Columns must be same length as key"))
  ∧ (_array padded = Ok padded → length names = n → NoDup names →
     ∃ df', split_list df input (Lst names) = Ok df'
            ∧ (∀ j h, names !! j = Some h →
                 PyDict.get h df' = Some (item_column parsed j))
            ∧ writes_only names df df')
  ∧ (∀ e, _array padded = Raise e → split_list df input (Lst names) = Raise e).
Proof.
  intros Hne Hcol Hload Hparsed Ht n padded.
  destruct (list_unfold df input (Lst names) values loaded parsed Hne Hcol Hload
              Hparsed) as [Hle Hrun].
  rewrite Ht in Hrun. fold n in Hle, Hrun. fold padded in Hrun. split_and!.
  - intros Harr Hlen. rewrite Hrun, Harr. cbn [mbind result_bind].
    unfold PyTable.assign_rows.
    rewrite bool_decide_eq_false_2; [done|]. subst padded.
    destruct parsed as [|l parsed].
    { apply Forall2_nil_inv_r in Hparsed. subst loaded.
      apply rmap_length in Hload. destruct values; [done|]. simpl in Hload. lia. }
    intros [Hl _]%Forall_cons. apply Hlen. rewrite <- Hl.
    apply pad_list_length. by apply Forall_cons in Hle as [? _].
  - intros Harr Hlen Hnd. rewrite Harr in Hrun. cbn [mbind result_bind] in Hrun.
    subst padded.
    rewrite (assign_padded_rows of_str df names n parsed) in Hrun by done.
    eexists. split; [exact Hrun|]. split.
    + intros j h Hh. apply (fold_assign_lookup (λ j, item_column parsed j)).
      * by rewrite imap_pair_snd.
      * by apply elem_of_imap_pair.
    + rewrite <- (imap_pair_snd names) at 1.
      apply (fold_assign_keys (λ j, item_column parsed j)).
  - intros e Harr. by rewrite Hrun, Harr.
Qed.

End list_more.

Lemma list_wildcard_columns_witness :
  ∃ df', split.list value_items VList VStr no_json no_len (λ _, "can only concatenate")
           array_of_texts
           [("col", [VList [VStr "a"; VStr "b"]; VList []])] "col" (Str "part_*")
         = Ok df'
         ∧ PyDict.get "part_2" df' = Some [VStr "b"; VStr EmptyString].
Proof.
  destruct (list_wildcard_columns value_items VList VStr no_json no_len
              (λ _, "can only concatenate") array_of_texts
              [("col", [VList [VStr "a"; VStr "b"]; VList []])] "col" (Str "part_*")
              "part_*"
              [VList [VStr "a"; VStr "b"]; VList []]
              [VList [VStr "a"; VStr "b"]; VList []]
              [[VStr "a"; VStr "b"]; []])
    as (df' & Hrun & _ & Hcols & _);
    [done | reflexivity | reflexivity | by repeat constructor | reflexivity
    | reflexivity |].
  exists df'. split; [exact Hrun|]. apply (Hcols 1). cbn. lia.
Defined.

Lemma list_named_columns_witness :
  split.list value_items VList VStr no_json no_len (λ _, "can only concatenate")
    array_of_texts
    [("col", [VList [VStr "a"; VStr "b"]; VList []])] "col" (Lst ["p"; "q"; "r"])
  = Raise (ValueError "Columns must be same length as key").
Proof.
  apply (proj1
    (list_named_columns value_items VList VStr no_json no_len
       (λ _, "can only concatenate") array_of_texts
       [("col", [VList [VStr "a"; VStr "b"]; VList []])] "col" ["p"; "q"; "r"]
       [VList [VStr "a"; VStr "b"]; VList []]
       [VList [VStr "a"; VStr "b"]; VList []]
       [[VStr "a"; VStr "b"]; []]
       ltac:(done) eq_refl eq_refl ltac:(by repeat constructor) eq_refl)).
  - reflexivity.
  - cbn. lia.
Defined.

(** ** split.dictionary *)

Section dict_last.
Context {V : Type}.
Implicit Types (d e : list (string * V)).

Lemma get_app d e k :
  PyDict.get k (d ++ e)
  = match PyDict.get k d with Some v => Some v | None => PyDict.get k e end.
Proof.
  induction d as [|[k0 v0] d IH]; [done|]. simpl.
  by destruct (decide (k = k0)).
Qed.

(** In a dict built from pairs the last pair of a key gives its value. *)
Lemma get_update_last d e k :
  PyDict.get k (PyDict.update d e)
  = match PyDict.get k (reverse e) with
    | Some v => Some v
    | None => PyDict.get k d
    end.
Proof.
  unfold PyDict.update. induction e as [|[k0 v0] e IH] using rev_ind; [done|].
  rewrite fold_left_app, reverse_snoc. cbn [fold_left fst snd PyDict.get].
  rewrite get_set, IH. by destruct (decide (k = k0)).
Qed.

Lemma get_reverse d k : NoDup (PyDict.keys d) → PyDict.get k (reverse d) = PyDict.get k d.
Proof.
  intros Hnd. destruct (PyDict.get k d) as [v|] eqn:Hget.
  - apply get_NoDup.
    + unfold PyDict.keys. rewrite fmap_reverse.
      eapply NoDup_Permutation_proper; [apply reverse_Permutation|done].
    + apply elem_of_reverse. by apply get_elem_of.
  - apply get_None. apply get_None in Hget. unfold PyDict.keys in *.
    rewrite fmap_reverse. by rewrite elem_of_reverse.
Qed.

Lemma keys_concat (ds : list (list (string * V))) :
  PyDict.keys (concat ds) = concat (PyDict.keys <$> ds).
Proof.
  unfold PyDict.keys. induction ds as [|d ds IH]; [done|].
  simpl. by rewrite fmap_app, IH.
Qed.

Lemma get_merged (before after : list (list (string * V))) d k :
  NoDup (PyDict.keys d) →
  Forall (λ a, k ∉ PyDict.keys a) after →
  k ∈ PyDict.keys d →
  PyDict.get k (PyDict.of_pairs (concat (before ++ d :: after))) = PyDict.get k d.
Proof.
  intros Hnd Hafter Hin.
  change (PyDict.of_pairs ?kvs) with (PyDict.update [] kvs).
  rewrite get_update_last, concat_app, concat_cons, !reverse_app, <- app_assoc, !get_app.
  assert (PyDict.get k (reverse (concat after)) = None) as ->.
  { apply get_None. unfold PyDict.keys. rewrite fmap_reverse, elem_of_reverse.
    fold (PyDict.keys (concat after)). rewrite keys_concat.
    intros (ks & Hks & Hk)%elem_of_concat.
    apply list_elem_of_fmap in Hks as (a & -> & Ha).
    rewrite Forall_forall in Hafter. by apply (Hafter a). }
  rewrite get_reverse by done.
  apply get_is_Some in Hin as [v ->]. done.
Qed.

Lemma get_merged_None (ds : list (list (string * V))) k :
  Forall (λ a, k ∉ PyDict.keys a) ds →
  PyDict.get k (PyDict.of_pairs (concat ds)) = None.
Proof.
  intros Hall. apply get_None. rewrite keys_of_pairs, dedup_elem_of.
  fold (PyDict.keys (concat ds)). rewrite keys_concat.
  intros (ks & Hks & Hk)%elem_of_concat.
  apply list_elem_of_fmap in Hks as (a & -> & Ha).
  rewrite Forall_forall in Hall. by apply (Hall a).
Qed.

End dict_last.

Lemma Forall2_rmap {A B} (f : A → result B) l ys :
  Forall2 (λ x y, f x = Ok y) l ys → rmap f l = Ok ys.
Proof.
  induction 1 as [|x y l ys Hx _ IH]; simpl; [done|]. by rewrite Hx, IH.
Qed.

Lemma rmap_fmap_ok {A B C} (g : B → result C) (h : A → B) (r : A → C) l :
  (∀ x, x ∈ l → g (h x) = Ok (r x)) → rmap g (h <$> l) = Ok (r <$> l).
Proof.
  induction l as [|x l IH]; intros H; [done|].
  rewrite !fmap_cons. cbn [rmap]. rewrite H by (by left). cbn [mbind result_bind].
  rewrite IH; [done|]. intros y Hy. apply H. by right.
Qed.

Lemma omap_Forall2 {A B} (f : A → option B) l ys :
  Forall2 (λ x y, f x = Some y) l ys → omap f l = ys.
Proof.
  induction 1 as [|x y l ys Hx _ IH]; [done|].
  cbn [omap list_omap]. fold (omap f l). by rewrite Hx, IH.
Qed.

Lemma NoDup_fmap_elem_inj {A B} (f : A → B) (l : list A) x y :
  NoDup (f <$> l) → x ∈ l → y ∈ l → f x = f y → x = y.
Proof.
  induction l as [|z l IH]; [by intros _ ?%elem_of_nil|].
  rewrite fmap_cons. intros [Hz Hnd]%NoDup_cons.
  intros [->|Hx]%elem_of_cons [->|Hy]%elem_of_cons Heq; [done|..].
  - exfalso. apply Hz. rewrite Heq. by apply list_elem_of_fmap_2.
  - exfalso. apply Hz. rewrite <- Heq. by apply list_elem_of_fmap_2.
  - by apply IH.
Qed.

Lemma get_fmap_keys {V} (f : string → V) (ks : list string) k :
  PyDict.get k ((λ k, (k, f k)) <$> ks) = if decide (k ∈ ks) then Some (f k) else None.
Proof.
  induction ks as [|k0 ks IH]; [done|]. cbn [fmap list_fmap PyDict.get].
  fold (fmap (M:=list) (λ k, (k, f k)) ks). rewrite IH.
  destruct (decide (k = k0)) as [->|Hne].
  - rewrite decide_True; [done|by left].
  - destruct (decide (k ∈ ks)) as [Hin|Hin].
    + rewrite decide_True; [done|by right].
    + rewrite decide_False; [done|]. by intros [?|?]%elem_of_cons.
Qed.

(** The rows and the columns of a frame. *)
Lemma rows_spec {A} (cols : list (list A)) n :
  cols ≠ [] → Forall (λ c, length c = n) cols →
  length (PyTable.rows cols) = n
  ∧ ∀ i row, PyTable.rows cols !! i = Some row →
             Forall2 (λ c x, c !! i = Some x) cols row.
Proof.
  induction cols as [|c cols IH]; [done|]. intros _ [Hc Hcols]%Forall_cons.
  destruct cols as [|c' cols].
  - simpl. rewrite length_fmap. split; [done|]. intros i row.
    rewrite list_lookup_fmap. destruct (c !! i) as [x|] eqn:Hx; [|done].
    intros [= <-]. by repeat constructor.
  - destruct (IH ltac:(done) Hcols) as [Hlen Hrows].
    change (PyTable.rows (c :: c' :: cols))
      with (zip_with cons c (PyTable.rows (c' :: cols))).
    split.
    + rewrite length_zip_with. lia.
    + intros i row (x & r & -> & Hx & Hr)%lookup_zip_with_Some.
      constructor; [done|]. by apply Hrows.
Qed.

Lemma grid_spec {A} n (cols : list (list A)) :
  Forall (λ c, length c = n) cols →
  length (split_dictionary.grid n cols) = n
  ∧ ∀ i row, split_dictionary.grid n cols !! i = Some row →
             Forall2 (λ c x, c !! i = Some x) cols row.
Proof.
  intros Hcols. destruct cols as [|c cols].
  - simpl. rewrite length_replicate. split; [done|].
    intros i row [-> _]%lookup_replicate. constructor.
  - by apply rows_spec.
Qed.

Lemma grid_column {A} n (cols : list (list A)) j c :
  Forall (λ c, length c = n) cols → cols !! j = Some c →
  omap (λ r, r !! j) (split_dictionary.grid n cols) = c.
Proof.
  intros Hcols Hj. destruct (grid_spec n cols Hcols) as [Hlen Hrows].
  apply omap_Forall2, Forall2_same_length_lookup_2.
  - rewrite Hlen. symmetry. by eapply (Forall_lookup_1 _ _ _ _ Hcols).
  - intros i r x Hr Hx. specialize (Hrows i r Hr).
    destruct (Forall2_lookup_l _ _ _ _ _ Hrows Hj) as (y & Hy & Hcy).
    congruence.
Qed.

Lemma grid_row_length {A} n (cols : list (list A)) :
  Forall (λ c, length c = n) cols →
  Forall (λ r, length r = length cols) (split_dictionary.grid n cols).
Proof.
  intros Hcols. destruct (grid_spec n cols Hcols) as [_ Hrows].
  apply Forall_lookup_2. intros i r Hr. symmetry.
  by eapply Forall2_length, Hrows.
Qed.

Section frames.
Context {cell : Type}.
Implicit Types (df cols : list (string * list cell)).

Lemma fold_imap_assign (col : nat → list cell) cols df k :
  (∀ j kv, cols !! j = Some kv → col (k + j) = snd kv) →
  fold_left (λ df jh, PyTable.assign (snd jh) (col (fst jh)) df)
            (imap (λ j h, (k + j, h)) cols.*1) df
  = PyDict.update df cols.
Proof.
  unfold PyDict.update. revert df k.
  induction cols as [|[h c] cols IH]; intros df k Hcol; [done|].
  rewrite fmap_cons, imap_cons. cbn [fold_left fst snd].
  rewrite (Hcol 0 (h, c) eq_refl).
  cbn [snd]. unfold PyTable.assign at 2.
  rewrite <- (IH (PyDict.set h c df) (S k)).
  - f_equal. apply imap_ext. intros j x _. simpl. f_equal. lia.
  - intros j kv Hj. rewrite <- (Hcol (S j) kv Hj). f_equal. lia.
Qed.

(** Assigning the values of a frame under its own column names is an
    update of the table, column by column. *)
Lemma assign_rows_columns df cols n :
  Forall (λ c, length c = n) cols.*2 →
  PyTable.assign_rows cols.*1 (split_dictionary.grid n cols.*2) df
  = Ok (PyDict.update df cols).
Proof.
  intros Hcols. unfold PyTable.assign_rows.
  rewrite bool_decide_eq_true_2.
  2: { rewrite length_fmap, <- (length_fmap snd cols). by apply grid_row_length. }
  f_equal.
  apply (fold_imap_assign (λ j, omap (λ r, r !! j) (split_dictionary.grid n cols.*2))
           cols df 0).
  intros j kv Hj. cbn [Nat.add]. apply grid_column; [done|].
  by rewrite list_lookup_fmap, Hj.
Qed.

Lemma writes_only_update df cols :
  writes_only (PyDict.keys cols) df (PyDict.update df cols).
Proof.
  unfold PyDict.update. revert df.
  induction cols as [|[h c] cols IH]; intros df; [apply writes_only_refl|].
  cbn [fold_left fst snd]. eapply writes_only_trans.
  - apply (writes_only_assign (PyDict.keys ((h, c) :: cols)) df h c). by left.
  - eapply writes_only_mono; [|apply IH]. intros x Hx. by right.
Qed.

End frames.

Section dictionary_facts.
Context {cell : Type}.
Variable re : re_engine.
Variable as_dict : cell → option (list (string * cell)).
Variable as_str : cell → option string.
Variable json_loads : string → result cell.
Variable format_value : cell → string.
Variable nan : cell.
Variable _values : list (list cell) → list (list cell).
Implicit Types (df : list (string * list cell)) (val default_cell : cell)
  (records : list (list (string * cell))).

Local Abbreviation _parse_dict_or_json :=
  (split_dictionary._parse_dict_or_json as_dict as_str json_loads format_value).
Local Abbreviation merge_row :=
  (split_dictionary.merge_row as_dict as_str json_loads format_value).
Local Abbreviation dictionary :=
  (split_dictionary.dictionary re as_dict as_str json_loads format_value nan _values).
Local Abbreviation not_valid := (split_dictionary.not_valid format_value).

Local Abbreviation key_column := (split_dictionary.key_column nan).

Lemma parse_raise val e : _parse_dict_or_json val = Raise e → e = not_valid val.
Proof.
  unfold split_dictionary._parse_dict_or_json.
  destruct (as_dict val); [done|]. destruct (as_str val) as [s|]; [|congruence].
  destruct (_ && _); [|congruence].
  destruct (json_loads s) as [loaded|]; [|congruence].
  destruct (as_dict loaded); [done|congruence].
Qed.

Lemma merge_row_raise default_cell row pre val post :
  default_cell :: row = pre ++ val :: post →
  Forall (λ x, is_ok (_parse_dict_or_json x) = true) pre →
  is_ok (_parse_dict_or_json val) = false →
  merge_row default_cell row = Raise (not_valid val).
Proof.
  intros Hrow Hpre Hval. unfold split_dictionary.merge_row. rewrite Hrow.
  destruct (_parse_dict_or_json val) as [|e] eqn:Hparse; [done|].
  apply parse_raise in Hparse as Heq. subst e.
  by rewrite (rmap_first_raise _ pre val post (not_valid val) Hpre Hparse).
Qed.

(** X23: the record of a row is the default and the dictionaries of the
    row merged from left to right.  Its keys come in the order of their
    first appearance; for a key, the value is that of the last dictionary
    that has it, so a value of the row replaces a default and a later
    column replaces an earlier one; a key that the default alone has
    keeps the default. *)
Theorem merge_row_last_wins default_cell row dicts :
  Forall2 (λ x items, _parse_dict_or_json x = Ok items) (default_cell :: row) dicts →
  ∃ record,
    merge_row default_cell row = Ok record
    ∧ PyDict.keys record = dedup (concat (PyDict.keys <$> dicts))
    ∧ (∀ before d after k,
         dicts = before ++ d :: after →
         NoDup (PyDict.keys d) → k ∈ PyDict.keys d →
         Forall (λ a, k ∉ PyDict.keys a) after →
         PyDict.get k record = PyDict.get k d)
    ∧ (∀ k, Forall (λ a, k ∉ PyDict.keys a) dicts → PyDict.get k record = None).
Proof.
  intros Hparse. unfold split_dictionary.merge_row.
  rewrite (Forall2_rmap _ _ _ Hparse). cbn [mbind result_bind].
  eexists. split; [done|]. split_and!.
  - rewrite keys_of_pairs. fold (PyDict.keys (concat dicts)). by rewrite keys_concat.
  - intros before d after k -> Hnd Hin Hafter. by apply get_merged.
  - intros k Hall. by apply get_merged_None.
Qed.

(** X24: a cell that is neither a dict nor a text that reads as one stops
    the call with a ValueError that shows the cell.  The rows are read
    from the first to the last and, in a row, the default first and then
    the cells from left to right: the first cell in this order that is
    not valid is the one reported, with or without [output]. *)
Theorem dictionary_invalid_cell df input output default_cell frame
    rows_before row rows_after pre val post :
  PyTable.columns df (as_list input) = Ok frame →
  split_dictionary.grid (split_dictionary.row_count df) frame
  = rows_before ++ row :: rows_after →
  Forall (λ r, is_ok (merge_row default_cell r) = true) rows_before →
  default_cell :: row = pre ++ val :: post →
  Forall (λ x, is_ok (_parse_dict_or_json x) = true) pre →
  is_ok (_parse_dict_or_json val) = false →
  dictionary df input output default_cell
  = Raise (ValueError (format_value val +:+ " is not a valid Dictionary")).
Proof.
  intros Hframe Hrows Hbefore Hrow Hpre Hval. unfold split_dictionary.dictionary.
  rewrite Hframe. cbn [mbind result_bind]. rewrite Hrows.
  rewrite (rmap_first_raise _ rows_before row rows_after (not_valid val) Hbefore);
    [done|]. by eapply merge_row_raise.
Qed.

Lemma DataFrame_keys records :
  PyDict.keys (split_dictionary.DataFrame nan records)
  = dedup (concat (PyDict.keys <$> records)).
Proof.
  unfold split_dictionary.DataFrame, PyDict.keys.
  rewrite <- list_fmap_compose. apply list_fmap_id.
Qed.

Lemma DataFrame_values records :
  PyDict.values (split_dictionary.DataFrame nan records)
  = key_column records <$> dedup (concat (PyDict.keys <$> records)).
Proof.
  unfold split_dictionary.DataFrame, PyDict.values.
  by rewrite <- list_fmap_compose.
Qed.

Lemma DataFrame_get records k :
  k ∈ dedup (concat (PyDict.keys <$> records)) →
  PyDict.get k (split_dictionary.DataFrame nan records) = Some (key_column records k).
Proof.
  intros Hk. unfold split_dictionary.DataFrame.
  rewrite (get_fmap_keys (key_column records)). by rewrite decide_True.
Qed.

(** X25: without [output], every key of the records becomes a column.  A
    key that is a column of the table replaces that column in place; the
    other keys are added after the columns of the table, in the order of
    their first appearance in the records.  The column of a key holds,
    row by row, the value of the record, or the missing value where the
    record has no such key (as far as the conversion to an array leaves
    the cells as they are); the other columns are left as they were. *)
Theorem dictionary_all_keys df input default_cell frame records :
  let columns := dedup (concat (PyDict.keys <$> records)) in
  let cells := split_dictionary.grid (length records) (key_column records <$> columns) in
  PyTable.columns df (as_list input) = Ok frame →
  rmap (merge_row default_cell)
       (split_dictionary.grid (split_dictionary.row_count df) frame) = Ok records →
  _values cells = cells →
  ∃ df',
    dictionary df input None default_cell = Ok df'
    ∧ PyDict.keys df' = PyDict.keys df ++ filter (λ k, k ∉ PyDict.keys df) columns
    ∧ (∀ k, k ∈ columns → PyDict.get k df' = Some (key_column records k))
    ∧ (∀ k, k ∉ columns → PyDict.get k df' = PyDict.get k df).
Proof.
  intros columns cells Hframe Hrecords Hvalues. unfold split_dictionary.dictionary.
  rewrite Hframe. cbn [mbind result_bind]. rewrite Hrecords. cbn [mbind result_bind].
  assert (Hnd : NoDup (PyDict.keys (split_dictionary.DataFrame nan records)))
    by (rewrite DataFrame_keys; apply dedup_NoDup).
  rewrite DataFrame_values. fold columns. fold cells. rewrite Hvalues.
  unfold cells. rewrite <- DataFrame_values.
  unfold PyDict.keys at 1, PyDict.values.
  rewrite assign_rows_columns.
  2: { fold (PyDict.values (split_dictionary.DataFrame nan records)).
       rewrite DataFrame_values. apply Forall_fmap, Forall_forall.
       intros k _. unfold compose, split_dictionary.key_column.
       by rewrite length_fmap. }
  eexists. split; [done|]. split_and!.
  - rewrite keys_update, DataFrame_keys. fold columns.
    by rewrite (dedup_id columns) by apply dedup_NoDup.
  - intros k Hk. rewrite get_update by done. by rewrite DataFrame_get.
  - intros k Hk. rewrite get_update by done.
    assert (PyDict.get k (split_dictionary.DataFrame nan records) = None) as ->; [|done].
    apply get_None. by rewrite DataFrame_keys.
Qed.

Lemma rename_DataFrame (sel : list (string * string)) records :
  split_dictionary.rename sel (split_dictionary.DataFrame nan records)
  = (λ k, (default k (PyDict.get k sel), key_column records k))
      <$> dedup (concat (PyDict.keys <$> records)).
Proof.
  unfold split_dictionary.rename, split_dictionary.DataFrame.
  by rewrite <- list_fmap_compose.
Qed.

(** X26: with [output], the keys that it names, and no others, become
    columns.  For literal keys that the records have, each key is written
    under its new name (its own name when [output] gives none) and holds
    the values of the records for that key; a key of the records that
    [output] does not name is not written.  The new names have to be
    distinct from each other and from the names of the keys that are not
    selected. *)
Theorem dictionary_named_keys df input output default_cell frame records
    (sel : list (string * string)) :
  let columns := dedup (concat (PyDict.keys <$> records)) in
  let new_name := λ k, default k (PyDict.get k sel) in
  let cells := split_dictionary.grid (length records) (key_column records <$> sel.*1) in
  PyTable.columns df (as_list input) = Ok frame →
  rmap (merge_row default_cell)
       (split_dictionary.grid (split_dictionary.row_count df) frame) = Ok records →
  PyDict.of_pairs (concat (split_dictionary.out_items
                           <$> split_dictionary.out_list output)) = sel →
  Forall (λ kv, literal kv.1 ∧ kv.1 ≠ EmptyString ∧ kv.1 ∈ columns) sel →
  NoDup (new_name <$> columns) →
  _values cells = cells →
  ∃ df',
    dictionary df input (Some output) default_cell = Ok df'
    ∧ (∀ k v, (k, v) ∈ sel → PyDict.get v df' = Some (key_column records k))
    ∧ writes_only sel.*2 df df'.
Proof.
  intros columns new_name cells Hframe Hrecords Hsel Hall Hnew Hvalues.
  assert (Hndk : NoDup sel.*1).
  { rewrite <- Hsel. fold (PyDict.keys (PyDict.of_pairs
      (concat (split_dictionary.out_items <$> split_dictionary.out_list output)))).
    rewrite keys_of_pairs. apply dedup_NoDup. }
  assert (Hname : ∀ k v, (k, v) ∈ sel → new_name k = v).
  { intros k v Hkv. unfold new_name. by rewrite (get_NoDup sel k v Hndk Hkv). }
  assert (Hcol : ∀ k v, (k, v) ∈ sel → k ∈ columns).
  { intros k v Hkv. rewrite Forall_forall in Hall. by destruct (Hall _ Hkv) as (_ & _ & ?). }
  assert (Hndv : NoDup sel.*2).
  { replace sel.*2 with (new_name <$> sel.*1).
    - apply NoDup_fmap_2_strong; [|done].
      intros x y [[k v] [-> Hx]]%list_elem_of_fmap [[k' v'] [-> Hy]]%list_elem_of_fmap.
      apply (NoDup_fmap_elem_inj new_name columns); [done|by eapply Hcol..].
    - rewrite <- list_fmap_compose. apply list_fmap_ext.
      intros i [k v] Hi. simpl. apply Hname. by eapply list_elem_of_lookup_2. }
  unfold split_dictionary.dictionary.
  rewrite Hframe. cbn [mbind result_bind]. rewrite Hrecords. cbn [mbind result_bind].
  rewrite Hsel, DataFrame_keys. fold columns.
  assert (wildcard_expansion_dict re columns sel = Ok sel) as ->.
  { unfold wildcard_expansion_dict.
    rewrite wildcards_to_regex_literal_id; [|done|].
    - apply literal_loop; [done..|].
      eapply Forall_impl; [exact Hall|]. intros kv ([_ ?] & ? & ?). done.
    - eapply Forall_impl; [exact Hall|]. by intros kv (? & _). }
  cbn [mbind result_bind].
  unfold split_dictionary.select. rewrite rename_DataFrame. fold columns.
  assert (Hkeys : PyDict.keys ((λ k, (default k (PyDict.get k sel), key_column records k))
                               <$> columns) = new_name <$> columns).
  { unfold PyDict.keys. by rewrite <- list_fmap_compose. }
  rewrite bool_decide_eq_true_2 by (by rewrite Hkeys).
  change (PyDict.values sel) with (snd <$> sel).
  rewrite (rmap_fmap_ok _ snd (λ kv, (snd kv, key_column records (fst kv)))).
  2: { intros [k v] Hkv. cbn [fst snd]. unfold PyDict.getitem.
       rewrite (get_NoDup _ v (key_column records k)); [done|by rewrite Hkeys|].
       apply list_elem_of_fmap. exists k. split; [|by eapply Hcol].
       f_equal. symmetry. by apply Hname. }
  cbn [mbind result_bind].
  set (df_temp := (λ kv : string * string, (snd kv, key_column records (fst kv))) <$> sel).
  assert (Hk : PyDict.keys df_temp = sel.*2)
    by (unfold df_temp, PyDict.keys; by rewrite <- list_fmap_compose).
  assert (Hv : PyDict.values df_temp = key_column records <$> sel.*1)
    by (unfold df_temp, PyDict.values; by rewrite <- !list_fmap_compose).
  rewrite Hv. fold cells. rewrite Hvalues. unfold cells. rewrite <- Hv.
  unfold PyDict.keys, PyDict.values. rewrite assign_rows_columns.
  2: { fold (PyDict.values df_temp). rewrite Hv. apply Forall_fmap, Forall_forall.
       intros k _. unfold compose, split_dictionary.key_column.
       by rewrite length_fmap. }
  eexists. split; [done|]. split.
  - intros k v Hkv. rewrite get_update by (by rewrite Hk).
    rewrite (get_NoDup df_temp v (key_column records k)); [done|by rewrite Hk|].
    apply list_elem_of_fmap. by exists (k, v).
  - rewrite <- Hk. apply writes_only_update.
Qed.

(** X27: asking for a literal key that no record has.  Without a question
    mark at its end the call fails with the KeyError that says that the
    column does not exist; with the question mark, when the key without
    it is no key of the records either, nothing is written and the table
    comes back as it was. *)
Theorem dictionary_missing_key df input default_cell frame records k :
  let columns := dedup (concat (PyDict.keys <$> records)) in
  let output := Some (split_dictionary.One (split_dictionary.Name k)) in
  PyTable.columns df (as_list input) = Ok frame →
  rmap (merge_row default_cell)
       (split_dictionary.grid (split_dictionary.row_count df) frame) = Ok records →
  literal k → k ≠ EmptyString → k ∉ columns →
  (PyStr.last_char k ≠ Some "?"%char →
   dictionary df input output default_cell
   = Raise (KeyError ("Column " +:+ k +:+ " does not exist")))
  ∧ (PyStr.last_char k = Some "?"%char → PyStr.drop_last k ∉ columns →
     _values (replicate (length records) []) = replicate (length records) [] →
     dictionary df input output default_cell = Ok df).
Proof.
  intros columns output Hframe Hrecords Hlit Hne Hk.
  assert (Htmp : wildcards_to_regex [(k, k)] = [(k, k)]).
  { rewrite wildcards_to_regex_of_pairs. cbn [fmap list_fmap].
    by rewrite wildcard_entry_literal. }
  assert (Hrun : dictionary df input output default_cell
                 = (output ← (result_columns ← expand_column re columns [(k, k)] [] k;
                              Ok result_columns);
                    df_temp ← split_dictionary.select (PyDict.values output)
                                (split_dictionary.rename output
                                   (split_dictionary.DataFrame nan records));
                    PyTable.assign_rows (PyDict.keys df_temp)
                      (_values (split_dictionary.grid (length records)
                                  (PyDict.values df_temp))) df)).
  { unfold split_dictionary.dictionary, output.
    rewrite Hframe. cbn [mbind result_bind]. rewrite Hrecords. cbn [mbind result_bind].
    rewrite DataFrame_keys. fold columns.
    change (PyDict.of_pairs _) with [(k, k)].
    unfold wildcard_expansion_dict. rewrite Htmp.
    cbn [PyDict.keys fmap list_fmap fst rfold].
    by destruct (expand_column re columns [(k, k)] [] k). }
  rewrite Hrun. destruct Hlit as [_ Hre]. split.
  - intros Hlast. by rewrite expand_column_missing.
  - intros Hlast Hdrop Hvalues. rewrite expand_column_skipped by done.
    cbn [mbind result_bind]. unfold split_dictionary.select.
    rewrite bool_decide_eq_true_2.
    2: { rewrite rename_DataFrame. unfold PyDict.keys.
         rewrite <- list_fmap_compose. cbn. rewrite list_fmap_id.
         apply dedup_NoDup. }
    cbn [PyDict.values fmap list_fmap rmap mbind result_bind PyDict.keys
         split_dictionary.grid].
    rewrite Hvalues. unfold PyTable.assign_rows.
    rewrite bool_decide_eq_true_2; [done|].
    apply Forall_forall. by intros r [-> _]%elem_of_replicate.
Qed.

End dictionary_facts.

Example loads_example_reads :
  loads_example size_L = Ok (DDict [("size", DStr "L")])
  ∧ loads_example "{ }" = Ok (DDict [])
  ∧ loads_example "{'size': 'L'}" = Raise (JSONDecodeError "Expecting value")
  ∧ loads_example "oops" = Raise (JSONDecodeError "Expecting value").
Proof. split_and!; reflexivity. Qed.

Lemma merge_row_last_wins_witness :
  ∃ record,
    split_dictionary.merge_row data_items data_text loads_example show_example
      (DDict [("size", DStr "S"); ("unit", DStr "each")])
      [DDict [("size", DStr "M"); ("color", DStr "red")]; DStr size_L]
    = Ok record
    ∧ PyDict.get "size" record = Some (DStr "L").
Proof.
  destruct (merge_row_last_wins data_items data_text loads_example show_example
              (DDict [("size", DStr "S"); ("unit", DStr "each")])
              [DDict [("size", DStr "M"); ("color", DStr "red")]; DStr size_L]
              [[("size", DStr "S"); ("unit", DStr "each")];
               [("size", DStr "M"); ("color", DStr "red")];
               [("size", DStr "L")]])
    as (record & Hrun & _ & Hlast & _); [by repeat constructor|].
  exists record. split; [exact Hrun|].
  apply (Hlast [[("size", DStr "S"); ("unit", DStr "each")];
                [("size", DStr "M"); ("color", DStr "red")]]
               [("size", DStr "L")] [] "size");
    [reflexivity | cbn; repeat constructor; set_solver | cbn; set_solver | constructor].
Defined.

Lemma dictionary_invalid_cell_witness :
  split_dictionary.dictionary WildRe.engine data_items data_text loads_example
    show_example DNaN (λ cells, cells)
    [("d", [DDict [("a", DStr "1")]; DStr "oops"])] (Str "d") None (DDict [])
  = Raise (ValueError "oops is not a valid Dictionary").
Proof.
  apply (dictionary_invalid_cell WildRe.engine data_items data_text loads_example
           show_example DNaN (λ cells, cells)
           [("d", [DDict [("a", DStr "1")]; DStr "oops"])] (Str "d") None (DDict [])
           [[DDict [("a", DStr "1")]; DStr "oops"]]
           [[DDict [("a", DStr "1")]]] [DStr "oops"] []
           [DDict []] (DStr "oops") []);
    [reflexivity | reflexivity | by repeat constructor | reflexivity
    |by repeat constructor | reflexivity].
Defined.

Lemma dictionary_all_keys_witness :
  ∃ df',
    split_dictionary.dictionary WildRe.engine data_items data_text loads_example
      show_example DNaN (λ cells, cells)
      [("d", [DDict [("a", DStr "1")]; DDict [("b", DStr "2")]])] (Str "d") None
      (DDict [])
    = Ok df'
    ∧ PyDict.keys df' = ["d"; "a"; "b"]
    ∧ PyDict.get "a" df' = Some [DStr "1"; DNaN].
Proof.
  destruct (dictionary_all_keys WildRe.engine data_items data_text loads_example
              show_example DNaN (λ cells, cells)
              [("d", [DDict [("a", DStr "1")]; DDict [("b", DStr "2")]])] (Str "d")
              (DDict [])
              [[DDict [("a", DStr "1")]; DDict [("b", DStr "2")]]]
              [[("a", DStr "1")]; [("b", DStr "2")]])
    as (df' & Hrun & Hkeys & Hcols & _); [reflexivity | reflexivity | reflexivity |].
  exists df'. split; [exact Hrun|]. split; [exact Hkeys|].
  apply (Hcols "a"). cbn. set_solver.
Defined.

Lemma dictionary_named_keys_witness :
  ∃ df',
    split_dictionary.dictionary WildRe.engine data_items data_text loads_example
      show_example DNaN (λ cells, cells)
      [("d", [DDict [("a", DStr "1"); ("c", DStr "3")]; DDict [("b", DStr "2")]])]
      (Str "d")
      (Some (split_dictionary.Many
               [split_dictionary.Name "a"; split_dictionary.Renames [("b", "B")]]))
      (DDict [])
    = Ok df'
    ∧ PyDict.get "B" df' = Some [DNaN; DStr "2"]
    ∧ PyDict.get "c" df' = None.
Proof.
  destruct (dictionary_named_keys WildRe.engine data_items data_text loads_example
              show_example DNaN (λ cells, cells)
              [("d", [DDict [("a", DStr "1"); ("c", DStr "3")]; DDict [("b", DStr "2")]])]
              (Str "d")
              (split_dictionary.Many
                 [split_dictionary.Name "a"; split_dictionary.Renames [("b", "B")]])
              (DDict [])
              [[DDict [("a", DStr "1"); ("c", DStr "3")]; DDict [("b", DStr "2")]]]
              [[("a", DStr "1"); ("c", DStr "3")]; [("b", DStr "2")]]
              [("a", "a"); ("b", "B")])
    as (df' & Hrun & Hcols & Hw & _ & _);
    [reflexivity | reflexivity | reflexivity
    | cbn; repeat constructor; set_solver
    | cbn; repeat constructor; set_solver
    | reflexivity |].
  exists df'. split; [exact Hrun|]. split.
  - apply (Hcols "b" "B"). set_solver.
  - rewrite Hw; [reflexivity|]. cbn. set_solver.
Defined.

Lemma dictionary_missing_key_witness :
  split_dictionary.dictionary WildRe.engine data_items data_text loads_example
    show_example DNaN (λ cells, cells)
    [("d", [DDict [("a", DStr "1")]; DDict [("b", DStr "2")]])] (Str "d")
    (Some (split_dictionary.One (split_dictionary.Name "size"))) (DDict [])
  = Raise (KeyError "Column size does not exist").
Proof.
  apply (proj1
    (dictionary_missing_key WildRe.engine data_items data_text loads_example
       show_example DNaN (λ cells, cells)
       [("d", [DDict [("a", DStr "1")]; DDict [("b", DStr "2")]])] (Str "d")
       (DDict [])
       [[DDict [("a", DStr "1")]; DDict [("b", DStr "2")]]]
       [[("a", DStr "1")]; [("b", DStr "2")]] "size"
       eq_refl eq_refl ltac:(by split) ltac:(done) ltac:(cbn; set_solver)));
    done.
Defined.

(** ** format.remove_duplicates, format.trim, format.prefix and
    format.suffix *)

Lemma string_app_assoc (s1 s2 s3 : string) : (s1 +:+ s2) +:+ s3 = s1 +:+ (s2 +:+ s3).
Proof.
  induction s1 as [|a s1 IH]; [done|].
  change (String a ((s1 +:+ s2) +:+ s3) = String a (s1 +:+ (s2 +:+ s3))).
  by rewrite IH.
Qed.

Lemma set_set {V} (d : list (string * V)) k v v' :
  PyDict.set k v (PyDict.set k v' d) = PyDict.set k v d.
Proof.
  induction d as [|[k0 v0] d IH]; simpl.
  - by rewrite decide_True.
  - destruct (decide (k = k0)) as [->|Hne]; simpl.
    + by rewrite decide_True.
    + by rewrite decide_False, IH.
Qed.

Section format_facts.
Context {cell : Type}.
Variable str : cell → string.
Variable of_str : string → cell.
Variable as_pylist : cell → option (list cell).
Variable of_pylist : list cell → cell.
Variable hashable : cell → bool.
Variable type_name : cell → string.
Variable same_key : cell → cell → bool.
Variable _str_strip : list cell → result (list cell).
Implicit Types (df : list (string * list cell)) (keys kept items : list cell).

Local Abbreviation fromkeys := (format.fromkeys hashable type_name same_key).
Local Abbreviation unique_row :=
  (format.unique_row as_pylist of_pylist hashable type_name same_key).
Local Abbreviation remove_duplicates :=
  (format.remove_duplicates as_pylist of_pylist hashable type_name same_key).
Local Abbreviation trim := (format.trim _str_strip).
Local Abbreviation prefix := (format.prefix str of_str).
Local Abbreviation suffix := (format.suffix str of_str).

(** One turn of the loop of [dict.fromkeys]. *)
Local Abbreviation add_key :=
  (λ keys x,
     if hashable x
     then Ok (if existsb (λ k, same_key k x) keys then keys else (keys ++ [x])%list)
     else Raise (format.unhashable type_name x)).

(** No item is taken by the dict for an item before it. *)
Local Abbreviation distinct_keys kept :=
  (∀ i j k x, i < j → kept !! i = Some k → kept !! j = Some x → same_key k x = false).

Lemma distinct_keys_snoc keys x :
  distinct_keys keys → existsb (λ k, same_key k x) keys = false →
  distinct_keys (keys ++ [x]).
Proof.
  intros Hkeys Hx i j k y Hlt Hi Hj.
  assert (Hjl : j < length (keys ++ [x])) by (by eapply lookup_lt_Some).
  rewrite length_app in Hjl. simpl in Hjl.
  rewrite lookup_app_l in Hi by lia.
  destruct (decide (j < length keys)) as [Hj'|Hj'].
  - rewrite lookup_app_l in Hj by done. by apply (Hkeys i j k y).
  - rewrite lookup_app_r in Hj by lia.
    replace (j - length keys) with 0 in Hj by lia. injection Hj as <-.
    apply not_true_is_false. intros Hsame.
    assert (existsb (λ k, same_key k x) keys = true); [|congruence].
    apply existsb_exists. exists k. split; [|done].
    apply list_elem_of_In. by eapply list_elem_of_lookup_2.
Qed.

Lemma fromkeys_loop keys (row : list cell) :
  Forall (λ x, hashable x = true) row →
  ∃ added,
    rfold add_key keys row = Ok (keys ++ added)
    ∧ sublist added row
    ∧ (distinct_keys keys → distinct_keys (keys ++ added))
    ∧ (∀ x, x ∈ row → ∃ k, k ∈ keys ++ added ∧ (k = x ∨ same_key k x = true)).
Proof.
  intros Hrow. revert keys. induction Hrow as [|x row Hx _ IH]; intros keys.
  { exists []. rewrite app_nil_r. split_and!; [done|done|done|].
    by intros x ?%elem_of_nil. }
  cbn [rfold]. rewrite Hx. cbn [mbind result_bind].
  destruct (existsb (λ k, same_key k x) keys) eqn:Hex.
  - destruct (IH keys) as (added & Hrun & Hsub & Hdist & Hcover).
    exists added. split_and!; [done|by apply sublist_cons|done|].
    intros y [->|Hy]%elem_of_cons; [|by apply Hcover].
    apply existsb_exists in Hex as (k & Hk%list_elem_of_In & Hsame).
    exists k. split; [apply elem_of_app; by left|by right].
  - destruct (IH (keys ++ [x])) as (added & Hrun & Hsub & Hdist & Hcover).
    exists (x :: added). rewrite <- app_assoc in Hrun, Hdist, Hcover.
    split_and!; [done|by apply sublist_skip| |].
    + intros Hkeys. apply Hdist. by apply distinct_keys_snoc.
    + intros y [->|Hy]%elem_of_cons; [|by apply Hcover].
      exists x. split; [|by left]. apply elem_of_app. right. by left.
Qed.

Lemma fromkeys_distinct keys (row : list cell) :
  Forall (λ x, hashable x = true) row → distinct_keys (keys ++ row) →
  rfold add_key keys row = Ok (keys ++ row).
Proof.
  intros Hrow. revert keys. induction Hrow as [|x row Hx _ IH]; intros keys Hdist.
  { by rewrite app_nil_r. }
  cbn [rfold]. rewrite Hx. cbn [mbind result_bind].
  assert (existsb (λ k, same_key k x) keys = false) as ->.
  { apply not_true_is_false.
    intros (k & Hk%list_elem_of_In & Hsame)%existsb_exists.
    apply list_elem_of_lookup_1 in Hk as [i Hi].
    assert (same_key k x = false); [|congruence].
    apply (Hdist i (length keys) k x).
    - by eapply lookup_lt_Some.
    - by rewrite lookup_app_l by (by eapply lookup_lt_Some).
    - by rewrite lookup_app_r, Nat.sub_diag by lia. }
  rewrite IH; rewrite <- app_assoc; done.
Qed.

(** What [list(dict.fromkeys(items))] keeps. *)
Lemma fromkeys_spec items :
  Forall (λ x, hashable x = true) items →
  ∃ kept,
    fromkeys items = Ok kept
    ∧ sublist kept items
    ∧ distinct_keys kept
    ∧ (∀ x, x ∈ items → ∃ k, k ∈ kept ∧ (k = x ∨ same_key k x = true))
    ∧ fromkeys kept = Ok kept.
Proof.
  intros Hitems. destruct (fromkeys_loop [] items Hitems)
    as (kept & Hrun & Hsub & Hdist & Hcover).
  cbn [app] in *. exists kept.
  assert (Hd : distinct_keys kept).
  { apply Hdist. intros i j k x _ Hi. by rewrite lookup_nil in Hi. }
  split_and!; [done..|].
  apply (fromkeys_distinct [] kept); [|done].
  apply Forall_forall. intros x Hx. rewrite Forall_forall in Hitems.
  apply Hitems. by eapply elem_of_sublist.
Qed.

(** X28: [remove_duplicates] keeps a cell that is not a list as it is and
    replaces a list by the list of its items without duplicates: the
    items kept stand in the order of the list, no kept item is taken by
    the dict for an earlier one, every item of the list is kept or is
    taken for a kept one, and removing the duplicates of the result again
    changes nothing.  The column has as many rows as before. *)
Theorem remove_duplicates_rows df input output values :
  PyDict.get input df = Some values →
  Forall (λ row, ∀ items, as_pylist row = Some items →
                          Forall (λ x, hashable x = true) items) values →
  ∃ output_list,
    remove_duplicates df input output
    = Ok (PyTable.assign (default input output) output_list df)
    ∧ Forall2 (λ row out,
                 match as_pylist row with
                 | None => out = row
                 | Some items =>
                     ∃ kept,
                       out = of_pylist kept
                       ∧ sublist kept items
                       ∧ distinct_keys kept
                       ∧ (∀ x, x ∈ items →
                               ∃ k, k ∈ kept ∧ (k = x ∨ same_key k x = true))
                       ∧ fromkeys kept = Ok kept
                 end) values output_list.
Proof.
  intros Hget Hhash. unfold format.remove_duplicates, PyTable.column, PyDict.getitem.
  rewrite Hget. cbn [mbind result_bind].
  assert (Hrows : ∃ output_list,
            rmap unique_row values = Ok output_list
            ∧ Forall2 (λ row out,
                 match as_pylist row with
                 | None => out = row
                 | Some items =>
                     ∃ kept,
                       out = of_pylist kept
                       ∧ sublist kept items
                       ∧ distinct_keys kept
                       ∧ (∀ x, x ∈ items →
                               ∃ k, k ∈ kept ∧ (k = x ∨ same_key k x = true))
                       ∧ fromkeys kept = Ok kept
                 end) values output_list).
  { clear Hget. induction Hhash as [|row values Hrow _ (output_list & Hrun & Hall)].
    - exists []. split; [done|constructor].
    - cbn [rmap]. destruct (as_pylist row) as [items|] eqn:Hitems.
      + destruct (fromkeys_spec items (Hrow items eq_refl))
          as (kept & Hkept & Hspec).
        assert (unique_row row = Ok (of_pylist kept)) as ->
          by (unfold format.unique_row; by rewrite Hitems, Hkept).
        cbn [mbind result_bind]. rewrite Hrun. cbn [mbind result_bind].
        eexists. split; [done|]. constructor; [|done].
        rewrite Hitems. by exists kept.
      + assert (unique_row row = Ok row) as ->
          by (unfold format.unique_row; by rewrite Hitems).
        cbn [mbind result_bind]. rewrite Hrun. cbn [mbind result_bind].
        eexists. split; [done|]. constructor; [|done]. by rewrite Hitems. }
  destruct Hrows as (output_list & -> & Hall). cbn [mbind result_bind].
  by exists output_list.
Qed.

(** X29: [trim] loops over [input] without making a list of it.  A
    column name given as a text is gone through character by character,
    so with one output column the column that is read is the one named by
    the first character of the text, and a name of several characters
    fails with the KeyError of that character unless such a column
    exists; the empty name does nothing.  With a list of input columns
    and one output column, the first input column is read and the others
    are ignored. *)
Theorem trim_reads_first df output o :
  let single := λ name,
    values ← PyTable.column df name;
    stripped ← _str_strip values;
    Ok (PyTable.assign o stripped df) in
  (∀ a rest,
     as_list (default (Str (String a rest)) output) = [o] →
     trim df (Str (String a rest)) output = single (String a EmptyString)
     ∧ (String a EmptyString ∉ PyDict.keys df →
        trim df (Str (String a rest)) output
        = Raise (KeyError (String a EmptyString))))
  ∧ trim df (Str EmptyString) output = Ok df
  ∧ (∀ i rest,
       as_list (default (Lst (i :: rest)) output) = [o] →
       trim df (Lst (i :: rest)) output = single i).
Proof.
  intros single.
  assert (Hone : ∀ name names,
            rfold (λ df io,
                     values ← PyTable.column df (fst io);
                     stripped ← _str_strip values;
                     Ok (PyTable.assign (snd io) stripped df))
                  df (zip (name :: names) [o]) = single name).
  { intros name names. cbn [zip_with rfold fst snd]. unfold single.
    destruct (PyTable.column df name) as [values|]; [|done]. cbn [mbind result_bind].
    destruct (_str_strip values); [|done]. cbn [mbind result_bind].
    by destruct names. }
  split_and!.
  - intros a rest Ho.
    assert (Hrun : trim df (Str (String a rest)) output = single (String a EmptyString)).
    { unfold format.trim. rewrite Ho. cbn [format.iterate list_ascii_of_string fmap
        list_fmap]. apply Hone. }
    split; [done|]. intros Hmissing. rewrite Hrun. unfold single, PyTable.column,
      PyDict.getitem.
    apply get_None in Hmissing. by rewrite Hmissing.
  - done.
  - intros i rest Ho. unfold format.trim. rewrite Ho. apply Hone.
Qed.

(** X30: in place, [prefix] and [suffix] commute, and two prefixes are the
    prefix of their concatenation, the later one in front; this holds for
    cells whose text, once a cell, has the same text again. *)
Theorem prefix_suffix_compose df input before after outer :
  (∀ s, str (of_str s) = s) →
  (df1 ← prefix df input before None; suffix df1 input after None)
  = (df1 ← suffix df input after None; prefix df1 input before None)
  ∧ (df1 ← prefix df input before None; prefix df1 input outer None)
    = prefix df input (outer +:+ before) None.
Proof.
  intros Hstr. unfold format.prefix, format.suffix, PyTable.column, PyDict.getitem.
  cbn [default from_option id].
  destruct (PyDict.get input df) as [values|] eqn:Hget; [|done].
  cbn [mbind result_bind]. unfold PyTable.assign.
  rewrite !get_set, !decide_True by done. cbn [mbind result_bind].
  rewrite !set_set, <- !list_fmap_compose. split; f_equal; f_equal;
    apply list_fmap_ext; intros i v _; simpl; rewrite !Hstr;
    by rewrite string_app_assoc.
Qed.

End format_facts.

Example remove_duplicates_tags :
  format.remove_duplicates value_items VList value_hashable value_type_name
    value_same_key
    [("tags", [VList [VStr "a"; VStr "b"; VStr "a"]; VStr "none"])] "tags" None
  = Ok [("tags", [VList [VStr "a"; VStr "b"]; VStr "none"])].
Proof. reflexivity. Qed.

Lemma remove_duplicates_rows_witness :
  ∃ output_list,
    format.remove_duplicates value_items VList value_hashable value_type_name
      value_same_key
      [("tags", [VList [VStr "a"; VStr "b"; VStr "a"]; VStr "none"])] "tags"
      (Some "unique")
    = Ok (PyTable.assign "unique" output_list
            [("tags", [VList [VStr "a"; VStr "b"; VStr "a"]; VStr "none"])])
    ∧ length output_list = 2.
Proof.
  destruct (remove_duplicates_rows value_items VList value_hashable value_type_name
              value_same_key
              [("tags", [VList [VStr "a"; VStr "b"; VStr "a"]; VStr "none"])] "tags"
              (Some "unique") [VList [VStr "a"; VStr "b"; VStr "a"]; VStr "none"])
    as (output_list & Hrun & Hall).
  - reflexivity.
  - repeat constructor; intros items [= <-]; by repeat constructor.
  - exists output_list. split; [exact Hrun|].
    symmetry. exact (Forall2_length _ _ _ Hall).
Defined.

Lemma trim_reads_first_witness :
  format.trim (λ values : list string, Ok (PyStr.strip <$> values))
    [("name", [" x "])] (Str "name") None
  = Raise (KeyError "n").
Proof.
  apply (proj1 (trim_reads_first (λ values : list string, Ok (PyStr.strip <$> values))
                  [("name", [" x "])] None "name") "n"%char "ame" eq_refl).
  cbn. set_solver.
Defined.

Lemma prefix_suffix_compose_witness :
  (df1 ← format.prefix (λ s : string, s) (λ s : string, s)
           [("code", ["1"; "2"])] "code" "A-" None;
   format.suffix (λ s : string, s) (λ s : string, s) df1 "code" "-Z" None)
  = (df1 ← format.suffix (λ s : string, s) (λ s : string, s)
             [("code", ["1"; "2"])] "code" "-Z" None;
     format.prefix (λ s : string, s) (λ s : string, s) df1 "code" "A-" None).
Proof.
  apply (prefix_suffix_compose (λ s : string, s) (λ s : string, s)
           [("code", ["1"; "2"])] "code" "A-" "-Z" "B-").
  reflexivity.
Defined.
